(** * Synevola: the long-document summarization pipeline

    A shallow embedding of the token chunker, the tokenizer adapter, the
    chat/completion fallback, the server addresses and the summarization
    orchestrator of [streamlit_appv6.py], and of [process_audio] with
    [_diarize_audio] of [audio_processing.py], together with the properties
    the specification states about them and further ones the code shows.

    - Python integers are [Z], lists are Rocq lists, [str] is [string] (a
      sequence of bytes, non-ASCII text being its UTF-8 encoding, so that
      whitespace is the ASCII whitespace); a float is carried as its 64-bit
      pattern and never computed with.
    - A function that talks to the outside is a computation over a [state]:
      the world its HTTP requests read and change, and the trace of what the
      run did (warnings, status lines, requests, summarization calls).  It
      [Returns], [Raises] a Python exception, or is [OutOfFuel] when the
      bound given to the chunking loop is reached with the loop still
      running.
    - The external collaborators (tokenizer libraries, the two HTTP
      wrappers of the inference server, the transcription engines, the
      diarization pipeline) are section variables: every theorem holds for
      whatever they answer.

    Definitions come first, theorems after them, and their instances on
    sample collaborators last. *)

From Stdlib Require Import ZArith Lia Ascii String.
From stdpp Require Import base list strings pretty.

Local Open Scope Z_scope.

(** ** Python values and primitives *)

(** A Python float, carried but never computed with: its IEEE-754 bits. *)
Record float64 := F64 { f64_bits : Z }.

(** [0.0]: the all-zero bit pattern. *)
Definition float_zero : float64 := F64 0.

(** The line feed of the source's ["\n"]. *)
Definition nl : string := String "010"%char EmptyString.

Module Py.

(** Normalisation of one bound of a slice [l[i:j]] on a sequence of length
    [n]: a negative bound counts from the end, and every bound is clamped
    into [0..n]. *)
Definition slice_bound (n i : Z) : Z :=
  if i <? 0 then Z.max 0 (i + n) else Z.min i n.

(** [l[start:stop]] *)
Definition slice {A} (l : list A) (start stop : Z) : list A :=
  let n := Z.of_nat (length l) in
  let s := slice_bound n start in
  let e := slice_bound n stop in
  take (Z.to_nat (e - s)) (drop (Z.to_nat s) l).

(** [len(l)] *)
Definition len {A} (l : list A) : Z := Z.of_nat (length l).

(** Truth value of a [str]: non-empty. *)
Definition truthy (s : string) : bool :=
  match s with EmptyString => false | String _ _ => true end.

(** [c.isspace()] on the ASCII range: TAB, LF, VT, FF, CR, FS, GS, RS, US and
    the space. *)
Definition isspace (c : ascii) : bool :=
  let k := nat_of_ascii c in
  ((9 <=? k)%nat && (k <=? 13)%nat) || ((28 <=? k)%nat && (k <=? 32)%nat).

(** [s.split()] scans left to right; [cur] is the word being read, kept in
    reverse. *)
Fixpoint split_aux (s : string) (cur : list ascii) : list string :=
  let flush (rest : list string) :=
    match cur with
    | [] => rest
    | _ => string_of_list_ascii (rev cur) :: rest
    end in
  match s with
  | EmptyString => flush []
  | String c s' =>
      if isspace c then flush (split_aux s' []) else split_aux s' (c :: cur)
  end.

(** [s.split()]: the maximal runs of non-whitespace characters. *)
Definition split (s : string) : list string := split_aux s [].

(** [sep.join(l)] *)
Fixpoint join (sep : string) (l : list string) : string :=
  match l with
  | [] => EmptyString
  | [x] => x
  | x :: rest => x +:+ sep +:+ join sep rest
  end.

(** [int(round(a / b))] for [a >= 0] and [b > 0]: the quotient rounded to the
    nearest integer, ties to the even one.  The float quotient of the source
    is taken as the exact one. *)
Definition round_div (a b : Z) : Z :=
  let q := a / b in
  let r := a mod b in
  if 2 * r <? b then q
  else if 2 * r >? b then q + 1
  else if Z.even q then q else q + 1.

(** [str(i)] and [f"{i}"] for an integer. *)
Definition str_int (i : Z) : string := pretty i.

End Py.

Arguments Py.str_int : simpl never.

(** ** Exceptions, outcomes and the observable trace *)

(** The exception classes the code tells apart: [except
    requests.exceptions.HTTPError] against [except Exception]. *)
Inductive exn_class := HTTPError | ValueError | AttributeError | IndexError | OtherException.

(** An exception: its class and [str(e)]. *)
Record exn := Exn { exn_cls : exn_class; exn_str : string }.

Definition is_HTTPError (e : exn) : bool :=
  match exn_cls e with HTTPError => true | _ => false end.

(** [f"{e}"] for a variable holding an exception or [None]. *)
Definition str_opt_exn (e : option exn) : string :=
  match e with Some e => exn_str e | None => "None" end.

(** How a call ends.  [OutOfFuel]: the iteration bound given to a loop was
    reached while the loop was still running. *)
Inductive outcome (A : Type) :=
| Returns (a : A)
| Raises (e : exn)
| OutOfFuel.
Arguments Returns {A} a.
Arguments Raises {A} e.
Arguments OutOfFuel {A}.

(** What a run does to the outside, in order. *)
Inductive event :=
| Warning (msg : string)
    (* st.warning(msg) *)
| StatusWrite (msg : string)
    (* status_container.write(msg) *)
| ChatRequest (system_prompt user_prompt : string) (answer : exn + string)
    (* one call_chat_completions, with what it returned or raised *)
| CompletionRequest (prompt : string) (answer : exn + string)
    (* one call_completions *)
| Summarization (user_prompt : string) (answer : exn + string).
    (* one finished chat_or_complete invocation *)

(** The state a run threads: the outside world, which the HTTP endpoints
    read and change, and the trace of events so far. *)
Record state (W : Type) := State { world : W; trace : list event }.
Arguments State {W} world trace.
Arguments world {W} s.
Arguments trace {W} s.

(** Computations: state passing with exceptions. *)
Definition M (W A : Type) : Type := state W -> outcome A * state W.

Definition ret {W A} (a : A) : M W A := fun st => (Returns a, st).

Definition raise {W A} (e : exn) : M W A := fun st => (Raises e, st).

Definition bind {W A B} (m : M W A) (k : A -> M W B) : M W B :=
  fun st =>
    match m st with
    | (Returns a, st') => k a st'
    | (Raises e, st') => (Raises e, st')
    | (OutOfFuel, st') => (OutOfFuel, st')
    end.

Notation "x <- m ; k" := (bind m (fun x => k))
  (at level 20, m at level 100, k at level 200, only parsing).

(** A [try] block whose [except Exception] clauses inspect the exception. *)
Definition attempt {W A} (m : M W A) : M W (exn + A) :=
  fun st =>
    match m st with
    | (Returns a, st') => (Returns (inr a), st')
    | (Raises e, st') => (Returns (inl e), st')
    | (OutOfFuel, st') => (OutOfFuel, st')
    end.

Definition emit {W} (ev : event) : M W unit :=
  fun st => (Returns tt, State (world st) (trace st ++ [ev])).

(** A loop run with an iteration bound. *)
Definition bounded {W A} (r : option A) : M W A :=
  match r with Some a => ret a | None => fun st => (OutOfFuel, st) end.

(** A call that ended with [r]: returned or raised. *)
Definition outcome_of {A} (r : exn + A) : outcome A :=
  match r with inr a => Returns a | inl e => Raises e end.

(** A call that touches neither the world nor the trace. *)
Definition lift {W A} (r : exn + A) : M W A := fun st => (outcome_of r, st).

(** [for x in l: out.append(f(x))], stopping at the first exception. *)
Fixpoint map_raise {A B} (f : A -> exn + B) (l : list A) : exn + list B :=
  match l with
  | [] => inr []
  | x :: rest =>
      match f x with
      | inl e => inl e
      | inr y =>
          match map_raise f rest with
          | inl e => inl e
          | inr ys => inr (y :: ys)
          end
      end
  end.

(** The answers of the chat_or_complete invocations of a trace, in order. *)
Fixpoint summarizations (tr : list event) : list (string * (exn + string)) :=
  match tr with
  | [] => []
  | Summarization p a :: rest => (p, a) :: summarizations rest
  | _ :: rest => summarizations rest
  end.

(** ** Tokens and tokenizers *)

(** A token: an integer id, or a word when the whitespace split is the last
    resort. *)
Inductive token := TokenId (i : Z) | TokenWord (w : string).

(** A loaded HuggingFace tokenizer: [tok.encode] and [tok.decode]. *)
Record hf_tokenizer := HfTokenizer {
  hf_encode : string -> exn + list Z;
  hf_decode : list token -> exn + string
}.

(** ** The chunking loop of [chunk_text_by_tokens] *)

(** The [while start < n] loop (source lines 578-586).  [fuel] bounds the
    number of iterations; [None] means the bound was reached with the loop
    still running.
<<
    while start < n:
        end = min(start + max_tokens, n)
        chunks.append(ids[start:end])
        if end >= n:
            break
        start = end - overlap if end - overlap > 0 else end
>> *)
Fixpoint chunk_loop {A} (fuel : nat) (ids : list A) (max_tokens overlap : Z)
    (start : Z) (chunks : list (list A)) : option (list (list A)) :=
  let n := Py.len ids in
  if start <? n then
    match fuel with
    | O => None
    | S fuel' =>
        let end_ := Z.min (start + max_tokens) n in
        let chunks := chunks ++ [Py.slice ids start end_] in
        if end_ >=? n then Some chunks
        else
          let start := if end_ - overlap >? 0 then end_ - overlap else end_ in
          chunk_loop fuel' ids max_tokens overlap start chunks
    end
  else Some chunks.

(** The token windows [(start, end)] the loop visits: the same loop with the
    bounds recorded instead of the slices. *)
Fixpoint chunk_windows (fuel : nat) (n max_tokens overlap : Z) (start : Z)
    : option (list (Z * Z)) :=
  if start <? n then
    match fuel with
    | O => None
    | S fuel' =>
        let end_ := Z.min (start + max_tokens) n in
        if end_ >=? n then Some [(start, end_)]
        else
          let start' := if end_ - overlap >? 0 then end_ - overlap else end_ in
          cons (start, end_) <$> chunk_windows fuel' n max_tokens overlap start'
    end
  else Some [].

Definition window_slice {A} (ids : list A) (w : Z * Z) : list A :=
  Py.slice ids w.1 w.2.

(** [start] after one turn of the loop that did not [break]. *)
Definition next_start (max_tokens overlap start : Z) : Z :=
  let end_ := start + max_tokens in
  if end_ - overlap >? 0 then end_ - overlap else end_.

(** The windows of a run from [start] in which every window but the last is
    [max_tokens] long and the next one starts [overlap] before its end. *)
Inductive window_chain (n max_tokens overlap : Z) : Z -> list (Z * Z) -> Prop :=
| chain_last start :
    start < n -> n <= start + max_tokens ->
    window_chain n max_tokens overlap start [(start, n)]
| chain_next start ws :
    start + max_tokens < n ->
    window_chain n max_tokens overlap (start + max_tokens - overlap) ws ->
    window_chain n max_tokens overlap start ((start, start + max_tokens) :: ws).

(** The second half of [chunk_text_by_tokens] when no HuggingFace tokenizer
    is at hand (source lines 593-601): each chunk is rebuilt from a
    proportional run of the words of the text. *)
Fixpoint decode_by_words (words : list string) (ratio overlap : Z) (idx : Z)
    (chunks : list (list token)) : list string :=
  match chunks with
  | [] => []
  | c :: rest =>
      let take_ := Z.max 1 (Py.len c * ratio) in
      Py.join " " (Py.slice words idx (idx + take_))
        :: decode_by_words words ratio overlap
             (idx + (take_ - Z.min overlap 50)) rest
  end.

(** ** The pipeline over its external collaborators *)

(** A speaker turn of the diarization: [turn.start] and [turn.end]. *)
Record turn := Turn { turn_start : float64; turn_end : float64 }.

(** A transcript segment: [(start, end, speaker, text)]. *)
Definition segment : Type := float64 * float64 * string * string.

(** A loaded pyannote pipeline: [pipeline(audio_path)] followed by
    [itertracks(yield_label=True)], which yields [(turn, track, speaker)];
    and [pipeline.to(torch.device("cuda"))]. *)
Record diarization_pipeline := DiarizationPipeline {
  run_itertracks : string -> exn + list (turn * string * string);
  to_cuda : option exn
}.

(** ** Prompts of the summary function *)

(** The prompt of the direct strategy (source line 793). *)
Definition direct_prompt (user_prompt text_for_llm : string) : string :=
  user_prompt +:+ nl +:+ nl +:+ "Texte à résumer:" +:+ nl +:+
  "```text" +:+ nl +:+ text_for_llm +:+ nl +:+ "```".

(** The prompt for block [i] of [n] (source line 811). *)
Definition block_prompt (user_prompt : string) (i n : Z) (ch : string) : string :=
  user_prompt +:+ nl +:+ nl +:+ "Tu résumes le **bloc " +:+ Py.str_int i +:+
  "/" +:+ Py.str_int n +:+ "** ci-dessous." +:+ nl +:+
  "```text" +:+ nl +:+ ch +:+ nl +:+ "```".

(** One entry of [partial_summaries] (source line 814). *)
Definition block_summary (i : Z) (smry : string) : string :=
  "### Bloc " +:+ Py.str_int i +:+ nl +:+ smry.

(** The synthesis prompt (source lines 821-825). *)
Definition synth_prompt (user_prompt : string) (chunk_summaries : list string)
    : string :=
  let joined := Py.join (nl +:+ nl) chunk_summaries in
  user_prompt +:+ nl +:+ nl +:+ "Voici les résumés des blocs :" +:+ nl +:+
  joined +:+ nl +:+ nl +:+
  "Produis **un seul résumé final** structuré. Ne répète pas bloc par bloc.".

(** [s] occurs in [t]. *)
Definition occurs_in (s t : string) : Prop :=
  exists before after, t = before +:+ s +:+ after.

(** [s1] occurs in [t] before [s2] does. *)
Definition precedes_in (s1 s2 t : string) : Prop :=
  exists before between after, t = before +:+ s1 +:+ between +:+ s2 +:+ after.

(** The prompts of the blocks of [chunks], numbered from [i], out of [n]. *)
Fixpoint block_prompts (user_prompt : string) (n i : Z) (chunks : list string)
    : list string :=
  match chunks with
  | [] => []
  | ch :: rest =>
      block_prompt user_prompt i n ch :: block_prompts user_prompt n (i + 1) rest
  end.

(** The entries of [partial_summaries] for the answers [smrys], numbered
    from [i]. *)
Fixpoint block_summaries (i : Z) (smrys : list string) : list string :=
  match smrys with
  | [] => []
  | smry :: rest =>
      block_summary i smry :: block_summaries (i + 1) rest
  end.

(** Calls that returned: each prompt with its answer. *)
Definition answered (prompts answers : list string)
    : list (string * (exn + string)) :=
  zip prompts (inr <$> answers).

(** The token sequence rebuilt from overlapping chunks: the first chunk,
    then every later chunk without its first [overlap] tokens. *)
Definition reassemble {A} (overlap : Z) (chunks : list (list A)) : list A :=
  match chunks with
  | [] => []
  | c :: rest => c ++ concat (drop (Z.to_nat overlap) <$> rest)
  end.

(** The answer an HTTP request of the trace got. *)
Definition request_answer (ev : event) : option (exn + string) :=
  match ev with
  | ChatRequest _ _ answer => Some answer
  | CompletionRequest _ answer => Some answer
  | _ => None
  end.

(** The progress lines and the summarization calls of a trace, in order. *)
Fixpoint progress (tr : list event) : list event :=
  match tr with
  | [] => []
  | StatusWrite msg :: rest => StatusWrite msg :: progress rest
  | Summarization p a :: rest => Summarization p a :: progress rest
  | _ :: rest => progress rest
  end.

(** What a status line leaves in the trace: nothing without a status
    container. *)
Definition status_line (status_container : bool) (msg : string) : list event :=
  if status_container then [StatusWrite msg] else [].

(** What the loop over the blocks shows for the blocks of [chunks] whose
    calls ended with [answers], numbered from [i], out of [n]: for each
    block its status line, then its call. *)
Fixpoint block_progress (user_prompt : string) (status_container : bool)
    (n i : Z) (chunks : list string) (answers : list (exn + string))
    : list event :=
  match chunks, answers with
  | ch :: chunks', a :: answers' =>
      status_line status_container
        ("🔄 Résumé bloc " +:+ Py.str_int i +:+ "/" +:+ Py.str_int n +:+ "...")
      ++ Summarization (block_prompt user_prompt i n ch) a
           :: block_progress user_prompt status_container n (i + 1) chunks'
                answers'
  | _, _ => []
  end.

(** ** Results and errors of [process_audio] *)

(** The list [process_audio] returns, whose format depends on the
    diarization: one text, or [(start, end, speaker, text)] segments. *)
Inductive transcriptions :=
| Plain (texts : list string)
| Diarized (segments : list segment).

(** What [process_audio] raises: its own two errors, with their message, or
    the exception of a transcription engine. *)
Inductive audio_exn :=
| FileNotFoundError (msg : string)
| RuntimeError (msg : string)
| EngineError (e : exn).

(** The texts a result carries, in order. *)
Definition transcription_texts (r : transcriptions) : list string :=
  match r with
  | Plain texts => texts
  | Diarized segments => snd <$> segments
  end.

(** The runs of words the fallback decoding takes when one word is taken per
    token: the run of a token window [(s, e)] starts at [idx], is [e - s]
    long, and the next run starts [min(overlap, 50)] before its end. *)
Fixpoint word_windows (overlap idx : Z) (windows : list (Z * Z)) : list (Z * Z) :=
  match windows with
  | [] => []
  | (s, e) :: rest =>
      (idx, idx + (e - s))
        :: word_windows overlap (idx + (e - s - Z.min overlap 50)) rest
  end.

(** ** Addresses of the inference server *)

(** [s.rstrip(chars)] for a set [chars] of ASCII characters (no byte of a
    multi-byte character of a UTF-8 text is one of them). *)
Fixpoint py_rstrip (chars s : string) : string :=
  match s with
  | EmptyString => EmptyString
  | String c rest =>
      match py_rstrip chars rest with
      | EmptyString =>
          if existsb (Ascii.eqb c) (list_ascii_of_string chars)
          then EmptyString else String c EmptyString
      | stripped => String c stripped
      end
  end.

(** [_lmstudio_base] (source lines 608-609) *)
Definition _lmstudio_base (base_url : string) : string :=
  py_rstrip "/" base_url.

(** The addresses asked by [call_chat_completions] (line 629),
    [call_completions] (line 662), and by [list_lmstudio_models] and
    [check_lmstudio_status] (lines 619 and 519). *)
Definition chat_completions_url (base_url : string) : string :=
  _lmstudio_base base_url +:+ "/v1/chat/completions".

Definition completions_url (base_url : string) : string :=
  _lmstudio_base base_url +:+ "/v1/completions".

Definition models_url (base_url : string) : string :=
  _lmstudio_base base_url +:+ "/v1/models".

(** [k] slashes. *)
Fixpoint slashes (k : nat) : string :=
  match k with
  | O => EmptyString
  | S k => String "/"%char (slashes k)
  end.

(** ** Sample collaborators

    Concrete tokenizers and inference servers, on which the theorems are
    instantiated. *)

Module Sample.

Definition unavailable : exn := Exn OtherException "unavailable".

(** No HuggingFace model can be loaded. *)
Definition no_hf (_ : string) : exn + hf_tokenizer := inl unavailable.

(** tiktoken is not installed. *)
Definition no_tiktoken (_ : string) : exn + list Z := inl unavailable.

(** A tokenizer with one token per character. *)
Definition char_tokens (s : string) : exn + list Z :=
  inr ((fun c => Z.of_nat (nat_of_ascii c)) <$> list_ascii_of_string s).

(** A HuggingFace tokenizer that loads and works, one token per character. *)
Definition char_hf (_ : string) : exn + hf_tokenizer :=
  inr (HfTokenizer char_tokens
         (fun c => inr (Py.join EmptyString
                          ((fun t => match t with
                                     | TokenId i => String (ascii_of_nat (Z.to_nat i)) EmptyString
                                     | TokenWord w => w
                                     end) <$> c)))).

(** A HuggingFace tokenizer that loads but whose [encode] raises. *)
Definition broken_hf (_ : string) : exn + hf_tokenizer :=
  inr (HfTokenizer (fun _ => inl unavailable) (fun _ => inl unavailable)).

(** A server following a script: the world is the list of the answers still
    to give, and each request takes the next one; past the end of the script
    the answer is ["ok"]. *)
Definition script : Type := list (exn + string).

Definition next_answer (w : script) : (exn + string) * script :=
  match w with
  | [] => (inr "ok", [])
  | a :: rest => (a, rest)
  end.

Definition scripted_chat (_ _ _ _ : string) (_ : float64) (_ : Z) (w : script)
    : (exn + string) * script := next_answer w.

Definition scripted_completions (_ _ _ : string) (_ : float64) (_ : Z) (w : script)
    : (exn + string) * script := next_answer w.

Definition http_500 : exn :=
  Exn HTTPError "500 Server Error: Internal Server Error for url: http://127.0.0.1:1234/v1/chat/completions".

Definition http_503 : exn :=
  Exn HTTPError "503 Server Error: Service Unavailable for url: http://127.0.0.1:1234/v1/completions".

Definition timed_out : exn := Exn OtherException "Read timed out.".

Definition temperature : float64 := F64 4596373779694328218.

(** A text of 14000 one-letter words. *)
Definition long_text : string :=
  Py.join " " (replicate (Z.to_nat 14000) "a").

(** Its tokens when the whitespace split is the tokenizer. *)
Definition long_ids : list token :=
  TokenWord <$> replicate (Z.to_nat 14000) "a".

(** A summary mode that is not the direct one. *)
Definition by_blocks : string := "Résumé par blocs + synthèse".

(** A text of six words. *)
Definition six_words : string := "un deux trois quatre cinq six".

(** A diarization with two turns, [0.0, 3.0] and [3.0, 5.0]. *)
Definition two_turns : diarization_pipeline :=
  DiarizationPipeline
    (fun _ =>
       inr [(Turn (F64 0) (F64 4613937818241073152), "A", "SPEAKER_00");
            (Turn (F64 4613937818241073152) (F64 4617315517961601024), "B",
             "SPEAKER_01")])
    None.

Definition load_two_turns (_ _ : string) : exn + diarization_pipeline :=
  inr two_turns.

(** A diarization that finds nobody. *)
Definition no_turn : diarization_pipeline :=
  DiarizationPipeline (fun _ => inr []) None.

Definition load_no_turn (_ _ : string) : exn + diarization_pipeline :=
  inr no_turn.

(** The only audio file there is. *)
Definition present (path : string) : bool := String.eqb path "reunion.wav".

(** Transcription engines that hear the same words. *)
Definition whisper (_ _ _ _ : string) : exn + string := inr "Bonjour à tous.".

Definition faster_whisper (_ _ _ _ _ : string) : exn + list string :=
  inr ["Bonjour"; "à tous."].

(** The loaded tokenizer of [broken_hf]. *)
Definition broken_tokenizer : hf_tokenizer :=
  HfTokenizer (fun _ => inl unavailable) (fun _ => inl unavailable).

End Sample.

Section Synevola.

(** The world the HTTP endpoints live in. *)
Context {W : Type}.

(** [AutoTokenizer.from_pretrained(model_id, use_fast=True)], import
    included. *)
Variable AutoTokenizer_from_pretrained : string -> exn + hf_tokenizer.

(** The [try] body of source lines 565-567: [import tiktoken], [get_encoding]
    and [enc.encode(text)]. *)
Variable tiktoken_encode : string -> exn + list Z.

(** The two HTTP wrappers (source lines 627-675), with what they return or
    raise, and what they do to the world:
    [call_chat_completions base_url model system_prompt user_prompt
    temperature max_tokens] and [call_completions base_url model prompt
    temperature max_tokens]. *)
Variable call_chat_completions :
  string -> string -> string -> string -> float64 -> Z -> W -> (exn + string) * W.
Variable call_completions :
  string -> string -> string -> float64 -> Z -> W -> (exn + string) * W.

(** [audio_processing]: the module constants [HF_TOKEN] and [DEVICE], and
    [Pipeline.from_pretrained(name, use_auth_token=token)]. *)
Variable HF_TOKEN : string.
Variable DEVICE : string.
Variable Pipeline_from_pretrained : string -> string -> exn + diarization_pipeline.

(** *** Tokenization utilities *)

(** [get_hf_tokenizer]: a failed load is turned into a warning and [None]. *)
Definition get_hf_tokenizer (model_id : string) : M W (option hf_tokenizer) :=
  match AutoTokenizer_from_pretrained model_id with
  | inr tok => ret (Some tok)
  | inl e =>
      _ <- emit (Warning ("Impossible de charger le tokenizer HF '" +:+ model_id
                            +:+ "': " +:+ exn_str e));
      ret None
  end.

(** [encode_tokens] (source lines 551-569). *)
Definition encode_tokens (text backend hf_model_id : string) : M W (list token) :=
  if negb (Py.truthy text) then ret []
  else
    (* the [if backend == "HuggingFace"] block: [Some ids] is its [return] *)
    hf <- (if String.eqb backend "HuggingFace" then
             tok <- get_hf_tokenizer hf_model_id;
             match tok with
             | None => ret None
             | Some tok =>
                 match hf_encode tok text with
                 | inr ids => ret (Some ids)
                 | inl e =>
                     _ <- emit (Warning ("Echec encodage HF, fallback tiktoken: "
                                           +:+ exn_str e));
                     ret None
                 end
             end
           else ret None);
    match hf with
    | Some ids => ret (TokenId <$> ids)
    | None =>
        match tiktoken_encode text with
        | inr ids => ret (TokenId <$> ids)
        | inl _ => ret (TokenWord <$> Py.split text)
        end
    end.

(** [count_tokens] *)
Definition count_tokens (text backend hf_model_id : string) : M W Z :=
  ids <- encode_tokens text backend hf_model_id;
  ret (Py.len ids).

(** [chunk_text_by_tokens] (source lines 574-602); [fuel] bounds the
    iterations of its [while] loop. *)
Definition chunk_text_by_tokens (fuel : nat) (text : string) (max_tokens : Z)
    (backend hf_model_id : string) (overlap : Z) : M W (list string) :=
  ids <- encode_tokens text backend hf_model_id;
  match ids with
  | [] => ret []
  | _ =>
      chunks <- bounded (chunk_loop fuel ids max_tokens overlap 0 []);
      (* [backend == "HuggingFace" and get_hf_tokenizer(hf_model_id) is not None] *)
      use_hf <- (if String.eqb backend "HuggingFace" then
                   tok <- get_hf_tokenizer hf_model_id;
                   ret (bool_decide (is_Some tok))
                 else ret false);
      if use_hf then
        tok <- get_hf_tokenizer hf_model_id;
        (* for c in chunks: decoded.append(tok.decode(c)) *)
        lift (map_raise
                (fun c =>
                   match tok with
                   | Some tok => hf_decode tok c
                   | None =>
                       inl (Exn AttributeError
                              "'NoneType' object has no attribute 'decode'")
                   end) chunks)
      else
        let words := Py.split text in
        if Py.len ids =? 0 then ret [text]
        else
          let ratio := Z.max 1 (Py.round_div (Py.len words) (Py.len ids)) in
          ret (decode_by_words words ratio overlap 0 chunks)
  end.

(** *** Inference server helpers *)

Definition chat_request (base_url model system_prompt user_prompt : string)
    (temperature : float64) (max_tokens : Z) : M W string :=
  fun st =>
    let '(answer, w) :=
      call_chat_completions base_url model system_prompt user_prompt
        temperature max_tokens (world st) in
    let st' := State w (trace st ++ [ChatRequest system_prompt user_prompt answer]) in
    match answer with
    | inl e => (Raises e, st')
    | inr result => (Returns result, st')
    end.

Definition completion_request (base_url model prompt : string)
    (temperature : float64) (max_tokens : Z) : M W string :=
  fun st =>
    let '(answer, w) :=
      call_completions base_url model prompt temperature max_tokens (world st) in
    let st' := State w (trace st ++ [CompletionRequest prompt answer]) in
    match answer with
    | inl e => (Raises e, st')
    | inr result => (Returns result, st')
    end.

(** [mode in (a, b)] *)
Definition mode_in (mode a b : string) : bool :=
  String.eqb mode a || String.eqb mode b.

(** The first [if] block of [chat_or_complete] (source lines 681-693):
    [inl result] is its [return result]; [inr last_error] falls through. *)
Definition chat_stage (base_url model system_prompt user_prompt : string)
    (temperature : float64) (max_tokens : Z) (mode : string)
    : M W (string + option exn) :=
  if mode_in mode "auto" "chat" then
    r <- attempt (chat_request base_url model system_prompt user_prompt
                    temperature max_tokens);
    match r with
    | inr result =>
        if Py.truthy result then ret (inl result) else ret (inr None)
    | inl e =>
        if is_HTTPError e then
          if String.eqb mode "chat" then
            raise (Exn ValueError
                     ("Erreur API chat/completions: " +:+ exn_str e +:+ "."))
          else ret (inr (Some e))
        else
          if String.eqb mode "chat" then raise e else ret (inr (Some e))
    end
  else ret (inr None).

Definition merged_prompt (system_prompt user_prompt : string) : string :=
  "### System:" +:+ nl +:+ system_prompt +:+ nl +:+ nl +:+
  "### User:" +:+ nl +:+ user_prompt +:+ nl +:+ nl +:+
  "### Assistant:" +:+ nl.

Definition both_endpoints_failed (last_error : option exn) (e : exn) : string :=
  "Échec des deux endpoints API." +:+ nl +:+
  "- /v1/chat/completions: " +:+ str_opt_exn last_error +:+ nl +:+
  "- /v1/completions: " +:+ exn_str e +:+ nl +:+ nl +:+
  "Vérifiez LM Studio et le Context Length.".

Definition chat_and_completions_failed (last_error e : exn) : string :=
  "Échec chat (" +:+ exn_str last_error +:+ ") et completions (" +:+
  exn_str e +:+ ")".

(** The second [if] block (source lines 695-711): [Some result] is its
    [return result]. *)
Definition completions_stage (base_url model system_prompt user_prompt : string)
    (temperature : float64) (max_tokens : Z) (mode : string)
    (last_error : option exn) : M W (option string) :=
  if mode_in mode "auto" "completions" then
    r <- attempt (completion_request base_url model
                    (merged_prompt system_prompt user_prompt)
                    temperature max_tokens);
    match r with
    | inr result => if Py.truthy result then ret (Some result) else ret None
    | inl e =>
        if is_HTTPError e then
          raise (Exn ValueError (both_endpoints_failed last_error e))
        else
          match last_error with
          | Some le => raise (Exn ValueError (chat_and_completions_failed le e))
          | None => raise e
          end
    end
  else ret None.

(** [chat_or_complete] (source lines 677-715). *)
Definition chat_or_complete (base_url model system_prompt user_prompt : string)
    (temperature : float64) (max_tokens : Z) (mode : string) : M W string :=
  first <- chat_stage base_url model system_prompt user_prompt
             temperature max_tokens mode;
  match first with
  | inl result => ret result
  | inr last_error =>
      second <- completions_stage base_url model system_prompt user_prompt
                  temperature max_tokens mode last_error;
      match second with
      | Some result => ret result
      | None =>
          match last_error with
          | Some e => raise e
          | None => ret EmptyString
          end
      end
  end.

(** [chat_or_complete] as the orchestrator calls it: once the call has
    returned or raised, the trace records it. *)
Definition summarization_call (base_url model system_prompt user_prompt : string)
    (temperature : float64) (max_tokens : Z) (mode : string) : M W string :=
  r <- attempt (chat_or_complete base_url model system_prompt user_prompt
                  temperature max_tokens mode);
  _ <- emit (Summarization user_prompt r);
  match r with
  | inr result => ret result
  | inl e => raise e
  end.

(** *** The summary function *)

(** [if status_container: status_container.write(msg)] *)
Definition status_write (status_container : bool) (msg : string) : M W unit :=
  if status_container then emit (StatusWrite msg) else ret tt.

(** The loop [for i, ch in enumerate(chunks, 1)] (source lines 808-814);
    [n] is [len(chunks)] of the whole list and [i] the position of the head
    of what is left. *)
Fixpoint summarize_blocks (lm_base_url lm_model system_prompt user_prompt : string)
    (temperature : float64) (max_tokens : Z) (api_mode_key : string)
    (status_container : bool) (n i : Z) (chunks : list string)
    (partial_summaries : list string) : M W (list string) :=
  match chunks with
  | [] => ret partial_summaries
  | ch :: rest =>
      _ <- status_write status_container
             ("🔄 Résumé bloc " +:+ Py.str_int i +:+ "/" +:+ Py.str_int n +:+ "...");
      smry <- summarization_call lm_base_url lm_model system_prompt
                (block_prompt user_prompt i n ch) temperature max_tokens
                api_mode_key;
      summarize_blocks lm_base_url lm_model system_prompt user_prompt
        temperature max_tokens api_mode_key status_container n (i + 1) rest
        (partial_summaries ++ [block_summary i smry])
  end.

(** [mode_resume.startswith("Résumé direct") or total_tokens <= chunk_size] *)
Definition direct_strategy (mode_resume : string) (total_tokens chunk_size : Z)
    : bool :=
  String.prefix "Résumé direct" mode_resume || (total_tokens <=? chunk_size).

(** [generate_summary] (source lines 782-829); [fuel] bounds the iterations
    of the chunking loop. *)
Definition generate_summary (fuel : nat) (text_for_llm lm_base_url lm_model
    system_prompt user_prompt : string) (temperature : float64) (max_tokens : Z)
    (api_mode_key token_backend hf_tokenizer_model : string)
    (chunk_size overlap : Z) (mode_resume : string) (status_container : bool)
    : M W (string * list string) :=
  total_tokens <- count_tokens text_for_llm token_backend hf_tokenizer_model;
  if direct_strategy mode_resume total_tokens chunk_size then
    _ <- status_write status_container "📝 Génération du résumé direct...";
    summary_text <- summarization_call lm_base_url lm_model system_prompt
                      (direct_prompt user_prompt text_for_llm)
                      temperature max_tokens api_mode_key;
    ret (summary_text, [])
  else
    _ <- status_write status_container "✂️ Découpage du texte en blocs...";
    chunks <- chunk_text_by_tokens fuel text_for_llm chunk_size token_backend
                hf_tokenizer_model overlap;
    _ <- status_write status_container
           ("📚 " +:+ Py.str_int (Py.len chunks) +:+ " blocs à résumer.");
    chunk_summaries <- summarize_blocks lm_base_url lm_model system_prompt
                         user_prompt temperature max_tokens api_mode_key
                         status_container (Py.len chunks) 1 chunks [];
    _ <- status_write status_container "🔗 Synthèse finale en cours...";
    summary_text <- summarization_call lm_base_url lm_model system_prompt
                      (synth_prompt user_prompt chunk_summaries)
                      temperature max_tokens api_mode_key;
    ret (summary_text, chunk_summaries).

(** *** Diarization *)

(** [_diarize_audio] (audio_processing.py, lines 110-153). *)
Definition _diarize_audio (audio_path transcription : string)
    : exn + list segment :=
  if negb (Py.truthy HF_TOKEN) then
    inl (Exn ValueError
           "Token HuggingFace requis pour la diarisation. Définissez HF_TOKEN.")
  else
    match Pipeline_from_pretrained "pyannote/speaker-diarization-3.1" HF_TOKEN with
    | inl e => inl e
    | inr pipeline =>
        match (if String.eqb DEVICE "cuda" then to_cuda pipeline else None) with
        | Some e => inl e
        | None =>
            match run_itertracks pipeline audio_path with
            | inl e => inl e
            | inr tracks =>
                let segments : list segment :=
                  (fun '(turn, _, speaker) =>
                     (turn_start turn, turn_end turn, speaker, EmptyString))
                    <$> tracks in
                match segments with
                | [] => inr [(float_zero, float_zero, "SPEAKER_00", transcription)]
                | _ =>
                    (* segments[0] = (segments[0][0], segments[0][1],
                                      segments[0][2], transcription) *)
                    match segments !! 0%nat with
                    | Some (s, e, speaker, _) =>
                        inr (<[0%nat := (s, e, speaker, transcription)]> segments)
                    | None => inl (Exn IndexError "list index out of range")
                    end
                end
            end
        end
    end.


(** *** Audio processing (audio_processing.py) *)

(** [os.path.exists] *)
Variable os_path_exists : string -> bool.

(** The module constants set by the conditional imports. *)
Variable HAVE_FASTER_WHISPER : bool.
Variable HAVE_WHISPER : bool.
Variable HAVE_PYANNOTE : bool.

(** [whisper.load_model(model_name, device=device)] followed by
    [model.transcribe(audio_path, language=language)] and [result["text"]]:
    [whisper_transcribe model_name device audio_path language]. *)
Variable whisper_transcribe : string -> string -> string -> string -> exn + string.

(** [WhisperModel(size, device=device, compute_type=compute_type)] followed
    by [model.transcribe(audio_path, language=language)]: the texts of the
    segments it yields, [faster_whisper_transcribe size device compute_type
    audio_path language]. *)
Variable faster_whisper_transcribe :
  string -> string -> string -> string -> string -> exn + list string.

(** [_transcribe_whisper] (lines 89-97) *)
Definition _transcribe_whisper (audio_path model_name language : string)
    : exn + string :=
  whisper_transcribe model_name DEVICE audio_path language.

(** [_transcribe_faster_whisper] (lines 100-107) *)
Definition _transcribe_faster_whisper (audio_path language : string)
    : exn + string :=
  match faster_whisper_transcribe "small" DEVICE
          (if String.eqb DEVICE "cuda" then "float16" else "int8")
          audio_path language with
  | inl e => inl e
  | inr texts => inr (Py.join " " texts)
  end.

(** The choice of the engine (lines 70-75): [None] when no engine is
    available. *)
Definition transcribe (audio_path model_name language : string)
    : option (exn + string) :=
  if String.eqb model_name "faster-whisper" && HAVE_FASTER_WHISPER then
    Some (_transcribe_faster_whisper audio_path language)
  else if HAVE_WHISPER then
    Some (_transcribe_whisper audio_path model_name language)
  else None.

(** [process_audio] (lines 45-86): what it prints, and what it returns or
    raises.  The dictionary of the speaker files is an association list. *)
Definition process_audio (audio_path : string) (diarization_enabled : bool)
    (model_name language : string)
    : list string * (audio_exn + transcriptions * list (string * string)) :=
  if negb (os_path_exists audio_path) then
    ([], inl (FileNotFoundError ("Fichier audio non trouvé: " +:+ audio_path)))
  else
    match transcribe audio_path model_name language with
    | None =>
        ([], inl (RuntimeError
                    "Aucun moteur de transcription disponible. Installez whisper ou faster-whisper."))
    | Some (inl e) => ([], inl (EngineError e))
    | Some (inr transcription) =>
        if diarization_enabled && HAVE_PYANNOTE then
          match _diarize_audio audio_path transcription with
          | inr segments => ([], inr (Diarized segments, []))
          | inl e =>
              (["Erreur diarisation: " +:+ exn_str e +:+
                ". Retour à la transcription simple."],
               inr (Plain [transcription], []))
          end
        else ([], inr (Plain [transcription], []))
    end.

(** * Properties *)

(** ** Python slices *)

Lemma py_slice_in_range {A} (l : list A) s e :
  0 <= s -> s <= e -> e <= Py.len l ->
  Py.slice l s e = take (Z.to_nat (e - s)) (drop (Z.to_nat s) l).
Proof.
  intros Hs Hse He. unfold Py.slice, Py.slice_bound, Py.len in *.
  destruct (Z.ltb_spec s 0); [lia|].
  destruct (Z.ltb_spec e 0); [lia|].
  by rewrite !Z.min_l by lia.
Qed.

Lemma py_len_slice {A} (l : list A) s e :
  0 <= s -> s <= e -> e <= Py.len l -> Py.len (Py.slice l s e) = e - s.
Proof.
  intros Hs Hse He. rewrite py_slice_in_range by done.
  unfold Py.len in *. rewrite length_take, length_drop. lia.
Qed.

(** The last [k] tokens of [l[s1:e1]] are the first [k] of [l[e1-k:e2]]. *)
Lemma py_slice_shared {A} (l : list A) s1 e1 e2 k :
  0 <= s1 -> 0 <= k -> s1 <= e1 - k -> e1 <= e2 -> e2 <= Py.len l ->
  drop (Z.to_nat (e1 - k - s1)) (Py.slice l s1 e1) =
  take (Z.to_nat k) (Py.slice l (e1 - k) e2).
Proof.
  intros Hs1 Hk Hs He Hn.
  rewrite !py_slice_in_range by lia.
  rewrite take_take, skipn_firstn_comm, drop_drop.
  f_equal; [lia|]. f_equal. lia.
Qed.

(** ** The chunking loop *)

Lemma chunk_loop_windows {A} (ids : list A) max_tokens overlap fuel :
  forall start chunks,
    chunk_loop fuel ids max_tokens overlap start chunks =
    (fun ws => chunks ++ (window_slice ids <$> ws))
      <$> chunk_windows fuel (Py.len ids) max_tokens overlap start.
Proof.
  induction fuel as [|fuel IH]; intros start chunks; simpl.
  - destruct (start <? Py.len ids); simpl; [done|]. by rewrite app_nil_r.
  - destruct (start <? Py.len ids); simpl; [|by rewrite app_nil_r].
    destruct (Z.min (start + max_tokens) (Py.len ids) >=? Py.len ids); simpl.
    + done.
    + rewrite IH.
      destruct (chunk_windows fuel _ _ _ _) as [ws|]; simpl; [|done].
      by rewrite <- app_assoc.
Qed.

(** One turn of the loop when the window stops short of the end. *)
Lemma chunk_windows_step fuel n max_tokens overlap start :
  start < n -> start + max_tokens < n ->
  chunk_windows (S fuel) n max_tokens overlap start =
  cons (start, start + max_tokens)
    <$> chunk_windows fuel n max_tokens overlap (next_start max_tokens overlap start).
Proof.
  intros Hlt Hend. simpl.
  destruct (Z.ltb_spec start n); [|lia].
  rewrite Z.min_l by lia.
  destruct (Z.geb_spec (start + max_tokens) n); [lia|]. done.
Qed.

(** A set of start positions the loop cannot leave and on which it never
    reaches the end: from there the loop does not return. *)
Lemma chunk_windows_never_returns n max_tokens overlap (P : Z -> Prop) :
  (forall s, P s ->
     s < n /\ s + max_tokens < n /\ P (next_start max_tokens overlap s)) ->
  forall fuel s, P s -> chunk_windows fuel n max_tokens overlap s = None.
Proof.
  intros Hinv fuel. induction fuel as [|fuel IH]; intros s Hs.
  - simpl. destruct (Hinv s Hs) as (Hlt & _ & _).
    by destruct (Z.ltb_spec s n); [|lia].
  - destruct (Hinv s Hs) as (Hlt & Hend & Hnext).
    rewrite chunk_windows_step by done. by rewrite IH.
Qed.

(** With [overlap = max_tokens] the second window starts at [max_tokens] and
    the loop computes that same start again, forever. *)
Lemma chunk_loop_stalls {A} (ids : list A) max_tokens :
  0 < max_tokens -> 2 * max_tokens < Py.len ids ->
  forall fuel, chunk_loop fuel ids max_tokens max_tokens 0 [] = None.
Proof.
  intros Hpos Hlen fuel. rewrite chunk_loop_windows.
  destruct fuel as [|fuel].
  - simpl. by destruct (Z.ltb_spec 0 (Py.len ids)); [|lia].
  - rewrite chunk_windows_step by lia.
    rewrite (chunk_windows_never_returns _ _ _ (fun s => s = max_tokens)); [done| |].
    + intros s ->. unfold next_start.
      destruct (Z.gtb_spec (max_tokens + max_tokens - max_tokens) 0); lia.
    + unfold next_start.
      destruct (Z.gtb_spec (0 + max_tokens - max_tokens) 0); lia.
Qed.

(** With [max_tokens <= 0] and [overlap >= 0] the start never exceeds 0. *)
Lemma chunk_loop_nonpositive {A} (ids : list A) max_tokens overlap :
  ids <> [] -> max_tokens <= 0 -> 0 <= overlap ->
  forall fuel, chunk_loop fuel ids max_tokens overlap 0 [] = None.
Proof.
  intros Hne Hmax Hov fuel. rewrite chunk_loop_windows.
  assert (0 < Py.len ids) by (destruct ids; [done|unfold Py.len; simpl; lia]).
  rewrite (chunk_windows_never_returns _ _ _ (fun s => s <= 0)); [done| |lia].
  intros s Hs. unfold next_start.
  destruct (Z.gtb_spec (s + max_tokens - overlap) 0); lia.
Qed.

(** For [0 <= overlap < max_tokens] the loop returns within [n - start]
    turns, and its windows form a chain. *)
Lemma chunk_windows_chain n max_tokens overlap :
  0 <= overlap < max_tokens ->
  forall fuel start,
    0 <= start < n -> (Z.to_nat (n - start) <= fuel)%nat ->
    exists ws, chunk_windows fuel n max_tokens overlap start = Some ws /\
               window_chain n max_tokens overlap start ws.
Proof.
  intros Hov fuel. induction fuel as [|fuel IH]; intros start Hstart Hfuel.
  - lia.
  - destruct (Z.lt_ge_cases (start + max_tokens) n) as [Hend|Hend].
    + rewrite chunk_windows_step by lia.
      assert (next_start max_tokens overlap start = start + max_tokens - overlap) as ->.
      { unfold next_start.
        destruct (Z.gtb_spec (start + max_tokens - overlap) 0); lia. }
      destruct (IH (start + max_tokens - overlap)) as (ws & -> & Hws); [lia..|].
      eexists. split; [done|]. by constructor.
    + exists [(start, n)]. split; [|constructor; lia].
      simpl. destruct (Z.ltb_spec start n); [|lia].
      rewrite Z.min_r by lia.
      by destruct (Z.geb_spec n n); [|lia].
Qed.

(** More fuel than needed changes nothing. *)
Lemma chunk_windows_fuel_mono n max_tokens overlap fuel :
  forall start ws,
    chunk_windows fuel n max_tokens overlap start = Some ws ->
    forall fuel', (fuel <= fuel')%nat ->
      chunk_windows fuel' n max_tokens overlap start = Some ws.
Proof.
  induction fuel as [|fuel IH]; intros start ws Hrun fuel' Hle.
  - simpl in Hrun. destruct fuel'; simpl; destruct (start <? n); done.
  - destruct fuel' as [|fuel']; [lia|]. simpl in *.
    destruct (start <? n); [|done].
    destruct (Z.min (start + max_tokens) n >=? n); [done|].
    destruct (chunk_windows fuel _ _ _ _) as [ws'|] eqn:Hrec; [|done].
    rewrite (IH _ _ Hrec) by lia. done.
Qed.

Section WindowChain.
Variables n max_tokens overlap : Z.
Hypothesis overlap_range : 0 <= overlap < max_tokens.

Lemma window_chain_bounds start ws :
  window_chain n max_tokens overlap start ws -> 0 <= start ->
  forall i s e, ws !! i = Some (s, e) ->
    start <= s /\ s < e /\ e <= n /\ e - s <= max_tokens.
Proof.
  induction 1 as [start Hlt Hend|start ws Hend Hws IH]; intros Hstart i s e Hi.
  - destruct i; simpl in Hi; [|done]. injection Hi as <- <-. lia.
  - destruct i as [|i]; simpl in Hi.
    + injection Hi as <- <-. lia.
    + apply IH in Hi; lia.
Qed.

Lemma window_chain_head start ws :
  window_chain n max_tokens overlap start ws ->
  ws !! 0%nat = Some (start, Z.min (start + max_tokens) n).
Proof. destruct 1; simpl; do 2 f_equal; lia. Qed.

Lemma window_chain_last start ws :
  window_chain n max_tokens overlap start ws ->
  exists s, last ws = Some (s, n).
Proof.
  induction 1 as [start Hlt Hend|start ws Hend Hws IH]; simpl; [eauto|].
  destruct IH as [s Hs]. exists s.
  destruct ws; [done|]. done.
Qed.

Lemma window_chain_consecutive start ws :
  window_chain n max_tokens overlap start ws -> 0 <= start ->
  forall i s1 e1 s2 e2,
    ws !! i = Some (s1, e1) -> ws !! S i = Some (s2, e2) ->
    s1 < s2 /\ s2 = e1 - overlap /\ e1 < e2.
Proof.
  induction 1 as [start Hlt Hend|start ws Hend Hws IH];
    intros Hstart i s1 e1 s2 e2 H1 H2.
  - destruct i; simpl in H2; done.
  - destruct i as [|i]; simpl in H1, H2.
    + injection H1 as Hs1 He1.
      rewrite (window_chain_head _ _ Hws) in H2. injection H2 as Hs2 He2.
      lia.
    + eapply IH; [lia|done..].
Qed.

Lemma window_chain_covers start ws :
  window_chain n max_tokens overlap start ws -> 0 <= start ->
  forall j, start <= j < n ->
    exists i s e, ws !! i = Some (s, e) /\ s <= j < e.
Proof.
  induction 1 as [start Hlt Hend|start ws Hend Hws IH]; intros Hstart j Hj.
  - exists 0%nat, start, n. split; [done|lia].
  - destruct (Z.lt_ge_cases j (start + max_tokens)) as [Hin|Hout].
    + exists 0%nat, start, (start + max_tokens). split; [done|lia].
    + destruct (IH) with (j := j) as (i & s & e & Hi & Hse); [lia..|].
      exists (S i), s, e. done.
Qed.

End WindowChain.

(** C1 (the code departs from it).  The claim: for every non-empty token
    sequence and every [overlap >= max_tokens > 0] the chunking loop
    terminates, the window start advancing by at least one token per turn.
    On 2001 tokens with [max_tokens = 1000] and [overlap = 1000], both values
    the interface admits, the start computed after the window [1000, 2000)
    is 1000 again, and the loop returns for no number of turns. *)
Theorem chunk_loop_overlap_1000_max_tokens_1000_never_returns :
  next_start 1000 1000 1000 = 1000 /\
  forall fuel,
    chunk_loop fuel (replicate 2001 (TokenId 0)) 1000 1000 0 [] = None.
Proof.
  split; [reflexivity|].
  apply chunk_loop_stalls; [lia|].
  unfold Py.len. rewrite length_replicate. lia.
Qed.

(** C4.  For a non-empty token sequence and [0 < overlap < max_tokens] the
    loop returns (within [len(ids)] turns) the slices of windows [ws] such
    that: every window is non-empty, inside the sequence and at most
    [max_tokens] long; each window starts exactly [overlap] tokens before the
    end of the one before it, strictly after its start, and ends strictly
    after its end, the [overlap] tokens they share being the same tokens; the
    first window starts at index 0, the last ends at [len(ids)], and every
    index of the sequence lies in some window. *)
Theorem chunk_loop_windows_bounded_overlapping_covering
    {A} (ids : list A) max_tokens overlap fuel :
  ids <> [] -> 0 < overlap < max_tokens -> (length ids <= fuel)%nat ->
  exists ws,
    chunk_loop fuel ids max_tokens overlap 0 [] = Some (window_slice ids <$> ws) /\
    (forall i s e, ws !! i = Some (s, e) ->
       0 <= s < e /\ e <= Py.len ids /\ e - s <= max_tokens /\
       Py.len (window_slice ids (s, e)) = e - s) /\
    (forall i s1 e1 s2 e2,
       ws !! i = Some (s1, e1) -> ws !! S i = Some (s2, e2) ->
       s1 < s2 /\ s2 = e1 - overlap /\ e1 < e2 /\
       drop (Z.to_nat (e1 - overlap - s1)) (window_slice ids (s1, e1)) =
       take (Z.to_nat overlap) (window_slice ids (s2, e2))) /\
    (exists e, ws !! 0%nat = Some (0, e)) /\
    (exists s, last ws = Some (s, Py.len ids)) /\
    (forall j, 0 <= j < Py.len ids ->
       exists i s e, ws !! i = Some (s, e) /\ s <= j < e).
Proof.
  intros Hne Hov Hfuel.
  assert (0 < Py.len ids) as Hlen
    by (destruct ids; [done|unfold Py.len; simpl; lia]).
  assert (0 <= overlap < max_tokens) as Hov' by lia.
  destruct (chunk_windows_chain (Py.len ids) max_tokens overlap Hov' fuel 0)
    as (ws & Hrun & Hchain); [lia|unfold Py.len; lia|].
  assert (forall i s e, ws !! i = Some (s, e) ->
            0 <= s /\ s < e /\ e <= Py.len ids /\ e - s <= max_tokens) as Hbounds
    by (intros; eapply window_chain_bounds; eauto; lia).
  exists ws. split; [|split; [|split; [|split; [|split]]]].
  - rewrite chunk_loop_windows, Hrun. done.
  - intros i s e Hi. destruct (Hbounds _ _ _ Hi) as (? & ? & ? & ?).
    repeat split; try lia.
    unfold window_slice; simpl. apply py_len_slice; lia.
  - intros i s1 e1 s2 e2 H1 H2.
    assert (0 <= 0) as Hzero by lia.
    destruct (window_chain_consecutive _ _ _ Hov' _ _ Hchain Hzero
                _ _ _ _ _ H1 H2) as (Hlt & -> & Hend).
    destruct (Hbounds _ _ _ H1) as (? & ? & ? & ?).
    destruct (Hbounds _ _ _ H2) as (? & ? & ? & ?).
    repeat split; try lia.
    unfold window_slice; simpl. apply py_slice_shared; lia.
  - rewrite (window_chain_head _ _ _ _ _ Hchain). eauto.
  - apply (window_chain_last _ _ _ _ _ Hchain).
  - intros j Hj. apply (window_chain_covers _ _ _ Hov' _ _ Hchain); lia.
Qed.

(** Unfolding of the monad's operations. *)
Ltac run_m := unfold bind, ret, raise, emit, attempt, bounded, lift; simpl.

(** ** Strings and traces *)

Lemma string_app_assoc (a b c : string) : (a +:+ b) +:+ c = a +:+ b +:+ c.
Proof.
  induction a as [|x a IH]; [done|].
  change (String x ((a +:+ b) +:+ c) = String x (a +:+ b +:+ c)).
  by rewrite IH.
Qed.

Lemma string_app_nil_r (a : string) : a +:+ EmptyString = a.
Proof.
  induction a as [|x a IH]; [done|].
  change (String x (a +:+ EmptyString) = String x a).
  by rewrite IH.
Qed.

Lemma occurs_in_middle (a s b : string) : occurs_in s (a +:+ s +:+ b).
Proof. by exists a, b. Qed.

Lemma occurs_in_app_l (s t a : string) : occurs_in s t -> occurs_in s (a +:+ t).
Proof.
  intros (x & y & ->). exists (a +:+ x), y. by rewrite string_app_assoc.
Qed.

Lemma occurs_in_app_r (s t a : string) : occurs_in s t -> occurs_in s (t +:+ a).
Proof.
  intros (x & y & ->). exists x, (y +:+ a). by rewrite !string_app_assoc.
Qed.

Lemma truthy_nonempty (s : string) : Py.truthy s = true <-> s <> EmptyString.
Proof. destruct s; simpl; split; done. Qed.

Lemma summarizations_app (tr1 tr2 : list event) :
  summarizations (tr1 ++ tr2) = summarizations tr1 ++ summarizations tr2.
Proof.
  induction tr1 as [|ev tr1 IH]; simpl; [done|].
  destruct ev; simpl; by rewrite ?IH.
Qed.

Lemma summarizations_warnings (msgs : list string) :
  summarizations (Warning <$> msgs) = [].
Proof. induction msgs; simpl; done. Qed.

Lemma state_eta {W'} (st : state W') : State (world st) (trace st ++ []) = st.
Proof. destruct st; simpl. by rewrite app_nil_r. Qed.

(** ** The tokenizer adapter *)

(** [get_hf_tokenizer] returns, and only warns. *)
Lemma get_hf_tokenizer_run model_id :
  exists msgs,
    (length msgs <= 1)%nat /\
    (msgs = [] <-> is_Some (match AutoTokenizer_from_pretrained model_id with
                            | inr tok => Some tok | inl _ => None end)) /\
    forall st,
      get_hf_tokenizer model_id st =
      (Returns (match AutoTokenizer_from_pretrained model_id with
                | inr tok => Some tok | inl _ => None end),
       State (world st) (trace st ++ (Warning <$> msgs))).
Proof.
  unfold get_hf_tokenizer.
  destruct (AutoTokenizer_from_pretrained model_id) as [e|tok].
  - eexists [_]. split; [simpl; lia|]. split.
    + split; [done|]. intros [? ?]; done.
    + intros st. reflexivity.
  - exists []. split; [simpl; lia|]. split; [by eauto|].
    intros st. unfold ret. by rewrite state_eta.
Qed.

(** [encode_tokens] returns a token sequence whatever the state, leaves the
    world alone and adds only warnings to the trace. *)
Lemma encode_tokens_run text backend hf_model_id :
  exists ids msgs,
    forall st,
      encode_tokens text backend hf_model_id st =
      (Returns ids, State (world st) (trace st ++ (Warning <$> msgs))).
Proof.
  unfold encode_tokens.
  destruct (Py.truthy text); simpl.
  2:{ exists [], []. intros st. unfold ret. by rewrite state_eta. }
  destruct (String.eqb backend "HuggingFace").
  - unfold get_hf_tokenizer.
    destruct (AutoTokenizer_from_pretrained hf_model_id) as [e|tok]; run_m.
    + destruct (tiktoken_encode text) as [e'|ids];
        eexists _, [_]; intros st; reflexivity.
    + destruct (hf_encode tok text) as [e|ids]; run_m.
      * destruct (tiktoken_encode text) as [e'|ids];
          eexists _, [_]; intros st; reflexivity.
      * eexists _, []; intros st. simpl. by rewrite state_eta.
  - run_m. destruct (tiktoken_encode text) as [e'|ids];
      eexists _, []; intros st; simpl; by rewrite state_eta.
Qed.

(** C9.  [encode_tokens] never raises: from every state it returns a token
    sequence, the world untouched and only warnings added to the trace.  The
    empty string gives the empty sequence and no warning.  When the
    HuggingFace backend is asked for and fails (the tokenizer does not load,
    or its [encode] raises), exactly one warning is emitted and the result
    is that of tiktoken or, when tiktoken fails too, the whitespace split of
    the text.  When it succeeds its ids are returned without a warning. *)
Theorem encode_tokens_never_raises text backend hf_model_id st :
  exists ids msgs,
    encode_tokens text backend hf_model_id st =
      (Returns ids, State (world st) (trace st ++ (Warning <$> msgs))) /\
    (text = EmptyString -> ids = [] /\ msgs = []) /\
    (text <> EmptyString -> backend = "HuggingFace" ->
     match AutoTokenizer_from_pretrained hf_model_id with
     | inl _ => True
     | inr tok => exists e, hf_encode tok text = inl e
     end ->
     length msgs = 1%nat /\
     ids = match tiktoken_encode text with
           | inr l => TokenId <$> l
           | inl _ => TokenWord <$> Py.split text
           end) /\
    (text <> EmptyString -> backend = "HuggingFace" ->
     forall tok l,
       AutoTokenizer_from_pretrained hf_model_id = inr tok ->
       hf_encode tok text = inr l ->
       ids = TokenId <$> l /\ msgs = []) /\
    (text <> EmptyString -> backend <> "HuggingFace" ->
     msgs = [] /\
     ids = match tiktoken_encode text with
           | inr l => TokenId <$> l
           | inl _ => TokenWord <$> Py.split text
           end).
Proof.
  unfold encode_tokens.
  destruct text as [|c text]; simpl.
  { exists [], []. unfold ret. rewrite state_eta. repeat split; done. }
  destruct (String.eqb_spec backend "HuggingFace") as [->|Hbackend].
  - unfold get_hf_tokenizer.
    destruct (AutoTokenizer_from_pretrained hf_model_id) as [e|tok]; run_m.
    + destruct (tiktoken_encode (String c text)) as [e'|l'];
        (eexists _, [_]; split; [reflexivity|]; repeat split; done).
    + destruct (hf_encode tok (String c text)) as [e|ids] eqn:Henc; run_m.
      * destruct (tiktoken_encode (String c text)) as [e'|l'];
          (eexists _, [_]; split; [reflexivity|];
           split; [done|]; split; [done|]; split; [|done];
           intros _ _ tok' l [= <-] Hl; congruence).
      * eexists _, []. split; [simpl; by rewrite state_eta|].
        split; [done|]. split.
        { intros _ _ [e He]. congruence. }
        split; [|done].
        intros _ _ tok' l [= <-] Hl. split; [congruence|done].
  - run_m. destruct (tiktoken_encode (String c text)) as [e'|l'];
      (eexists _, []; split; [simpl; by rewrite state_eta|];
       repeat split; done).
Qed.

(** ** [chunk_text_by_tokens] as a whole *)

Lemma length_map_raise {A B} (f : A -> exn + B) (l : list A) ys :
  map_raise f l = inr ys -> length ys = length l.
Proof.
  revert ys. induction l as [|x l IH]; intros ys; simpl.
  - by intros [= <-].
  - destruct (f x) as [e|y]; [done|].
    destruct (map_raise f l) as [e|ys']; [done|].
    intros [= <-]. simpl. by rewrite (IH ys').
Qed.

Lemma length_decode_by_words words ratio overlap chunks :
  forall idx,
    length (decode_by_words words ratio overlap idx chunks) = length chunks.
Proof.
  induction chunks as [|c chunks IH]; intros idx; simpl; [done|].
  by rewrite IH.
Qed.

(** When the loop does not return within [fuel] turns, neither does
    [chunk_text_by_tokens], and nothing is raised. *)
Lemma chunk_text_by_tokens_out_of_fuel
    fuel text max_tokens backend hf_model_id overlap st ids st1 :
  encode_tokens text backend hf_model_id st = (Returns ids, st1) ->
  ids <> [] ->
  chunk_loop fuel ids max_tokens overlap 0 [] = None ->
  chunk_text_by_tokens fuel text max_tokens backend hf_model_id overlap st =
  (OutOfFuel, st1).
Proof.
  intros Henc Hne Hloop. unfold chunk_text_by_tokens, bind at 1.
  rewrite Henc. destruct ids as [|t ids]; [done|].
  unfold bind at 1. by rewrite Hloop.
Qed.

(** [chunk_text_by_tokens] ends the same way from every state, leaves the
    world alone and adds only warnings to the trace.  On an empty token
    sequence it returns no chunk; when its loop returns [chunks] it returns
    one text per chunk, unless a [decode] raises. *)
Lemma chunk_text_by_tokens_cases
    fuel text max_tokens backend hf_model_id overlap :
  exists ids msgs0 out msgs,
    (forall st,
       encode_tokens text backend hf_model_id st =
       (Returns ids, State (world st) (trace st ++ (Warning <$> msgs0)))) /\
    (forall st,
       chunk_text_by_tokens fuel text max_tokens backend hf_model_id overlap st =
       (out, State (world st) (trace st ++ (Warning <$> msgs)))) /\
    match ids with
    | [] => out = Returns []
    | _ =>
        match chunk_loop fuel ids max_tokens overlap 0 [] with
        | None => out = OutOfFuel
        | Some chunks =>
            match out with
            | Returns decoded => length decoded = length chunks
            | Raises _ => True
            | OutOfFuel => False
            end
        end
    end.
Proof.
  destruct (encode_tokens_run text backend hf_model_id) as (ids & msgs & Hrun).
  exists ids, msgs. unfold chunk_text_by_tokens.
  destruct ids as [|t ids].
  { exists (Returns []), msgs. split; [done|]. split; [|done].
    intros st. unfold bind. by rewrite Hrun. }
  destruct (chunk_loop fuel (t :: ids) max_tokens overlap 0 [])
    as [chunks|] eqn:Hloop.
  2:{ exists OutOfFuel, msgs. split; [done|]. split; [|done].
      intros st. unfold bind. by rewrite Hrun, Hloop. }
  assert ((Py.len (t :: ids) =? 0) = false) as Hlen
    by (apply Z.eqb_neq; unfold Py.len; simpl; lia).
  destruct (String.eqb backend "HuggingFace").
  - destruct (get_hf_tokenizer_run hf_model_id) as (msgs' & _ & _ & Hget).
    destruct (AutoTokenizer_from_pretrained hf_model_id) as [e|tok].
    + eexists (Returns _), (msgs ++ msgs'). split; [done|]. split.
      * intros st. unfold bind at 1. rewrite Hrun.
        unfold bind at 1. rewrite Hloop. unfold bounded, ret at 1.
        unfold bind at 1. unfold bind at 1. rewrite Hget. unfold ret at 1.
        rewrite bool_decide_eq_false_2 by (intros [? ?]; done).
        rewrite Hlen. unfold ret. simpl.
        by rewrite fmap_app, app_assoc.
      * apply length_decode_by_words.
    + eexists _, (msgs ++ msgs' ++ msgs'). split; [done|]. split.
      * intros st. unfold bind at 1. rewrite Hrun.
        unfold bind at 1. rewrite Hloop. unfold bounded, ret at 1.
        unfold bind at 1. unfold bind at 1. rewrite Hget. unfold ret at 1.
        rewrite bool_decide_eq_true_2 by eauto.
        unfold bind at 1. rewrite Hget. unfold lift. simpl.
        by rewrite !fmap_app, !app_assoc.
      * destruct (map_raise _ chunks) as [e|decoded] eqn:Hdec; simpl; [done|].
        by apply length_map_raise in Hdec.
  - eexists (Returns _), msgs. split; [done|]. split.
    + intros st. unfold bind at 1. rewrite Hrun.
      unfold bind at 1. rewrite Hloop. unfold bounded, ret at 1.
      unfold bind at 1, ret at 1. rewrite Hlen. by unfold ret.
    + apply length_decode_by_words.
Qed.

(** C2 (as amended).  For a text whose token sequence is not empty,
    [max_tokens <= 0] and [overlap >= 0], [chunk_text_by_tokens] reports no
    configuration error: it has no check of [max_tokens], and whatever the
    number of turns allowed to its loop it neither raises nor returns a
    result, partial or complete; the state is left as the encoding left
    it.  (Non-positive chunk sizes are kept out by the caller: the chunk size
    input of the interface has minimum 1000.) *)
Theorem chunk_text_by_tokens_nonpositive_max_tokens
    fuel text max_tokens backend hf_model_id overlap st ids st1 :
  encode_tokens text backend hf_model_id st = (Returns ids, st1) ->
  ids <> [] -> max_tokens <= 0 -> 0 <= overlap ->
  chunk_text_by_tokens fuel text max_tokens backend hf_model_id overlap st =
    (OutOfFuel, st1) /\
  (forall e st',
     chunk_text_by_tokens fuel text max_tokens backend hf_model_id overlap st
     <> (Raises e, st')) /\
  (forall decoded st',
     chunk_text_by_tokens fuel text max_tokens backend hf_model_id overlap st
     <> (Returns decoded, st')).
Proof.
  intros Henc Hne Hmax Hov.
  assert (chunk_text_by_tokens fuel text max_tokens backend hf_model_id overlap st
          = (OutOfFuel, st1)) as ->.
  { eapply chunk_text_by_tokens_out_of_fuel; eauto.
    by apply chunk_loop_nonpositive. }
  repeat split; intros; discriminate.
Qed.

(** ** [chat_or_complete] *)

(** The whole behaviour of [chat_or_complete] in mode "auto", by the answers
    [a1] of the chat endpoint and [a2] of the completions endpoint. *)
Lemma chat_or_complete_auto_run
    base_url model system_prompt user_prompt temperature max_tokens st a1 w1 a2 w2 :
  call_chat_completions base_url model system_prompt user_prompt temperature
    max_tokens (world st) = (a1, w1) ->
  call_completions base_url model (merged_prompt system_prompt user_prompt)
    temperature max_tokens w1 = (a2, w2) ->
  let chat := ChatRequest system_prompt user_prompt a1 in
  let completion :=
    CompletionRequest (merged_prompt system_prompt user_prompt) a2 in
  let st1 := State w1 (trace st ++ [chat]) in
  let st2 := State w2 (trace st ++ [chat; completion]) in
  chat_or_complete base_url model system_prompt user_prompt temperature
    max_tokens "auto" st =
  match a1, a2 with
  | inr r1, _ =>
      if Py.truthy r1 then (Returns r1, st1)
      else
        match a2 with
        | inr r2 => (Returns r2, st2)
        | inl e2 =>
            if is_HTTPError e2 then
              (Raises (Exn ValueError (both_endpoints_failed None e2)), st2)
            else (Raises e2, st2)
        end
  | inl e1, inr r2 =>
      if Py.truthy r2 then (Returns r2, st2) else (Raises e1, st2)
  | inl e1, inl e2 =>
      if is_HTTPError e2 then
        (Raises (Exn ValueError (both_endpoints_failed (Some e1) e2)), st2)
      else (Raises (Exn ValueError (chat_and_completions_failed e1 e2)), st2)
  end.
Proof.
  intros Hchat Hcompletion. simpl.
  unfold chat_or_complete, chat_stage, completions_stage, chat_request,
    completion_request.
  run_m. rewrite Hchat.
  destruct a1 as [e1|r1]; simpl.
  - destruct (is_HTTPError e1); simpl; rewrite Hcompletion;
      destruct a2 as [e2|r2]; simpl; rewrite <- ?app_assoc; simpl.
    all: try (destruct (is_HTTPError e2); reflexivity).
    all: destruct (Py.truthy r2); reflexivity.
  - destruct (Py.truthy r1) eqn:Hr1; simpl; [done|].
    rewrite Hcompletion.
    destruct a2 as [e2|r2]; simpl; rewrite <- ?app_assoc; simpl.
    + destruct (is_HTTPError e2); reflexivity.
    + destruct r2; reflexivity.
Qed.

(** In every mode [chat_or_complete] returns or raises, and what it adds to
    the trace are HTTP requests only. *)
Lemma chat_or_complete_run
    base_url model system_prompt user_prompt temperature max_tokens mode st :
  exists answer tr w',
    chat_or_complete base_url model system_prompt user_prompt temperature
      max_tokens mode st = (outcome_of answer, State w' (trace st ++ tr)) /\
    summarizations tr = [].
Proof.
  assert (forall (out : outcome string) tr (w' : W),
            out <> OutOfFuel -> summarizations tr = [] ->
            exists answer tr0 w0,
              (out, State w' (trace st ++ tr)) =
              (outcome_of answer, State w0 (trace st ++ tr0)) /\
              summarizations tr0 = []) as Hdone.
  { intros out tr w' Hout Htr.
    destruct out as [r|e|]; [by exists (inr r), tr, w'|by exists (inl e), tr, w'|done]. }
  unfold chat_or_complete, chat_stage, completions_stage, chat_request,
    completion_request.
  run_m.
  destruct (mode_in mode "auto" "chat"), (mode_in mode "auto" "completions");
    simpl;
    repeat match goal with
      | |- context [call_chat_completions ?a ?b ?c ?d ?e ?f ?w] =>
          destruct (call_chat_completions a b c d e f w) as [[?|?] ?]; simpl
      | |- context [call_completions ?a ?b ?c ?e ?f ?w] =>
          destruct (call_completions a b c e f w) as [[?|?] ?]; simpl
      | |- context [if ?b then _ else _] => destruct b; simpl
      | |- context [match ?x with Some _ => _ | None => _ end] =>
          destruct x; simpl
      end;
    rewrite <- ?app_assoc; simpl;
    try (apply Hdone; done).
  exists (inr EmptyString), [], (world st). by rewrite state_eta.
Qed.

(** One [summarization_call] returns or raises, and adds to the trace some
    HTTP requests and then the record of the call. *)
Lemma summarization_call_run
    base_url model system_prompt user_prompt temperature max_tokens mode st :
  exists answer tr w',
    summarization_call base_url model system_prompt user_prompt temperature
      max_tokens mode st = (outcome_of answer, State w' (trace st ++ tr)) /\
    summarizations tr = [(user_prompt, answer)].
Proof.
  destruct (chat_or_complete_run base_url model system_prompt user_prompt
              temperature max_tokens mode st) as (answer & tr & w' & Hrun & Htr).
  exists answer, (tr ++ [Summarization user_prompt answer]), w'.
  unfold summarization_call. run_m. rewrite Hrun.
  rewrite summarizations_app, Htr, app_assoc.
  destruct answer; done.
Qed.

(** Finds [s] among the pieces of a concatenation. *)
Ltac find_occurrence :=
  repeat first
    [ by (exists EmptyString; eexists; reflexivity)
    | apply occurs_in_app_l ].

(** C8 (as amended).  In mode "auto" the first request of [chat_or_complete]
    goes to the chat endpoint.  When its answer is a non-empty text, that
    text is returned and the completions endpoint is not asked.  When it
    raises (an HTTP error or any other exception) the completions endpoint is
    asked next, in the world the chat request left: a non-empty answer is
    returned as the result, the chat failure raising nothing; and when the
    completions request raises too, one [ValueError] is raised whose message
    contains the messages of both failures. *)
Theorem chat_or_complete_auto_fallback
    base_url model system_prompt user_prompt temperature max_tokens st a1 w1 a2 w2 :
  call_chat_completions base_url model system_prompt user_prompt temperature
    max_tokens (world st) = (a1, w1) ->
  call_completions base_url model (merged_prompt system_prompt user_prompt)
    temperature max_tokens w1 = (a2, w2) ->
  let run := chat_or_complete base_url model system_prompt user_prompt
               temperature max_tokens "auto" st in
  let chat := ChatRequest system_prompt user_prompt a1 in
  let completion :=
    CompletionRequest (merged_prompt system_prompt user_prompt) a2 in
  (exists tr, trace run.2 = trace st ++ chat :: tr) /\
  (forall r1, a1 = inr r1 -> r1 <> EmptyString ->
     run = (Returns r1, State w1 (trace st ++ [chat]))) /\
  (forall e1 r2, a1 = inl e1 -> a2 = inr r2 -> r2 <> EmptyString ->
     run = (Returns r2, State w2 (trace st ++ [chat; completion]))) /\
  (forall e1 e2, a1 = inl e1 -> a2 = inl e2 ->
     exists msg,
       run = (Raises (Exn ValueError msg),
              State w2 (trace st ++ [chat; completion])) /\
       occurs_in (exn_str e1) msg /\ occurs_in (exn_str e2) msg).
Proof.
  intros Hchat Hcompletion. simpl.
  rewrite (chat_or_complete_auto_run _ _ _ _ _ _ _ _ _ _ _ Hchat Hcompletion).
  split; [|split; [|split]].
  - destruct a1 as [e1|r1], a2 as [e2|r2];
      repeat match goal with |- context [if ?b then _ else _] => destruct b end;
      simpl; eauto.
  - intros r1 -> Hr1. apply truthy_nonempty in Hr1. by rewrite Hr1.
  - intros e1 r2 -> -> Hr2. apply truthy_nonempty in Hr2. by rewrite Hr2.
  - intros e1 e2 -> ->. destruct (is_HTTPError e2).
    + eexists. split; [reflexivity|].
      unfold both_endpoints_failed; simpl. split; find_occurrence.
    + eexists. split; [reflexivity|].
      unfold chat_and_completions_failed. split; find_occurrence.
Qed.

(** ** The orchestrator *)

Lemma bind_returns {A B} (m : M W A) (k : A -> M W B) st a st' :
  m st = (Returns a, st') -> bind m k st = k a st'.
Proof. intros Hm. unfold bind. by rewrite Hm. Qed.

Lemma bind_raises {A B} (m : M W A) (k : A -> M W B) st e st' :
  m st = (Raises e, st') -> bind m k st = (Raises e, st').
Proof. intros Hm. unfold bind. by rewrite Hm. Qed.

Lemma status_write_run status_container msg (st : state W) :
  exists tr,
    status_write status_container msg st =
      (Returns tt, State (world st) (trace st ++ tr)) /\
    summarizations tr = [].
Proof.
  destruct status_container; simpl.
  - by exists [StatusWrite msg].
  - exists []. unfold ret. by rewrite state_eta.
Qed.

(** The loop over the blocks: either every call returns, and the trace shows
    one answered call per block, in order; or the call for some block [k]
    (counted from 0) raises, the calls before it having returned, and
    nothing follows it. *)
Lemma summarize_blocks_run
    lm_base_url lm_model system_prompt user_prompt temperature max_tokens
    api_mode_key status_container n chunks :
  forall i partial_summaries st,
    exists out tr w',
      summarize_blocks lm_base_url lm_model system_prompt user_prompt
        temperature max_tokens api_mode_key status_container n i chunks
        partial_summaries st = (out, State w' (trace st ++ tr)) /\
      ((exists smrys,
          length smrys = length chunks /\
          out = Returns (partial_summaries ++ block_summaries i smrys) /\
          summarizations tr =
            answered (block_prompts user_prompt n i chunks) smrys) \/
       (exists k ch smrys e,
          chunks !! k = Some ch /\ length smrys = k /\
          out = Raises e /\
          summarizations tr =
            answered (block_prompts user_prompt n i (take k chunks)) smrys ++
            [(block_prompt user_prompt (i + Z.of_nat k) n ch, inl e)])).
Proof.
  induction chunks as [|ch chunks IH]; intros i partial_summaries st; simpl.
  - exists (Returns partial_summaries), [], (world st).
    unfold ret. rewrite state_eta. split; [done|]. left.
    exists []. simpl. by rewrite app_nil_r.
  - destruct (status_write_run status_container
                ("🔄 Résumé bloc " +:+ Py.str_int i +:+ "/" +:+ Py.str_int n +:+ "...")
                st) as (tr0 & Hstatus & Htr0).
    erewrite bind_returns by exact Hstatus.
    destruct (summarization_call_run lm_base_url lm_model system_prompt
                (block_prompt user_prompt i n ch) temperature max_tokens
                api_mode_key (State (world st) (trace st ++ tr0)))
      as (answer & tr1 & w1 & Hcall & Htr1).
    destruct answer as [e|smry]; simpl in Hcall.
    + erewrite bind_raises by exact Hcall.
      exists (Raises e), (tr0 ++ tr1), w1. simpl. rewrite app_assoc.
      split; [done|]. right. exists 0%nat, ch, [], e.
      rewrite summarizations_app, Htr0, Htr1, Z.add_0_r. done.
    + erewrite bind_returns by exact Hcall.
      destruct (IH (i + 1) (partial_summaries ++ [block_summary i smry])
                  (State w1 ((trace st ++ tr0) ++ tr1)))
        as (out & tr2 & w2 & Hrest & Hcases).
      exists out, (tr0 ++ tr1 ++ tr2), w2. rewrite Hrest. simpl.
      rewrite !app_assoc. split; [done|].
      rewrite <- !app_assoc, !summarizations_app, Htr0, Htr1. simpl.
      destruct Hcases as [(smrys & Hlen & -> & ->)
                         |(k & ch' & smrys & e & Hk & Hlen & -> & ->)].
      * left. exists (smry :: smrys). simpl.
        rewrite <- app_assoc. split; [by rewrite Hlen|done].
      * right. exists (S k), ch', (smry :: smrys), e. simpl.
        split; [done|]. split; [by rewrite Hlen|]. split; [done|].
        unfold answered; simpl.
        by replace (i + 1 + Z.of_nat k) with (i + Z.of_nat (S k)) by lia.
Qed.

Lemma bind_out_of_fuel {A B} (m : M W A) (k : A -> M W B) st st' :
  m st = (OutOfFuel, st') -> bind m k st = (OutOfFuel, st').
Proof. intros Hm. unfold bind. by rewrite Hm. Qed.

Lemma count_tokens_run text backend hf_model_id st ids :
  (encode_tokens text backend hf_model_id st).1 = Returns ids ->
  exists msgs,
    count_tokens text backend hf_model_id st =
      (Returns (Py.len ids), State (world st) (trace st ++ (Warning <$> msgs))).
Proof.
  intros Henc.
  destruct (encode_tokens_run text backend hf_model_id) as (ids' & msgs & Hrun).
  rewrite Hrun in Henc. simpl in Henc. injection Henc as ->.
  exists msgs. unfold count_tokens. by erewrite bind_returns by apply Hrun.
Qed.

Lemma encode_tokens_any_state text backend hf_model_id (st st' : state W) :
  (encode_tokens text backend hf_model_id st').1 =
  (encode_tokens text backend hf_model_id st).1.
Proof.
  destruct (encode_tokens_run text backend hf_model_id) as (ids & msgs & Hrun).
  by rewrite !Hrun.
Qed.

Lemma chunk_text_by_tokens_any_state
    fuel text max_tokens backend hf_model_id overlap (st st' : state W) :
  exists msgs,
    chunk_text_by_tokens fuel text max_tokens backend hf_model_id overlap st' =
    ((chunk_text_by_tokens fuel text max_tokens backend hf_model_id overlap st).1,
     State (world st') (trace st' ++ (Warning <$> msgs))).
Proof.
  destruct (chunk_text_by_tokens_cases fuel text max_tokens backend hf_model_id
              overlap) as (ids & msgs0 & out & msgs & _ & Hrun & _).
  exists msgs. by rewrite !Hrun.
Qed.

(** The direct strategy: one call, with the prompt built from the whole
    text; its answer is the summary, or its exception that of the run. *)
Lemma generate_summary_direct_run
    fuel text_for_llm lm_base_url lm_model system_prompt user_prompt
    temperature max_tokens api_mode_key token_backend hf_tokenizer_model
    chunk_size overlap mode_resume status_container st ids :
  (encode_tokens text_for_llm token_backend hf_tokenizer_model st).1 = Returns ids ->
  direct_strategy mode_resume (Py.len ids) chunk_size = true ->
  exists answer tr w',
    generate_summary fuel text_for_llm lm_base_url lm_model system_prompt
      user_prompt temperature max_tokens api_mode_key token_backend
      hf_tokenizer_model chunk_size overlap mode_resume status_container st =
    (match answer with
     | inr summary_text => Returns (summary_text, [])
     | inl e => Raises e
     end, State w' (trace st ++ tr)) /\
    summarizations tr = [(direct_prompt user_prompt text_for_llm, answer)].
Proof.
  intros Henc Hdirect.
  destruct (count_tokens_run _ _ _ _ _ Henc) as (msgs & Hcount).
  unfold generate_summary. erewrite bind_returns by exact Hcount.
  rewrite Hdirect.
  destruct (status_write_run status_container
              "📝 Génération du résumé direct..."
              (State (world st) (trace st ++ (Warning <$> msgs))))
    as (tr0 & Hstatus & Htr0).
  erewrite bind_returns by exact Hstatus.
  destruct (summarization_call_run lm_base_url lm_model system_prompt
              (direct_prompt user_prompt text_for_llm) temperature max_tokens
              api_mode_key
              (State (world st) ((trace st ++ (Warning <$> msgs)) ++ tr0)))
    as (answer & tr1 & w1 & Hcall & Htr1).
  exists answer, ((Warning <$> msgs) ++ tr0 ++ tr1), w1.
  rewrite !summarizations_app, summarizations_warnings, Htr0, Htr1.
  split; [|done]. simpl in Hcall. rewrite !app_assoc.
  destruct answer as [e|summary_text]; simpl in Hcall.
  - by erewrite bind_raises by exact Hcall.
  - by erewrite bind_returns by exact Hcall.
Qed.

(** The chunked strategy, by the way [chunk_text_by_tokens] ends.  When it
    returns [chunks]: either every block call returns and one synthesis call
    follows them, built from their answers in order; or the call for some
    block raises and the run ends there. *)
Lemma generate_summary_chunked_run
    fuel text_for_llm lm_base_url lm_model system_prompt user_prompt
    temperature max_tokens api_mode_key token_backend hf_tokenizer_model
    chunk_size overlap mode_resume status_container st ids :
  (encode_tokens text_for_llm token_backend hf_tokenizer_model st).1 = Returns ids ->
  direct_strategy mode_resume (Py.len ids) chunk_size = false ->
  exists out tr w',
    generate_summary fuel text_for_llm lm_base_url lm_model system_prompt
      user_prompt temperature max_tokens api_mode_key token_backend
      hf_tokenizer_model chunk_size overlap mode_resume status_container st =
    (out, State w' (trace st ++ tr)) /\
    match (chunk_text_by_tokens fuel text_for_llm chunk_size token_backend
             hf_tokenizer_model overlap st).1 with
    | OutOfFuel => out = OutOfFuel /\ summarizations tr = []
    | Raises e => out = Raises e /\ summarizations tr = []
    | Returns chunks =>
        (exists smrys answer,
           length smrys = length chunks /\
           summarizations tr =
             answered (block_prompts user_prompt (Py.len chunks) 1 chunks) smrys ++
             [(synth_prompt user_prompt (block_summaries 1 smrys), answer)] /\
           out = match answer with
                 | inr summary_text =>
                     Returns (summary_text, block_summaries 1 smrys)
                 | inl e => Raises e
                 end) \/
        (exists k ch smrys e,
           chunks !! k = Some ch /\ length smrys = k /\ out = Raises e /\
           summarizations tr =
             answered (block_prompts user_prompt (Py.len chunks) 1
                         (take k chunks)) smrys ++
             [(block_prompt user_prompt (1 + Z.of_nat k) (Py.len chunks) ch,
               inl e)])
    end.
Proof.
  intros Henc Hdirect.
  destruct (count_tokens_run _ _ _ _ _ Henc) as (msgs & Hcount).
  unfold generate_summary. erewrite bind_returns by exact Hcount.
  rewrite Hdirect.
  destruct (status_write_run status_container
              "✂️ Découpage du texte en blocs..."
              (State (world st) (trace st ++ (Warning <$> msgs))))
    as (tr0 & Hstatus & Htr0).
  erewrite bind_returns by exact Hstatus. simpl.
  destruct (chunk_text_by_tokens_any_state fuel text_for_llm chunk_size
              token_backend hf_tokenizer_model overlap st
              (State (world st) ((trace st ++ (Warning <$> msgs)) ++ tr0)))
    as (msgs1 & Hchunk).
  simpl in Hchunk.
  destruct ((chunk_text_by_tokens fuel text_for_llm chunk_size token_backend
               hf_tokenizer_model overlap st).1) as [chunks|e|].
  2:{ erewrite bind_raises by exact Hchunk.
      exists (Raises e), ((Warning <$> msgs) ++ tr0 ++ (Warning <$> msgs1)),
        (world st).
      rewrite !summarizations_app, !summarizations_warnings, Htr0, !app_assoc.
      done. }
  2:{ erewrite bind_out_of_fuel by exact Hchunk.
      exists OutOfFuel, ((Warning <$> msgs) ++ tr0 ++ (Warning <$> msgs1)),
        (world st).
      rewrite !summarizations_app, !summarizations_warnings, Htr0, !app_assoc.
      done. }
  erewrite bind_returns by exact Hchunk. cbv beta.
  match goal with |- context [bind (status_write _ ?msg) _ ?s] =>
    destruct (status_write_run status_container msg s)
      as (tr2 & Hstatus2 & Htr2)
  end.
  erewrite bind_returns by exact Hstatus2. simpl.
  match goal with
  | |- context [bind (summarize_blocks _ _ _ _ _ _ _ _ _ _ _ _) _ ?s] =>
    destruct (summarize_blocks_run lm_base_url lm_model system_prompt
                user_prompt temperature max_tokens api_mode_key
                status_container (Py.len chunks) chunks 1 [] s)
      as (out & tr3 & w3 & Hblocks & Hcases)
  end.
  simpl in Hblocks.
  destruct Hcases as [(smrys & Hlen & -> & Htr3)
                     |(k & ch & smrys & e & Hk & Hlen & -> & Htr3)].
  - erewrite bind_returns by exact Hblocks. simpl.
    match goal with |- context [bind (status_write _ ?msg) _ ?s] =>
      destruct (status_write_run status_container msg s)
        as (tr4 & Hstatus4 & Htr4)
    end.
    erewrite bind_returns by exact Hstatus4. simpl.
    match goal with
    | |- context [bind (summarization_call _ _ _ ?p _ _ _) _ ?s] =>
      destruct (summarization_call_run lm_base_url lm_model system_prompt
                  p temperature max_tokens api_mode_key s)
        as (answer & tr5 & w5 & Hcall & Htr5)
    end.
    simpl in Hcall.
    exists (match answer with
            | inr summary_text => Returns (summary_text, block_summaries 1 smrys)
            | inl e => Raises e
            end),
      ((Warning <$> msgs) ++ tr0 ++ (Warning <$> msgs1) ++ tr2 ++ tr3 ++ tr4 ++ tr5),
      w5.
    split.
    + rewrite !app_assoc.
      destruct answer as [e|summary_text]; simpl in Hcall.
      * by erewrite bind_raises by exact Hcall.
      * by erewrite bind_returns by exact Hcall.
    + left. exists smrys, answer. split; [done|]. split; [|done].
      rewrite !summarizations_app, !summarizations_warnings, Htr0, Htr2, Htr3,
        Htr4, Htr5. done.
  - erewrite bind_raises by exact Hblocks.
    exists (Raises e),
      ((Warning <$> msgs) ++ tr0 ++ (Warning <$> msgs1) ++ tr2 ++ tr3), w3.
    split; [by rewrite !app_assoc|].
    right. exists k, ch, smrys, e. repeat split; try done.
    rewrite !summarizations_app, !summarizations_warnings, Htr0, Htr2, Htr3.
    done.
Qed.

(** *** Prompts and answers *)

Lemma length_block_prompts user_prompt n chunks :
  forall i, length (block_prompts user_prompt n i chunks) = length chunks.
Proof. induction chunks as [|ch chunks IH]; intros i; simpl; [done|]. by rewrite IH. Qed.

Lemma length_block_summaries smrys :
  forall i, length (block_summaries i smrys) = length smrys.
Proof. induction smrys as [|s smrys IH]; intros i; simpl; [done|]. by rewrite IH. Qed.

Lemma block_summaries_lookup smrys :
  forall i k s,
    smrys !! k = Some s ->
    block_summaries i smrys !! k = Some (block_summary (i + Z.of_nat k) s).
Proof.
  induction smrys as [|s0 smrys IH]; intros i k s Hk; [done|].
  destruct k as [|k]; simpl in *.
  - injection Hk as ->. by rewrite Z.add_0_r.
  - rewrite (IH (i + 1) k s Hk). do 2 f_equal. lia.
Qed.

Lemma length_answered prompts answers :
  length (answered prompts answers) = (length prompts `min` length answers)%nat.
Proof. unfold answered. by rewrite length_zip_with, length_fmap. Qed.

Lemma answered_lookup prompts answers k p a :
  answered prompts answers !! k = Some (p, a) ->
  exists s, a = inr s /\ prompts !! k = Some p /\ answers !! k = Some s.
Proof.
  unfold answered. revert answers k.
  induction prompts as [|p0 prompts IH]; intros [|s0 answers] k Hk; try done.
  destruct k as [|k]; simpl in Hk.
  - injection Hk as <- <-. by exists s0.
  - by apply IH in Hk.
Qed.

(** In a joined text the pieces occur in the order of the list. *)
Lemma join_occurs sep l :
  forall j b, l !! j = Some b -> occurs_in b (Py.join sep l).
Proof.
  induction l as [|x l IH]; intros j b Hj; [done|].
  destruct l as [|y l].
  - destruct j; [|done]. injection Hj as ->.
    exists EmptyString, EmptyString. simpl. by rewrite string_app_nil_r.
  - change (Py.join sep (x :: y :: l)) with (x +:+ sep +:+ Py.join sep (y :: l)).
    destruct j as [|j]; simpl in Hj.
    + injection Hj as ->. by exists EmptyString, (sep +:+ Py.join sep (y :: l)).
    + do 2 apply occurs_in_app_l. eapply IH, Hj.
Qed.

Lemma join_order sep l :
  forall i j bi bj,
    (i < j)%nat -> l !! i = Some bi -> l !! j = Some bj ->
    precedes_in bi bj (Py.join sep l).
Proof.
  induction l as [|x l IH]; intros i j bi bj Hij Hi Hj; [done|].
  destruct l as [|y l].
  { destruct j; [lia|done]. }
  change (Py.join sep (x :: y :: l)) with (x +:+ sep +:+ Py.join sep (y :: l)).
  destruct j as [|j]; [lia|]. simpl in Hj.
  destruct i as [|i]; simpl in Hi.
  - injection Hi as ->.
    destruct (join_occurs sep (y :: l) j bj Hj) as (a & c & ->).
    exists EmptyString, (sep +:+ a), c. simpl. by rewrite !string_app_assoc.
  - destruct (IH i j bi bj) as (a & b & c & ->); [lia|done..|].
    exists (x +:+ sep +:+ a), b, c. by rewrite !string_app_assoc.
Qed.

Lemma synth_prompt_order user_prompt partials i j bi bj :
  (i < j)%nat -> partials !! i = Some bi -> partials !! j = Some bj ->
  precedes_in bi bj (synth_prompt user_prompt partials).
Proof.
  intros Hij Hi Hj.
  destruct (join_order (nl +:+ nl) partials i j bi bj Hij Hi Hj)
    as (a & b & c & Hjoin).
  unfold synth_prompt. rewrite Hjoin.
  eexists (user_prompt +:+ nl +:+ nl +:+ "Voici les résumés des blocs :"
             +:+ nl +:+ a), b, _.
  rewrite !string_app_assoc. reflexivity.
Qed.

(** C5.  When the total token count is at most the chunk size, and also
    whenever the summary mode starts with "Résumé direct", whatever the
    count, [generate_summary] makes exactly one summarization call; its
    prompt contains the whole input text; when the call returns, its answer
    is returned with an empty list of partial summaries, and when it raises,
    its exception is that of [generate_summary]. *)
Theorem generate_summary_direct_single_call
    fuel text_for_llm lm_base_url lm_model system_prompt user_prompt
    temperature max_tokens api_mode_key token_backend hf_tokenizer_model
    chunk_size overlap mode_resume status_container st total_tokens :
  (count_tokens text_for_llm token_backend hf_tokenizer_model st).1 =
    Returns total_tokens ->
  String.prefix "Résumé direct" mode_resume = true \/ total_tokens <= chunk_size ->
  exists answer tr w',
    generate_summary fuel text_for_llm lm_base_url lm_model system_prompt
      user_prompt temperature max_tokens api_mode_key token_backend
      hf_tokenizer_model chunk_size overlap mode_resume status_container st =
    (match answer with
     | inr summary_text => Returns (summary_text, [])
     | inl e => Raises e
     end, State w' (trace st ++ tr)) /\
    summarizations tr = [(direct_prompt user_prompt text_for_llm, answer)] /\
    occurs_in text_for_llm (direct_prompt user_prompt text_for_llm).
Proof.
  intros Hcount Hdirect.
  destruct (encode_tokens_run text_for_llm token_backend hf_tokenizer_model)
    as (ids & msgs & Hrun).
  assert ((encode_tokens text_for_llm token_backend hf_tokenizer_model st).1
          = Returns ids) as Henc by (by rewrite Hrun).
  destruct (count_tokens_run _ _ _ _ _ Henc) as (msgs' & Hcount').
  rewrite Hcount' in Hcount. simpl in Hcount. injection Hcount as <-.
  destruct (generate_summary_direct_run fuel text_for_llm lm_base_url lm_model
              system_prompt user_prompt temperature max_tokens api_mode_key
              token_backend hf_tokenizer_model chunk_size overlap mode_resume
              status_container st ids Henc)
    as (answer & tr & w' & Hgen & Htr).
  { unfold direct_strategy. destruct Hdirect as [->|Hle]; [done|].
    apply orb_true_iff. right. by apply Z.leb_le. }
  exists answer, tr, w'. split; [done|]. split; [done|].
  unfold direct_prompt. find_occurrence.
Qed.

(** C6.  In a run of the chunked strategy whose chunking returned [chunks],
    the summarization calls are, in this order: one call per block, block 1
    first; then, only when every block call has returned, exactly one
    synthesis call.  The prompt of that call is built from the answers of
    the block calls, the entry of an earlier block occurring in it before
    the entry of a later one, and its answer is the final summary; it comes
    last in the trace, after the answers of all the block calls.  When a
    block call raises there is no synthesis call. *)
Theorem generate_summary_chunked_synthesis_last_in_order
    fuel text_for_llm lm_base_url lm_model system_prompt user_prompt
    temperature max_tokens api_mode_key token_backend hf_tokenizer_model
    chunk_size overlap mode_resume status_container st ids chunks :
  (encode_tokens text_for_llm token_backend hf_tokenizer_model st).1 = Returns ids ->
  direct_strategy mode_resume (Py.len ids) chunk_size = false ->
  (chunk_text_by_tokens fuel text_for_llm chunk_size token_backend
     hf_tokenizer_model overlap st).1 = Returns chunks ->
  exists out tr w',
    generate_summary fuel text_for_llm lm_base_url lm_model system_prompt
      user_prompt temperature max_tokens api_mode_key token_backend
      hf_tokenizer_model chunk_size overlap mode_resume status_container st =
    (out, State w' (trace st ++ tr)) /\
    ((exists smrys answer,
        let partials := block_summaries 1 smrys in
        length smrys = length chunks /\
        summarizations tr =
          answered (block_prompts user_prompt (Py.len chunks) 1 chunks) smrys ++
          [(synth_prompt user_prompt partials, answer)] /\
        out = match answer with
              | inr summary_text => Returns (summary_text, partials)
              | inl e => Raises e
              end /\
        (forall k smry, smrys !! k = Some smry ->
           partials !! k = Some (block_summary (1 + Z.of_nat k) smry)) /\
        (forall i j bi bj,
           (i < j)%nat -> partials !! i = Some bi -> partials !! j = Some bj ->
           precedes_in bi bj (synth_prompt user_prompt partials))) \/
     (exists k ch smrys e,
        chunks !! k = Some ch /\ length smrys = k /\ out = Raises e /\
        summarizations tr =
          answered (block_prompts user_prompt (Py.len chunks) 1
                      (take k chunks)) smrys ++
          [(block_prompt user_prompt (1 + Z.of_nat k) (Py.len chunks) ch,
            inl e)])).
Proof.
  intros Henc Hdirect Hchunks.
  destruct (generate_summary_chunked_run fuel text_for_llm lm_base_url lm_model
              system_prompt user_prompt temperature max_tokens api_mode_key
              token_backend hf_tokenizer_model chunk_size overlap mode_resume
              status_container st ids Henc Hdirect)
    as (out & tr & w' & Hgen & Hcases).
  rewrite Hchunks in Hcases.
  exists out, tr, w'. split; [done|].
  destruct Hcases as [(smrys & answer & Hlen & Htr & Hout)|Hfail]; [left|by right].
  exists smrys, answer. simpl. repeat split; try done.
  - intros k smry Hk. by apply block_summaries_lookup.
  - intros i j bi bj. apply synth_prompt_order.
Qed.

(** C7 (as amended).  In a run of the chunked strategy whose chunking
    returned [chunks], when the [k]-th block call (counted from 0) raises
    [e]: that call is the last summarization call of the run, so that no
    call is made for a later block and none for the synthesis; the calls
    before it are those of the blocks before it, all answered; and
    [generate_summary] raises [e] itself, the exception of the failed call,
    unchanged. *)
Theorem generate_summary_failed_block_aborts
    fuel text_for_llm lm_base_url lm_model system_prompt user_prompt
    temperature max_tokens api_mode_key token_backend hf_tokenizer_model
    chunk_size overlap mode_resume status_container st ids chunks
    out st' tr k p e :
  (encode_tokens text_for_llm token_backend hf_tokenizer_model st).1 = Returns ids ->
  direct_strategy mode_resume (Py.len ids) chunk_size = false ->
  (chunk_text_by_tokens fuel text_for_llm chunk_size token_backend
     hf_tokenizer_model overlap st).1 = Returns chunks ->
  generate_summary fuel text_for_llm lm_base_url lm_model system_prompt
    user_prompt temperature max_tokens api_mode_key token_backend
    hf_tokenizer_model chunk_size overlap mode_resume status_container st =
    (out, st') ->
  trace st' = trace st ++ tr ->
  (k < length chunks)%nat ->
  summarizations tr !! k = Some (p, inl e) ->
  out = Raises e /\
  length (summarizations tr) = S k /\
  exists ch smrys,
    chunks !! k = Some ch /\
    p = block_prompt user_prompt (1 + Z.of_nat k) (Py.len chunks) ch /\
    length smrys = k /\
    summarizations tr =
      answered (block_prompts user_prompt (Py.len chunks) 1 (take k chunks))
        smrys ++ [(p, inl e)].
Proof.
  intros Henc Hdirect Hchunks Hgen Htrace Hk Hfailed.
  destruct (generate_summary_chunked_run fuel text_for_llm lm_base_url lm_model
              system_prompt user_prompt temperature max_tokens api_mode_key
              token_backend hf_tokenizer_model chunk_size overlap mode_resume
              status_container st ids Henc Hdirect)
    as (out0 & tr0 & w0 & Hgen0 & Hcases).
  rewrite Hgen in Hgen0. injection Hgen0 as -> ->.
  simpl in Htrace. apply app_inv_head in Htrace as <-.
  rewrite Hchunks in Hcases.
  destruct Hcases as [(smrys & answer & Hlen & Htr & Hout)
                     |(k' & ch & smrys & e' & Hk' & Hlen & -> & Htr)].
  - exfalso. rewrite Htr in Hfailed.
    rewrite lookup_app_l in Hfailed
      by (rewrite length_answered, length_block_prompts; lia).
    apply answered_lookup in Hfailed as (s & Hs & _). done.
  - assert (k' < length chunks)%nat as Hk'lt by (by eapply lookup_lt_Some).
    assert (length (answered (block_prompts user_prompt (Py.len chunks) 1
                                (take k' chunks)) smrys) = k') as Hans
      by (rewrite length_answered, length_block_prompts, length_take; lia).
    rewrite Htr in Hfailed.
    destruct (Nat.lt_trichotomy k k') as [Hlt|[->|Hgt]].
    + rewrite lookup_app_l in Hfailed by lia.
      apply answered_lookup in Hfailed as (s & Hs & _). done.
    + rewrite list_lookup_middle in Hfailed by done.
      injection Hfailed as <- <-.
      split; [done|]. split.
      * rewrite Htr, length_app, Hans. simpl. lia.
      * by exists ch, smrys.
    + rewrite lookup_ge_None_2 in Hfailed; [done|].
      rewrite length_app, Hans. simpl. lia.
Qed.

(** C3.  For a text that encodes to exactly 14000 tokens, with chunk size
    6000, overlap 200 and a summary mode that is not the direct one,
    [generate_summary] takes the chunked strategy; the token windows of the
    chunking loop are exactly [0,6000), [5800,11800) and [11600,14000); the
    run makes at most 4 summarization calls, and a run that returns has made
    exactly 4: one per block, in order, then the synthesis call.  So has a
    run whose chunks were decoded and in which no call raised. *)
Theorem generate_summary_14000_tokens_three_windows_four_calls
    fuel text_for_llm lm_base_url lm_model system_prompt user_prompt
    temperature max_tokens api_mode_key token_backend hf_tokenizer_model
    mode_resume status_container st ids :
  (encode_tokens text_for_llm token_backend hf_tokenizer_model st).1 = Returns ids ->
  Py.len ids = 14000 ->
  String.prefix "Résumé direct" mode_resume = false ->
  (3 <= fuel)%nat ->
  direct_strategy mode_resume (Py.len ids) 6000 = false /\
  chunk_windows fuel 14000 6000 200 0 =
    Some [(0, 6000); (5800, 11800); (11600, 14000)] /\
  chunk_loop fuel ids 6000 200 0 [] =
    Some [Py.slice ids 0 6000; Py.slice ids 5800 11800;
          Py.slice ids 11600 14000] /\
  exists out tr w',
    generate_summary fuel text_for_llm lm_base_url lm_model system_prompt
      user_prompt temperature max_tokens api_mode_key token_backend
      hf_tokenizer_model 6000 200 mode_resume status_container st =
    (out, State w' (trace st ++ tr)) /\
    out <> OutOfFuel /\
    (length (summarizations tr) <= 4)%nat /\
    (forall summary_text partials,
       out = Returns (summary_text, partials) ->
       exists c1 c2 c3 s1 s2 s3,
         (chunk_text_by_tokens fuel text_for_llm 6000 token_backend
            hf_tokenizer_model 200 st).1 = Returns [c1; c2; c3] /\
         partials = [block_summary 1 s1; block_summary 2 s2; block_summary 3 s3] /\
         summarizations tr =
           [(block_prompt user_prompt 1 3 c1, inr s1);
            (block_prompt user_prompt 2 3 c2, inr s2);
            (block_prompt user_prompt 3 3 c3, inr s3);
            (synth_prompt user_prompt partials, inr summary_text)]) /\
    ((exists decoded,
        (chunk_text_by_tokens fuel text_for_llm 6000 token_backend
           hf_tokenizer_model 200 st).1 = Returns decoded) ->
     (forall p e, (p, inl e) ∉ summarizations tr) ->
     length (summarizations tr) = 4%nat /\
     exists summary_text partials, out = Returns (summary_text, partials)).
Proof.
  intros Henc Hlen Hmode Hfuel.
  assert (direct_strategy mode_resume (Py.len ids) 6000 = false) as Hdirect.
  { unfold direct_strategy. rewrite Hmode, Hlen. reflexivity. }
  assert (chunk_windows fuel 14000 6000 200 0 =
          Some [(0, 6000); (5800, 11800); (11600, 14000)]) as Hwindows.
  { apply (chunk_windows_fuel_mono 14000 6000 200 3); [reflexivity|done]. }
  assert (chunk_loop fuel ids 6000 200 0 [] =
          Some [Py.slice ids 0 6000; Py.slice ids 5800 11800;
                Py.slice ids 11600 14000]) as Hloop.
  { rewrite chunk_loop_windows, Hlen, Hwindows. reflexivity. }
  split; [done|]. split; [done|]. split; [done|].
  destruct (chunk_text_by_tokens_cases fuel text_for_llm 6000 token_backend
              hf_tokenizer_model 200)
    as (ids' & msgs0 & outc & msgs & Henc' & Hrun & Hrel).
  rewrite Henc' in Henc. simpl in Henc. injection Henc as ->.
  destruct ids as [|t ids]; [done|]. rewrite Hloop in Hrel.
  destruct (generate_summary_chunked_run fuel text_for_llm lm_base_url lm_model
              system_prompt user_prompt temperature max_tokens api_mode_key
              token_backend hf_tokenizer_model 6000 200 mode_resume
              status_container st (t :: ids))
    as (out & tr & w' & Hgen & Hcases); [by rewrite Henc'|done|].
  exists out, tr, w'. split; [done|].
  rewrite Hrun in Hcases |- *. simpl in Hcases |- *.
  destruct outc as [decoded|e|]; [|destruct Hcases as [-> ->]|done].
  2:{ split; [done|]. split; [simpl; lia|]. split; [done|].
      intros [decoded [=]]. }
  destruct decoded as [|c1 [|c2 [|c3 [|c4 decoded]]]]; try done.
  destruct Hcases as [(smrys & answer & Hsmrys & Htr & ->)
                     |(k & ch & smrys & e & Hk & Hsmrys & -> & Htr)].
  - destruct smrys as [|s1 [|s2 [|s3 [|s4 smrys]]]]; try done.
    rewrite Htr. simpl. split; [by destruct answer|]. split; [lia|]. split.
    + intros summary_text partials Hout.
      destruct answer as [e|final]; [done|]. injection Hout as <- <-.
      by exists c1, c2, c3, s1, s2, s3.
    + intros _ Hnone. split; [done|].
      destruct answer as [e|final]; [|by eauto].
      exfalso. eapply Hnone.
      do 3 apply list_elem_of_further. apply list_elem_of_here.
  - assert (k < 3)%nat as Hk3 by (by apply lookup_lt_Some in Hk).
    split; [done|]. split.
    + rewrite Htr, length_app, length_answered, length_block_prompts,
        length_take. simpl. lia.
    + split; [done|]. intros _ Hnone. exfalso. eapply Hnone.
      rewrite Htr. apply elem_of_app. right. apply list_elem_of_here.
Qed.

(** ** Diarization *)

(** C10.  When the diarization yields at least one turn, [_diarize_audio]
    returns one segment per turn, in order, each with the bounds and the
    speaker of its turn; the first carries the whole transcription and every
    other one the empty text.  When it yields no turn, the result is the
    single segment [(0.0, 0.0, "SPEAKER_00", transcription)]. *)
Theorem diarize_audio_text_on_first_segment
    audio_path transcription pipeline tracks :
  HF_TOKEN <> EmptyString ->
  Pipeline_from_pretrained "pyannote/speaker-diarization-3.1" HF_TOKEN =
    inr pipeline ->
  DEVICE <> "cuda" \/ to_cuda pipeline = None ->
  run_itertracks pipeline audio_path = inr tracks ->
  (tracks = [] ->
   _diarize_audio audio_path transcription =
     inr [(float_zero, float_zero, "SPEAKER_00", transcription)]) /\
  (tracks <> [] ->
   exists segments,
     _diarize_audio audio_path transcription = inr segments /\
     length segments = length tracks /\
     forall i turn track speaker,
       tracks !! i = Some (turn, track, speaker) ->
       segments !! i =
         Some (turn_start turn, turn_end turn, speaker,
               match i with O => transcription | S _ => EmptyString end)).
Proof.
  intros Htoken Hpipeline Hdevice Htracks.
  unfold _diarize_audio.
  apply truthy_nonempty in Htoken. rewrite Htoken, Hpipeline. simpl.
  assert ((if String.eqb DEVICE "cuda" then to_cuda pipeline else None) = None)
    as ->.
  { destruct Hdevice as [Hdevice| ->]; [|by destruct (String.eqb _ _)].
    by apply String.eqb_neq in Hdevice as ->. }
  rewrite Htracks. split.
  - by intros ->.
  - intros Hne. destruct tracks as [|[[turn0 track0] speaker0] tracks]; [done|].
    simpl. eexists. split; [reflexivity|]. split; [simpl; by rewrite length_fmap|].
    intros [|i] turn track speaker Hi; simpl in *.
    + by injection Hi as -> _ ->.
    + rewrite list_lookup_fmap, Hi. done.
Qed.

(** ** More on the chunking loop *)

Lemma window_chain_length n max_tokens overlap start ws :
  0 <= overlap < max_tokens ->
  window_chain n max_tokens overlap start ws ->
  Z.of_nat (length ws) =
  1 + (Z.max 0 (n - start - max_tokens) + (max_tokens - overlap) - 1)
      / (max_tokens - overlap).
Proof.
  intros Hov. induction 1 as [start Hlt Hend|start ws Hend Hws IH]; simpl length.
  - rewrite Z.max_l by lia.
    rewrite Z.div_small by lia. lia.
  - rewrite Nat2Z.inj_succ, IH. rewrite (Z.max_r 0 (n - start - max_tokens)) by lia.
    set (d := max_tokens - overlap) in *.
    destruct (Z.le_gt_cases (n - start - max_tokens) d) as [Hle|Hgt].
    + rewrite Z.max_l by lia.
      rewrite (Z.div_small (0 + d - 1)) by lia.
      assert ((n - start - max_tokens + d - 1) / d = 1) as ->; [|lia].
      symmetry. apply (Z.div_unique_pos _ d 1 (n - start - max_tokens - 1)); lia.
    + rewrite Z.max_r by lia.
      replace (n - start - max_tokens + d - 1)
        with ((n - (start + max_tokens - overlap) - max_tokens + d - 1) + 1 * d)
        by lia.
      rewrite Z.div_add by lia. lia.
Qed.

(** X1.  For a non-empty token sequence of [n] tokens and
    [0 <= overlap < max_tokens] the loop returns, and the number of chunks is
    the larger of 1 and the quotient of [n - overlap] by
    [max_tokens - overlap] rounded up. *)
Theorem chunk_loop_chunk_count {A} (ids : list A) max_tokens overlap fuel :
  ids <> [] -> 0 <= overlap < max_tokens -> (length ids <= fuel)%nat ->
  exists chunks,
    chunk_loop fuel ids max_tokens overlap 0 [] = Some chunks /\
    Py.len chunks =
      Z.max 1 ((Py.len ids - overlap + (max_tokens - overlap) - 1)
               / (max_tokens - overlap)).
Proof.
  intros Hne Hov Hfuel.
  assert (0 < Py.len ids) as Hlen
    by (destruct ids; [done|unfold Py.len; simpl; lia]).
  destruct (chunk_windows_chain (Py.len ids) max_tokens overlap Hov fuel 0)
    as (ws & Hrun & Hchain); [lia|unfold Py.len; lia|].
  exists (window_slice ids <$> ws). split.
  - by rewrite chunk_loop_windows, Hrun.
  - unfold Py.len at 1. rewrite length_fmap.
    rewrite (window_chain_length _ _ _ _ _ Hov Hchain).
    set (n := Py.len ids) in *. set (d := max_tokens - overlap).
    replace (n - 0 - max_tokens) with (n - max_tokens) by lia.
    destruct (Z.le_gt_cases n max_tokens) as [Hle|Hgt].
    + rewrite Z.max_l by lia. rewrite (Z.div_small (0 + d - 1)) by lia.
      rewrite Z.max_l; [lia|].
      assert ((n - overlap + d - 1) / d < 2); [|lia].
      apply Z.div_lt_upper_bound; lia.
    + rewrite Z.max_r by lia.
      replace (n - overlap + d - 1) with ((n - max_tokens + d - 1) + 1 * d)
        by lia.
      rewrite Z.div_add by lia.
      assert (0 <= (n - max_tokens + d - 1) / d) by (apply Z.div_pos; lia).
      lia.
Qed.

Lemma window_chain_reassemble {A} (ids : list A) max_tokens overlap start ws :
  0 <= overlap < max_tokens -> 0 <= start ->
  window_chain (Py.len ids) max_tokens overlap start ws ->
  concat (drop (Z.to_nat overlap) <$> (window_slice ids <$> ws)) =
  drop (Z.to_nat (start + overlap)) ids.
Proof.
  intros Hov Hstart Hchain. revert Hstart.
  induction Hchain as [start Hlt Hend|start ws Hend Hws IH]; intros Hstart;
    rewrite !fmap_cons; cbn [concat]; unfold window_slice at 1; cbn [fst snd].
  - rewrite !fmap_nil. cbn [concat]. rewrite app_nil_r, py_slice_in_range by lia.
    rewrite take_ge by (rewrite length_drop; unfold Py.len in *; lia).
    rewrite drop_drop. f_equal. lia.
  - rewrite IH by lia. rewrite py_slice_in_range by lia.
    rewrite skipn_firstn_comm, drop_drop.
    replace (Z.to_nat (start + max_tokens - overlap + overlap))
      with ((Z.to_nat start + Z.to_nat overlap) +
            (Z.to_nat (start + max_tokens - start) - Z.to_nat overlap))%nat
      by lia.
    rewrite <- drop_drop with (n2 := (Z.to_nat start + Z.to_nat overlap)%nat).
    rewrite take_drop. f_equal. lia.
Qed.

Lemma reassemble_without_overlap {A} (chunks : list (list A)) :
  reassemble 0 chunks = concat chunks.
Proof.
  destruct chunks as [|c rest]; [done|]. cbn [reassemble concat]. f_equal.
  induction rest as [|x rest IH]; [done|].
  rewrite fmap_cons. cbn [concat]. by rewrite IH.
Qed.

(** X2.  Round trip of the chunking: for [0 <= overlap < max_tokens] the
    chunks put back together, every chunk after the first without its first
    [overlap] tokens, are the token sequence itself; without overlap the
    chunks concatenated are the sequence. *)
Theorem chunk_loop_reassemble {A} (ids : list A) max_tokens overlap fuel :
  ids <> [] -> 0 <= overlap < max_tokens -> (length ids <= fuel)%nat ->
  exists chunks,
    chunk_loop fuel ids max_tokens overlap 0 [] = Some chunks /\
    reassemble overlap chunks = ids /\
    (overlap = 0 -> concat chunks = ids).
Proof.
  intros Hne Hov Hfuel.
  assert (0 < Py.len ids) as Hlen
    by (destruct ids; [done|unfold Py.len; simpl; lia]).
  destruct (chunk_windows_chain (Py.len ids) max_tokens overlap Hov fuel 0)
    as (ws & Hrun & Hchain); [lia|unfold Py.len; lia|].
  exists (window_slice ids <$> ws).
  assert (reassemble overlap (window_slice ids <$> ws) = ids) as Hre.
  { inversion Hchain as [start Hlt Hend|start ws' Hend Hws]; subst;
      rewrite fmap_cons; cbn [reassemble].
    - rewrite fmap_nil. cbn [fmap list_fmap concat]. rewrite app_nil_r.
      unfold window_slice; cbn [fst snd].
      rewrite py_slice_in_range by lia. simpl.
      apply take_ge. unfold Py.len. lia.
    - assert (0 <= 0 + max_tokens - overlap) as Hnext by lia.
      rewrite (window_chain_reassemble ids max_tokens overlap _ _ Hov Hnext Hws).
      unfold window_slice; cbn [fst snd]. rewrite py_slice_in_range by lia.
      simpl drop at 1.
      replace (Z.to_nat (0 + max_tokens - overlap + overlap))
        with (Z.to_nat (0 + max_tokens - 0)) by lia.
      apply take_drop. }
  split; [by rewrite chunk_loop_windows, Hrun|]. split; [done|].
  intros ->. by rewrite <- reassemble_without_overlap.
Qed.

Lemma chunk_windows_last fuel n max_tokens overlap start :
  start < n -> n <= start + max_tokens ->
  chunk_windows (S fuel) n max_tokens overlap start = Some [(start, n)].
Proof.
  intros Hlt Hend. simpl.
  destruct (Z.ltb_spec start n); [|lia].
  rewrite Z.min_r by lia.
  by destruct (Z.geb_spec n n); [|lia].
Qed.

Lemma py_slice_prefix {A} (l : list A) e :
  0 <= e <= Py.len l -> Py.slice l 0 e = take (Z.to_nat e) l.
Proof.
  intros He. rewrite py_slice_in_range by lia. simpl.
  f_equal. lia.
Qed.

Lemma py_slice_suffix {A} (l : list A) s :
  0 <= s <= Py.len l -> Py.slice l s (Py.len l) = drop (Z.to_nat s) l.
Proof.
  intros Hs. rewrite py_slice_in_range by lia.
  apply take_ge. rewrite length_drop. unfold Py.len. lia.
Qed.

Lemma py_slice_all {A} (l : list A) : Py.slice l 0 (Py.len l) = l.
Proof.
  rewrite py_slice_suffix by (unfold Py.len; lia). done.
Qed.

(** X3.  A token sequence that fits in one chunk comes back as that one
    chunk, whatever the overlap, in one turn of the loop. *)
Theorem chunk_loop_single_chunk {A} (ids : list A) max_tokens overlap fuel :
  ids <> [] -> Py.len ids <= max_tokens ->
  chunk_loop (S fuel) ids max_tokens overlap 0 [] = Some [ids].
Proof.
  intros Hne Hfit.
  assert (0 < Py.len ids) as Hlen
    by (destruct ids; [done|unfold Py.len; simpl; lia]).
  rewrite chunk_loop_windows, chunk_windows_last by lia.
  simpl. unfold window_slice; simpl. by rewrite py_slice_all.
Qed.

(** With [overlap >= max_tokens > 0] the start computed after the first
    window is its end: up to twice [max_tokens] tokens the loop returns, a
    second chunk following the first without overlap. *)
Lemma chunk_loop_guarded {A} (ids : list A) max_tokens overlap fuel :
  0 < max_tokens <= overlap -> ids <> [] -> Py.len ids <= 2 * max_tokens ->
  chunk_loop (S (S fuel)) ids max_tokens overlap 0 [] =
  Some (if Py.len ids <=? max_tokens then [ids]
        else [take (Z.to_nat max_tokens) ids; drop (Z.to_nat max_tokens) ids]).
Proof.
  intros Hov Hne Hlen2.
  assert (0 < Py.len ids) as Hlen
    by (destruct ids; [done|unfold Py.len; simpl; lia]).
  destruct (Z.leb_spec (Py.len ids) max_tokens) as [Hfit|Hlong].
  - rewrite chunk_loop_windows, chunk_windows_last by lia.
    simpl. unfold window_slice; simpl. by rewrite py_slice_all.
  - rewrite chunk_loop_windows, chunk_windows_step by lia.
    assert (next_start max_tokens overlap 0 = max_tokens) as ->.
    { unfold next_start. destruct (Z.gtb_spec (0 + max_tokens - overlap) 0); lia. }
    rewrite chunk_windows_last by lia.
    simpl. unfold window_slice; simpl.
    rewrite py_slice_prefix, py_slice_suffix by lia. done.
Qed.

(** X4.  With [overlap = max_tokens > 0] the loop returns exactly for the
    token sequences of at most twice [max_tokens] tokens, and then with one
    chunk or with two chunks that share no token. *)
Theorem chunk_loop_overlap_equal_max_tokens_returns_iff
    {A} (ids : list A) max_tokens :
  0 < max_tokens -> ids <> [] ->
  ((exists fuel chunks, chunk_loop fuel ids max_tokens max_tokens 0 [] = Some chunks)
   <-> Py.len ids <= 2 * max_tokens) /\
  (Py.len ids <= 2 * max_tokens ->
   chunk_loop 2 ids max_tokens max_tokens 0 [] =
   Some (if Py.len ids <=? max_tokens then [ids]
         else [take (Z.to_nat max_tokens) ids; drop (Z.to_nat max_tokens) ids])).
Proof.
  intros Hpos Hne. split; [split|].
  - intros (fuel & chunks & Hrun).
    destruct (Z.le_gt_cases (Py.len ids) (2 * max_tokens)) as [Hle|Hgt]; [done|].
    rewrite (chunk_loop_stalls ids max_tokens) in Hrun by lia. done.
  - intros Hle. eexists 2%nat, _. apply chunk_loop_guarded; [lia|done..].
  - intros Hle. apply chunk_loop_guarded; [lia|done..].
Qed.

(** ** The whitespace fallback *)

Lemma py_slice_fmap {A B} (f : A -> B) (l : list A) s e :
  Py.slice (f <$> l) s e = f <$> Py.slice l s e.
Proof.
  unfold Py.slice. rewrite length_fmap. by rewrite fmap_take, fmap_drop.
Qed.

Lemma py_len_fmap {A B} (f : A -> B) (l : list A) :
  Py.len (f <$> l) = Py.len l.
Proof. unfold Py.len. by rewrite length_fmap. Qed.

Lemma round_div_self n : 0 < n -> Py.round_div n n = 1.
Proof.
  intros Hn. unfold Py.round_div.
  rewrite Z.div_same, Z.mod_same by lia.
  by destruct (Z.ltb_spec (2 * 0) n); [|lia].
Qed.

(** Along a chain of windows with [overlap <= 50] the word index of the
    fallback decoding follows the window starts. *)
Lemma decode_by_words_chain (words : list string) max_tokens overlap start ws :
  0 <= overlap <= 50 -> overlap < max_tokens -> 0 <= start ->
  window_chain (Py.len words) max_tokens overlap start ws ->
  decode_by_words words 1 overlap start
    (window_slice (TokenWord <$> words) <$> ws) =
  (fun w => Py.join " " (window_slice words w)) <$> ws.
Proof.
  intros Hov Hlt Hstart Hchain.
  assert (forall s e, 0 <= s -> s < e -> e <= Py.len words ->
            Z.max 1 (Py.len (Py.slice (TokenWord <$> words) s e) * 1) = e - s)
    as Htake.
  { intros s e Hs Hse He. rewrite py_slice_fmap, py_len_fmap.
    rewrite py_len_slice by lia. lia. }
  revert Hstart.
  induction Hchain as [start Hs Hend|start ws Hend Hws IH]; intros Hstart;
    rewrite !fmap_cons; cbn [decode_by_words];
    unfold window_slice at 1 2; cbn [fst snd];
    rewrite !Htake by lia.
  - rewrite !fmap_nil. cbn [decode_by_words].
    unfold window_slice; cbn [fst snd].
    by replace (start + (Py.len words - start)) with (Py.len words) by lia.
  - rewrite Z.min_l by lia.
    replace (start + (start + max_tokens - start - overlap))
      with (start + max_tokens - overlap) by lia.
    rewrite IH by lia. unfold window_slice at 2; cbn [fst snd].
    by replace (start + (start + max_tokens - start)) with (start + max_tokens)
      by lia.
Qed.

(** When neither tokenizer is at hand the tokens are the words. *)
Lemma encode_tokens_words text backend hf_model_id :
  (exists e, tiktoken_encode text = inl e) ->
  backend <> "HuggingFace" \/
  (exists e, AutoTokenizer_from_pretrained hf_model_id = inl e) ->
  exists msgs,
    forall st,
      encode_tokens text backend hf_model_id st =
      (Returns (TokenWord <$> Py.split text),
       State (world st) (trace st ++ (Warning <$> msgs))).
Proof.
  intros [e He] Hbackend. unfold encode_tokens.
  destruct text as [|c text]; simpl.
  { exists []. intros st. unfold ret. by rewrite state_eta. }
  destruct (String.eqb_spec backend "HuggingFace") as [->|Hne].
  - destruct Hbackend as [Hne|[e' He']]; [done|].
    unfold get_hf_tokenizer. rewrite He'. run_m. rewrite He.
    eexists [_]. intros st. reflexivity.
  - run_m. rewrite He. exists []. intros st. simpl. by rewrite state_eta.
Qed.

(** X5.  When tiktoken is missing and no HuggingFace tokenizer is used (the
    backend is another one, or the tokenizer does not load), the tokens are
    the words of the text, and for [0 <= overlap <= 50] and
    [overlap < max_tokens] the text returned for each chunk is exactly the
    words of its token window, joined by single spaces: the fallback
    decoding loses nothing but the original spacing. *)
Theorem chunk_text_by_tokens_word_fallback_exact
    fuel text max_tokens backend hf_model_id overlap :
  (exists e, tiktoken_encode text = inl e) ->
  backend <> "HuggingFace" \/
  (exists e, AutoTokenizer_from_pretrained hf_model_id = inl e) ->
  Py.split text <> [] ->
  0 <= overlap <= 50 -> overlap < max_tokens ->
  (length (Py.split text) <= fuel)%nat ->
  exists ws msgs,
    chunk_loop fuel (TokenWord <$> Py.split text) max_tokens overlap 0 [] =
      Some (window_slice (TokenWord <$> Py.split text) <$> ws) /\
    forall st,
      chunk_text_by_tokens fuel text max_tokens backend hf_model_id overlap st =
      (Returns ((fun w => Py.join " " (window_slice (Py.split text) w)) <$> ws),
       State (world st) (trace st ++ (Warning <$> msgs))).
Proof.
  intros Htik Hbackend Hwords Hov Hlt Hfuel.
  destruct (encode_tokens_words text backend hf_model_id Htik Hbackend)
    as (msgs & Henc).
  set (words := Py.split text) in *.
  assert (0 < Py.len words) as Hlen
    by (destruct words; [done|unfold Py.len; simpl; lia]).
  assert (Py.len (TokenWord <$> words) = Py.len words) as Hlen'
    by (unfold Py.len; by rewrite length_fmap).
  destruct (chunk_windows_chain (Py.len words) max_tokens overlap
              ltac:(lia) fuel 0) as (ws & Hrun & Hchain);
    [lia|unfold Py.len; lia|].
  assert (chunk_loop fuel (TokenWord <$> words) max_tokens overlap 0 [] =
          Some (window_slice (TokenWord <$> words) <$> ws)) as Hloop
    by (by rewrite chunk_loop_windows, Hlen', Hrun).
  assert (decode_by_words words
            (Z.max 1 (Py.round_div (Py.len words) (Py.len (TokenWord <$> words))))
            overlap 0 (window_slice (TokenWord <$> words) <$> ws) =
          (fun w => Py.join " " (window_slice words w)) <$> ws) as Hdecode.
  { rewrite Hlen', round_div_self by lia. rewrite Z.max_l by lia.
    apply (decode_by_words_chain words max_tokens); (lia || done). }
  assert ((Py.len (TokenWord <$> words) =? 0) = false) as Hnz
    by (apply Z.eqb_neq; lia).
  destruct (TokenWord <$> words) as [|t ids] eqn:Hids.
  { destruct words; done. }
  destruct (String.eqb_spec backend "HuggingFace") as [->|Hne].
  - destruct Hbackend as [Hne|[e' He']]; [done|].
    destruct (get_hf_tokenizer_run hf_model_id) as (msgs' & _ & _ & Hget).
    rewrite He' in Hget.
    exists ws, (msgs ++ msgs'). split; [done|]. intros st.
    unfold chunk_text_by_tokens. unfold bind at 1. rewrite Henc.
    unfold bind at 1. rewrite Hloop. unfold bounded, ret at 1.
    rewrite String.eqb_refl.
    unfold bind at 1. unfold bind at 1. rewrite Hget. unfold ret at 1.
    rewrite bool_decide_eq_false_2 by (intros [? ?]; done).
    cbv zeta. fold words. rewrite Hnz, Hdecode. unfold ret. cbn [world trace].
    by rewrite fmap_app, app_assoc.
  - exists ws, msgs. split; [done|]. intros st.
    unfold chunk_text_by_tokens. unfold bind at 1. rewrite Henc.
    unfold bind at 1. rewrite Hloop. unfold bounded, ret at 1.
    apply String.eqb_neq in Hne. rewrite Hne.
    unfold bind at 1, ret at 1. cbv zeta. fold words.
    rewrite Hnz, Hdecode. reflexivity.
Qed.

(** ** [chat_or_complete] in its other modes *)

(** X6.  In mode "chat" only the chat endpoint is asked, once.  Its answer
    is returned as it is, the empty text included; an HTTP error is raised
    again as a [ValueError] whose message is "Erreur API chat/completions: "
    followed by the message of the error and a full stop; any other
    exception is raised again unchanged. *)
Theorem chat_or_complete_chat_only
    base_url model system_prompt user_prompt temperature max_tokens st a1 w1 :
  call_chat_completions base_url model system_prompt user_prompt temperature
    max_tokens (world st) = (a1, w1) ->
  chat_or_complete base_url model system_prompt user_prompt temperature
    max_tokens "chat" st =
  (match a1 with
   | inr result => Returns result
   | inl e =>
       Raises (if is_HTTPError e then
                 Exn ValueError
                   ("Erreur API chat/completions: " +:+ exn_str e +:+ ".")
               else e)
   end,
   State w1 (trace st ++ [ChatRequest system_prompt user_prompt a1])).
Proof.
  intros Hchat.
  unfold chat_or_complete, chat_stage, completions_stage, chat_request.
  run_m. rewrite Hchat.
  destruct a1 as [e|result]; simpl.
  - by destruct (is_HTTPError e).
  - by destruct result.
Qed.

(** X7.  In mode "completions" only the completions endpoint is asked,
    once, with the merged prompt.  Its answer is returned as it is; an HTTP
    error is raised as the [ValueError] of the two failed endpoints, in which
    "None" stands for the chat endpoint that was not asked; any other
    exception is raised again unchanged. *)
Theorem chat_or_complete_completions_only
    base_url model system_prompt user_prompt temperature max_tokens st a2 w2 :
  call_completions base_url model (merged_prompt system_prompt user_prompt)
    temperature max_tokens (world st) = (a2, w2) ->
  chat_or_complete base_url model system_prompt user_prompt temperature
    max_tokens "completions" st =
  (match a2 with
   | inr result => Returns result
   | inl e =>
       Raises (if is_HTTPError e then
                 Exn ValueError (both_endpoints_failed None e)
               else e)
   end,
   State w2
     (trace st ++
      [CompletionRequest (merged_prompt system_prompt user_prompt) a2])) /\
  forall e, occurs_in "- /v1/chat/completions: None" (both_endpoints_failed None e).
Proof.
  intros Hcompletion. split.
  - unfold chat_or_complete, chat_stage, completions_stage, completion_request.
    run_m. rewrite Hcompletion.
    destruct a2 as [e|result]; simpl.
    + by destruct (is_HTTPError e).
    + by destruct result.
  - intros e. unfold both_endpoints_failed. find_occurrence.
Qed.

(** X8.  In every mode, the known ones and any other string,
    [chat_or_complete] makes at most one request to each endpoint, the chat
    endpoint first: it never asks an endpoint twice.  What it returns is the
    answer of the last request it made, or the empty text when it made none;
    it raises only when a request raised; and with a mode that is none of
    "auto", "chat" and "completions" it makes no request and returns the
    empty text. *)
Theorem chat_or_complete_never_retries
    base_url model system_prompt user_prompt temperature max_tokens mode st :
  exists out reqs w',
    chat_or_complete base_url model system_prompt user_prompt temperature
      max_tokens mode st = (out, State w' (trace st ++ reqs)) /\
    out <> OutOfFuel /\
    (reqs = [] \/
     (exists a1, reqs = [ChatRequest system_prompt user_prompt a1]) \/
     (exists a2,
        reqs = [CompletionRequest (merged_prompt system_prompt user_prompt) a2]) \/
     (exists a1 a2,
        reqs = [ChatRequest system_prompt user_prompt a1;
                CompletionRequest (merged_prompt system_prompt user_prompt) a2])) /\
    (forall result, out = Returns result ->
       match last reqs with
       | None => result = EmptyString
       | Some ev => request_answer ev = Some (inr result)
       end) /\
    (forall e, out = Raises e ->
       exists ev e', ev ∈ reqs /\ request_answer ev = Some (inl e')) /\
    (mode <> "auto" -> mode <> "chat" -> mode <> "completions" ->
     reqs = [] /\ out = Returns EmptyString).
Proof.
  assert (forall (out : outcome string) reqs (w' : W),
            out <> OutOfFuel ->
            (reqs = [] \/
             (exists a1, reqs = [ChatRequest system_prompt user_prompt a1]) \/
             (exists a2,
                reqs = [CompletionRequest
                          (merged_prompt system_prompt user_prompt) a2]) \/
             (exists a1 a2,
                reqs = [ChatRequest system_prompt user_prompt a1;
                        CompletionRequest
                          (merged_prompt system_prompt user_prompt) a2])) ->
            (forall result, out = Returns result ->
               match last reqs with
               | None => result = EmptyString
               | Some ev => request_answer ev = Some (inr result)
               end) ->
            (forall e, out = Raises e ->
               exists ev e', ev ∈ reqs /\ request_answer ev = Some (inl e')) ->
            (mode <> "auto" -> mode <> "chat" -> mode <> "completions" ->
             reqs = [] /\ out = Returns EmptyString) ->
            exists out0 reqs0 w0,
              (out, State w' (trace st ++ reqs)) =
              (out0, State w0 (trace st ++ reqs0)) /\
              out0 <> OutOfFuel /\
              (reqs0 = [] \/
               (exists a1, reqs0 = [ChatRequest system_prompt user_prompt a1]) \/
               (exists a2,
                  reqs0 = [CompletionRequest
                             (merged_prompt system_prompt user_prompt) a2]) \/
               (exists a1 a2,
                  reqs0 = [ChatRequest system_prompt user_prompt a1;
                           CompletionRequest
                             (merged_prompt system_prompt user_prompt) a2])) /\
              (forall result, out0 = Returns result ->
                 match last reqs0 with
                 | None => result = EmptyString
                 | Some ev => request_answer ev = Some (inr result)
                 end) /\
              (forall e, out0 = Raises e ->
                 exists ev e', ev ∈ reqs0 /\ request_answer ev = Some (inl e')) /\
              (mode <> "auto" -> mode <> "chat" -> mode <> "completions" ->
               reqs0 = [] /\ out0 = Returns EmptyString)) as Hdone.
  { intros out reqs w' ? ? ? ? ?. by exists out, reqs, w'. }
  unfold chat_or_complete, chat_stage, completions_stage, chat_request,
    completion_request, mode_in.
  destruct (String.eqb_spec mode "auto") as [->|Hauto];
    [|destruct (String.eqb_spec mode "chat") as [->|Hchat];
      [|destruct (String.eqb_spec mode "completions") as [->|Hcompl]]].
  - (* auto *)
    run_m.
    destruct (call_chat_completions _ _ _ _ _ _ _) as [[e1|r1] w1]; simpl.
    + destruct (is_HTTPError e1); simpl;
        (destruct (call_completions _ _ _ _ _ _) as [[e2|r2] w2]; simpl;
         rewrite <- ?app_assoc; simpl;
         [destruct (is_HTTPError e2)|destruct r2]; simpl;
         apply Hdone; try done;
         [right; right; right; eauto| |right; right; right; eauto| | | ..]);
        try (intros ? [= <-]; eexists _, _; split;
             [apply list_elem_of_here|reflexivity]);
        try (right; right; right; eauto);
        try (intros ? [= <-]; reflexivity).
      all: try done.
    + destruct r1 as [|c r1]; simpl.
      * destruct (call_completions _ _ _ _ _ _) as [[e2|r2] w2]; simpl;
          rewrite <- ?app_assoc; simpl;
          [destruct (is_HTTPError e2)|destruct r2]; simpl;
          apply Hdone; try done;
          try (right; right; right; eauto);
          try (intros ? [= <-]; eexists _, _; split;
               [apply list_elem_of_further, list_elem_of_here|reflexivity]);
          try (intros ? [= <-]; reflexivity).
      * apply Hdone; try done; [right; left; eauto|by intros ? [= <-]].
  - (* chat *)
    run_m.
    destruct (call_chat_completions _ _ _ _ _ _ _) as [[e1|r1] w1]; simpl.
    + destruct (is_HTTPError e1); simpl; apply Hdone; try done;
        try (right; left; eauto);
        intros ? [= <-]; eexists _, _; (split;
          [apply list_elem_of_here|reflexivity]).
    + destruct r1; simpl; apply Hdone; try done;
        try (right; left; eauto); by intros ? [= <-].
  - (* completions *)
    run_m.
    destruct (call_completions _ _ _ _ _ _) as [[e2|r2] w2]; simpl.
    + destruct (is_HTTPError e2); simpl; apply Hdone; try done;
        try (right; right; left; eauto);
        intros ? [= <-]; eexists _, _; (split;
          [apply list_elem_of_here|reflexivity]).
    + destruct r2; simpl; apply Hdone; try done;
        try (right; right; left; eauto); by intros ? [= <-].
  - (* any other mode *)
    apply String.eqb_neq in Hauto, Hchat, Hcompl.
    run_m. rewrite ?Hauto, ?Hchat, ?Hcompl. simpl.
    exists (Returns EmptyString), [], (world st).
    rewrite state_eta.
    split; [done|]. split; [done|]. split; [by left|].
    split; [by intros ? [= <-]|]. split; done.
Qed.

(** ** Progress lines of the orchestrator *)

Lemma progress_app (tr1 tr2 : list event) :
  progress (tr1 ++ tr2) = progress tr1 ++ progress tr2.
Proof.
  induction tr1 as [|ev tr1 IH]; simpl; [done|].
  destruct ev; simpl; by rewrite ?IH.
Qed.

Lemma progress_warnings (msgs : list string) : progress (Warning <$> msgs) = [].
Proof. induction msgs; simpl; done. Qed.

Lemma status_write_progress status_container msg (st : state W) :
  exists tr,
    status_write status_container msg st =
      (Returns tt, State (world st) (trace st ++ tr)) /\
    progress tr = status_line status_container msg.
Proof.
  destruct status_container; simpl.
  - by exists [StatusWrite msg].
  - exists []. unfold ret. by rewrite state_eta.
Qed.

(** [chat_or_complete] shows no progress line and records no call. *)
Lemma chat_or_complete_progress
    base_url model system_prompt user_prompt temperature max_tokens mode st :
  exists answer tr w',
    chat_or_complete base_url model system_prompt user_prompt temperature
      max_tokens mode st = (outcome_of answer, State w' (trace st ++ tr)) /\
    progress tr = [].
Proof.
  assert (forall (out : outcome string) tr (w' : W),
            out <> OutOfFuel -> progress tr = [] ->
            exists answer tr0 w0,
              (out, State w' (trace st ++ tr)) =
              (outcome_of answer, State w0 (trace st ++ tr0)) /\
              progress tr0 = []) as Hdone.
  { intros out tr w' Hout Htr.
    destruct out as [r|e|]; [by exists (inr r), tr, w'|by exists (inl e), tr, w'|done]. }
  unfold chat_or_complete, chat_stage, completions_stage, chat_request,
    completion_request.
  run_m.
  destruct (mode_in mode "auto" "chat"), (mode_in mode "auto" "completions");
    simpl;
    repeat match goal with
      | |- context [call_chat_completions ?a ?b ?c ?d ?e ?f ?w] =>
          destruct (call_chat_completions a b c d e f w) as [[?|?] ?]; simpl
      | |- context [call_completions ?a ?b ?c ?e ?f ?w] =>
          destruct (call_completions a b c e f w) as [[?|?] ?]; simpl
      | |- context [if ?b then _ else _] => destruct b; simpl
      | |- context [match ?x with Some _ => _ | None => _ end] =>
          destruct x; simpl
      end;
    rewrite <- ?app_assoc; simpl;
    try (apply Hdone; done).
  exists (inr EmptyString), [], (world st). by rewrite state_eta.
Qed.

Lemma summarization_call_progress
    base_url model system_prompt user_prompt temperature max_tokens mode st :
  exists answer tr w',
    summarization_call base_url model system_prompt user_prompt temperature
      max_tokens mode st = (outcome_of answer, State w' (trace st ++ tr)) /\
    progress tr = [Summarization user_prompt answer].
Proof.
  destruct (chat_or_complete_progress base_url model system_prompt user_prompt
              temperature max_tokens mode st) as (answer & tr & w' & Hrun & Htr).
  exists answer, (tr ++ [Summarization user_prompt answer]), w'.
  unfold summarization_call. run_m. rewrite Hrun.
  rewrite progress_app, Htr, app_assoc.
  destruct answer; done.
Qed.

(** The loop over the blocks shows, for each block it reaches, the status
    line of the block and then its call; it stops at the first call that
    raises. *)
Lemma summarize_blocks_progress
    lm_base_url lm_model system_prompt user_prompt temperature max_tokens
    api_mode_key status_container n chunks :
  forall i partial_summaries st,
    exists out tr w' answers,
      summarize_blocks lm_base_url lm_model system_prompt user_prompt
        temperature max_tokens api_mode_key status_container n i chunks
        partial_summaries st = (out, State w' (trace st ++ tr)) /\
      progress tr =
        block_progress user_prompt status_container n i chunks answers /\
      ((exists smrys,
          answers = inr <$> smrys /\ length smrys = length chunks /\
          out = Returns (partial_summaries ++ block_summaries i smrys)) \/
       (exists smrys e,
          answers = (inr <$> smrys) ++ [inl e] /\
          (length smrys < length chunks)%nat /\ out = Raises e)).
Proof.
  induction chunks as [|ch chunks IH]; intros i partial_summaries st;
    cbn [summarize_blocks].
  - exists (Returns partial_summaries), [], (world st), [].
    unfold ret. rewrite state_eta. split; [done|]. split; [done|]. left.
    exists []. simpl. by rewrite app_nil_r.
  - destruct (status_write_progress status_container
                ("🔄 Résumé bloc " +:+ Py.str_int i +:+ "/" +:+ Py.str_int n +:+ "...")
                st) as (tr0 & Hstatus & Htr0).
    erewrite bind_returns by exact Hstatus.
    destruct (summarization_call_progress lm_base_url lm_model system_prompt
                (block_prompt user_prompt i n ch) temperature max_tokens
                api_mode_key (State (world st) (trace st ++ tr0)))
      as (answer & tr1 & w1 & Hcall & Htr1).
    destruct answer as [e|smry]; simpl in Hcall.
    + erewrite bind_raises by exact Hcall.
      exists (Raises e), (tr0 ++ tr1), w1, [inl e]. cbn [trace].
      rewrite app_assoc. split; [done|]. split.
      * rewrite progress_app, Htr0, Htr1. cbn [block_progress].
        by destruct chunks.
      * right. exists [], e. simpl. split; [done|]. split; [lia|done].
    + erewrite bind_returns by exact Hcall.
      destruct (IH (i + 1) (partial_summaries ++ [block_summary i smry])
                  (State w1 ((trace st ++ tr0) ++ tr1)))
        as (out & tr2 & w2 & answers & Hrest & Hprogress & Hcases).
      exists out, (tr0 ++ tr1 ++ tr2), w2, (inr smry :: answers).
      rewrite Hrest. cbn [trace]. rewrite !app_assoc. split; [done|].
      rewrite <- !app_assoc, !progress_app, Htr0, Htr1, Hprogress. split; [done|].
      destruct Hcases as [(smrys & -> & Hlen & ->)|(smrys & e & -> & Hlen & ->)].
      * left. exists (smry :: smrys). simpl.
        rewrite <- app_assoc. split; [done|]. split; [by rewrite Hlen|done].
      * right. exists (smry :: smrys), e. simpl. split; [done|]. split; [lia|done].
Qed.

(** X9.  What [generate_summary] shows of its progress, in order.  In the
    direct strategy: the line of the direct summary, then the one call.  In
    the chunked strategy: the line of the cutting, the line with the number
    of blocks, then for each block reached its own line followed by its
    call, and, only when every block call returned, the line of the
    synthesis followed by the synthesis call; when a block call raises, its
    call is the last thing shown.  Without a status container no line is
    written at all. *)
Theorem generate_summary_progress
    fuel text_for_llm lm_base_url lm_model system_prompt user_prompt
    temperature max_tokens api_mode_key token_backend hf_tokenizer_model
    chunk_size overlap mode_resume status_container st ids :
  (encode_tokens text_for_llm token_backend hf_tokenizer_model st).1 = Returns ids ->
  exists out tr w',
    generate_summary fuel text_for_llm lm_base_url lm_model system_prompt
      user_prompt temperature max_tokens api_mode_key token_backend
      hf_tokenizer_model chunk_size overlap mode_resume status_container st =
    (out, State w' (trace st ++ tr)) /\
    if direct_strategy mode_resume (Py.len ids) chunk_size then
      exists answer,
        progress tr =
          status_line status_container "📝 Génération du résumé direct..." ++
          [Summarization (direct_prompt user_prompt text_for_llm) answer] /\
        out = match answer with
              | inr summary_text => Returns (summary_text, [])
              | inl e => Raises e
              end
    else
      match (chunk_text_by_tokens fuel text_for_llm chunk_size token_backend
               hf_tokenizer_model overlap st).1 with
      | Returns chunks =>
          exists answers tail,
            progress tr =
              status_line status_container "✂️ Découpage du texte en blocs..." ++
              status_line status_container
                ("📚 " +:+ Py.str_int (Py.len chunks) +:+ " blocs à résumer.") ++
              block_progress user_prompt status_container (Py.len chunks) 1
                chunks answers ++
              tail /\
            ((exists smrys answer,
                answers = inr <$> smrys /\ length smrys = length chunks /\
                tail =
                  status_line status_container "🔗 Synthèse finale en cours..." ++
                  [Summarization
                     (synth_prompt user_prompt (block_summaries 1 smrys))
                     answer] /\
                out = match answer with
                      | inr summary_text =>
                          Returns (summary_text, block_summaries 1 smrys)
                      | inl e => Raises e
                      end) \/
             (exists smrys e,
                answers = (inr <$> smrys) ++ [inl e] /\
                (length smrys < length chunks)%nat /\
                tail = [] /\ out = Raises e))
      | Raises e =>
          progress tr =
            status_line status_container "✂️ Découpage du texte en blocs..." /\
          out = Raises e
      | OutOfFuel =>
          progress tr =
            status_line status_container "✂️ Découpage du texte en blocs..." /\
          out = OutOfFuel
      end.
Proof.
  intros Henc.
  destruct (count_tokens_run _ _ _ _ _ Henc) as (msgs & Hcount).
  unfold generate_summary. erewrite bind_returns by exact Hcount.
  destruct (direct_strategy mode_resume (Py.len ids) chunk_size).
  - destruct (status_write_progress status_container
                "📝 Génération du résumé direct..."
                (State (world st) (trace st ++ (Warning <$> msgs))))
      as (tr0 & Hstatus & Htr0).
    erewrite bind_returns by exact Hstatus.
    destruct (summarization_call_progress lm_base_url lm_model system_prompt
                (direct_prompt user_prompt text_for_llm) temperature max_tokens
                api_mode_key
                (State (world st) ((trace st ++ (Warning <$> msgs)) ++ tr0)))
      as (answer & tr1 & w1 & Hcall & Htr1).
    exists (match answer with
            | inr summary_text => Returns (summary_text, [])
            | inl e => Raises e
            end), ((Warning <$> msgs) ++ tr0 ++ tr1), w1.
    split.
    + cbn [trace] in Hcall. rewrite !app_assoc.
      destruct answer as [e|summary_text]; simpl in Hcall.
      * by erewrite bind_raises by exact Hcall.
      * by erewrite bind_returns by exact Hcall.
    + exists answer. split; [|done].
      by rewrite !progress_app, progress_warnings, Htr0, Htr1.
  - destruct (status_write_progress status_container
                "✂️ Découpage du texte en blocs..."
                (State (world st) (trace st ++ (Warning <$> msgs))))
      as (tr0 & Hstatus & Htr0).
    erewrite bind_returns by exact Hstatus. cbn [world trace].
    destruct (chunk_text_by_tokens_any_state fuel text_for_llm chunk_size
                token_backend hf_tokenizer_model overlap st
                (State (world st) ((trace st ++ (Warning <$> msgs)) ++ tr0)))
      as (msgs1 & Hchunk).
    cbn [world trace] in Hchunk.
    destruct ((chunk_text_by_tokens fuel text_for_llm chunk_size token_backend
                 hf_tokenizer_model overlap st).1) as [chunks|e|].
    2:{ erewrite bind_raises by exact Hchunk.
        exists (Raises e), ((Warning <$> msgs) ++ tr0 ++ (Warning <$> msgs1)),
          (world st).
        rewrite !progress_app, !progress_warnings, Htr0, !app_assoc, !app_nil_r.
        done. }
    2:{ erewrite bind_out_of_fuel by exact Hchunk.
        exists OutOfFuel, ((Warning <$> msgs) ++ tr0 ++ (Warning <$> msgs1)),
          (world st).
        rewrite !progress_app, !progress_warnings, Htr0, !app_assoc, !app_nil_r.
        done. }
    erewrite bind_returns by exact Hchunk. cbv beta.
    match goal with |- context [bind (status_write _ ?msg) _ ?s] =>
      destruct (status_write_progress status_container msg s)
        as (tr2 & Hstatus2 & Htr2)
    end.
    erewrite bind_returns by exact Hstatus2. cbn [world trace].
    match goal with
    | |- context [bind (summarize_blocks _ _ _ _ _ _ _ _ _ _ _ _) _ ?s] =>
      destruct (summarize_blocks_progress lm_base_url lm_model system_prompt
                  user_prompt temperature max_tokens api_mode_key
                  status_container (Py.len chunks) chunks 1 [] s)
        as (out & tr3 & w3 & answers & Hblocks & Htr3 & Hcases)
    end.
    cbn [world trace] in Hblocks.
    destruct Hcases as [(smrys & -> & Hlen & ->)|(smrys & e & -> & Hlen & ->)].
    + erewrite bind_returns by exact Hblocks. cbn [app].
      match goal with |- context [bind (status_write _ ?msg) _ ?s] =>
        destruct (status_write_progress status_container msg s)
          as (tr4 & Hstatus4 & Htr4)
      end.
      erewrite bind_returns by exact Hstatus4. cbn [world trace].
      match goal with
      | |- context [bind (summarization_call _ _ _ ?p _ _ _) _ ?s] =>
        destruct (summarization_call_progress lm_base_url lm_model
                    system_prompt p temperature max_tokens api_mode_key s)
          as (answer & tr5 & w5 & Hcall & Htr5)
      end.
      cbn [world trace] in Hcall.
      exists (match answer with
              | inr summary_text =>
                  Returns (summary_text, block_summaries 1 smrys)
              | inl e => Raises e
              end),
        ((Warning <$> msgs) ++ tr0 ++ (Warning <$> msgs1) ++ tr2 ++ tr3 ++
         tr4 ++ tr5), w5.
      split.
      * rewrite !app_assoc.
        destruct answer as [e|summary_text]; simpl in Hcall.
        -- by erewrite bind_raises by exact Hcall.
        -- by erewrite bind_returns by exact Hcall.
      * eexists _, _. split.
        -- rewrite !progress_app, !progress_warnings, Htr0, Htr2, Htr3, Htr4,
             Htr5. cbn [app]. reflexivity.
        -- left. by exists smrys, answer.
    + erewrite bind_raises by exact Hblocks.
      exists (Raises e),
        ((Warning <$> msgs) ++ tr0 ++ (Warning <$> msgs1) ++ tr2 ++ tr3), w3.
      split; [by rewrite !app_assoc|].
      eexists _, []. split.
      * rewrite !progress_app, !progress_warnings, Htr0, Htr2, Htr3, app_nil_r.
        cbn [app]. reflexivity.
      * right. by exists smrys, e.
Qed.

(** ** The number of blocks *)

Lemma chunk_loop_count {A} (ids : list A) max_tokens overlap fuel :
  ids <> [] -> 0 <= overlap < max_tokens -> (length ids <= fuel)%nat ->
  exists chunks,
    chunk_loop fuel ids max_tokens overlap 0 [] = Some chunks /\
    Py.len chunks =
      Z.max 1 ((Py.len ids - overlap + (max_tokens - overlap) - 1)
               / (max_tokens - overlap)).
Proof.
  intros Hne Hov Hfuel.
  assert (0 < Py.len ids) as Hlen
    by (destruct ids; [done|unfold Py.len; simpl; lia]).
  destruct (chunk_windows_chain (Py.len ids) max_tokens overlap Hov fuel 0)
    as (ws & Hrun & Hchain); [lia|unfold Py.len; lia|].
  exists (window_slice ids <$> ws). split.
  - by rewrite chunk_loop_windows, Hrun.
  - unfold Py.len at 1. rewrite length_fmap.
    rewrite (window_chain_length _ _ _ _ _ Hov Hchain).
    set (n := Py.len ids) in *. set (d := max_tokens - overlap).
    replace (n - 0 - max_tokens) with (n - max_tokens) by lia.
    destruct (Z.le_gt_cases n max_tokens) as [Hle|Hgt].
    + rewrite Z.max_l by lia. rewrite (Z.div_small (0 + d - 1)) by lia.
      rewrite Z.max_l; [lia|].
      assert ((n - overlap + d - 1) / d < 2); [|lia].
      apply Z.div_lt_upper_bound; lia.
    + rewrite Z.max_r by lia.
      replace (n - overlap + d - 1) with ((n - max_tokens + d - 1) + 1 * d)
        by lia.
      rewrite Z.div_add by lia.
      assert (0 <= (n - max_tokens + d - 1) / d) by (apply Z.div_pos; lia).
      lia.
Qed.

Lemma map_raise_raises {A B} (f : A -> exn + B) (l : list A) e :
  map_raise f l = inl e -> exists c, c ∈ l /\ f c = inl e.
Proof.
  induction l as [|a l IH]; simpl; [done|].
  destruct (f a) as [e'|b] eqn:Hfa.
  - intros [= <-]. exists a. split; [left|done].
  - destruct (map_raise f l) as [e'|bs]; [|done].
    intros [= <-]. destruct IH as (c & Hc & Hfc); [done|].
    exists c. split; [by right|done].
Qed.

(** How [chunk_text_by_tokens] ends once its loop has returned [chunks]: it
    returns one text per chunk, or raises what a [decode] of the loaded
    HuggingFace tokenizer raised on one of the chunks. *)
Lemma chunk_text_by_tokens_decoded
    fuel text max_tokens backend hf_model_id overlap st ids chunks :
  (encode_tokens text backend hf_model_id st).1 = Returns ids ->
  ids <> [] ->
  chunk_loop fuel ids max_tokens overlap 0 [] = Some chunks ->
  match (chunk_text_by_tokens fuel text max_tokens backend hf_model_id
           overlap st).1 with
  | Returns decoded => length decoded = length chunks
  | Raises e =>
      backend = "HuggingFace" /\
      exists tok c,
        AutoTokenizer_from_pretrained hf_model_id = inr tok /\
        c ∈ chunks /\ hf_decode tok c = inl e
  | OutOfFuel => False
  end.
Proof.
  intros Henc Hne Hloop.
  destruct (encode_tokens_run text backend hf_model_id) as (ids' & msgs & Hrun).
  rewrite Hrun in Henc. simpl in Henc. injection Henc as ->.
  unfold chunk_text_by_tokens. unfold bind at 1. rewrite Hrun.
  destruct ids as [|t ids]; [done|].
  unfold bind at 1. rewrite Hloop. unfold bounded, ret at 1.
  assert ((Py.len (t :: ids) =? 0) = false) as Hlen
    by (apply Z.eqb_neq; unfold Py.len; simpl; lia).
  destruct (String.eqb backend "HuggingFace") eqn:Hbackend.
  - apply String.eqb_eq in Hbackend.
    destruct (get_hf_tokenizer_run hf_model_id) as (msgs' & _ & _ & Hget).
    destruct (AutoTokenizer_from_pretrained hf_model_id) as [e|tok] eqn:Hload.
    + unfold bind at 1. unfold bind at 1. rewrite Hget. unfold ret at 1.
      rewrite bool_decide_eq_false_2 by (intros [? ?]; done).
      rewrite Hlen. unfold ret. simpl. apply length_decode_by_words.
    + unfold bind at 1. unfold bind at 1. rewrite Hget. unfold ret at 1.
      rewrite bool_decide_eq_true_2 by eauto.
      unfold bind at 1. rewrite Hget. unfold lift. simpl.
      destruct (map_raise _ chunks) as [e|decoded] eqn:Hdec; simpl.
      * apply map_raise_raises in Hdec as (c & Hc & Hfc).
        split; [done|]. by exists tok, c.
      * by apply length_map_raise in Hdec.
  - unfold bind at 1, ret at 1. rewrite Hlen. unfold ret. simpl.
    apply length_decode_by_words.
Qed.

(** X10.  For a text of [n > 0] tokens and [0 <= overlap < max_tokens],
    [chunk_text_by_tokens] ends within [n] turns of its loop, whatever the
    backend.  It returns as many texts as the quotient of [n - overlap] by
    [max_tokens - overlap] rounded up (one at least); the only exception it
    can raise is one raised by [decode] of a loaded HuggingFace tokenizer,
    the backend then being ["HuggingFace"]. *)
Theorem chunk_text_by_tokens_block_count
    fuel text max_tokens backend hf_model_id overlap st ids :
  (encode_tokens text backend hf_model_id st).1 = Returns ids ->
  ids <> [] -> 0 <= overlap < max_tokens -> (length ids <= fuel)%nat ->
  match (chunk_text_by_tokens fuel text max_tokens backend hf_model_id
           overlap st).1 with
  | Returns decoded =>
      Py.len decoded =
        Z.max 1 ((Py.len ids - overlap + (max_tokens - overlap) - 1)
                 / (max_tokens - overlap))
  | Raises e =>
      backend = "HuggingFace" /\
      exists tok c,
        AutoTokenizer_from_pretrained hf_model_id = inr tok /\
        hf_decode tok c = inl e
  | OutOfFuel => False
  end.
Proof.
  intros Henc Hne Hov Hfuel.
  destruct (chunk_loop_count ids max_tokens overlap fuel Hne Hov Hfuel)
    as (chunks & Hloop & Hcount).
  pose proof (chunk_text_by_tokens_decoded fuel text max_tokens backend
                hf_model_id overlap st ids chunks Henc Hne Hloop) as Hdec.
  destruct ((chunk_text_by_tokens fuel text max_tokens backend hf_model_id
               overlap st).1) as [decoded|e|]; [| |done].
  - unfold Py.len at 1. rewrite Hdec. exact Hcount.
  - destruct Hdec as (Hb & tok & c & Hload & _ & Hc). split; [done|].
    by exists tok, c.
Qed.

(** X11.  The chunked strategy, for [0 <= overlap < chunk_size]: the run
    ends within [n] turns of the chunking loop, [n] being the number of
    tokens of the text; the text is cut into [k >= 2] blocks, [k] being the
    quotient of [n - overlap] by [chunk_size - overlap] rounded up; a run
    makes at most [k + 1] summarization calls, and exactly [k + 1] when it
    returns, its second component then holding [k] block summaries. *)
Theorem generate_summary_chunked_call_count
    fuel text_for_llm lm_base_url lm_model system_prompt user_prompt
    temperature max_tokens api_mode_key token_backend hf_tokenizer_model
    chunk_size overlap mode_resume status_container st ids :
  (encode_tokens text_for_llm token_backend hf_tokenizer_model st).1 = Returns ids ->
  direct_strategy mode_resume (Py.len ids) chunk_size = false ->
  0 <= overlap < chunk_size ->
  (length ids <= fuel)%nat ->
  let k := (Py.len ids - overlap + (chunk_size - overlap) - 1)
           / (chunk_size - overlap) in
  2 <= k /\
  exists out tr w',
    generate_summary fuel text_for_llm lm_base_url lm_model system_prompt
      user_prompt temperature max_tokens api_mode_key token_backend
      hf_tokenizer_model chunk_size overlap mode_resume status_container st =
    (out, State w' (trace st ++ tr)) /\
    Py.len (summarizations tr) <= k + 1 /\
    match out with
    | Returns (summary_text, chunk_summaries) =>
        Py.len (summarizations tr) = k + 1 /\ Py.len chunk_summaries = k
    | Raises _ => True
    | OutOfFuel => False
    end.
Proof.
  intros Henc Hdirect Hov Hfuel k.
  assert (Py.len ids > chunk_size) as Hn.
  { unfold direct_strategy in Hdirect.
    apply orb_false_iff in Hdirect as [_ Hle]. apply Z.leb_gt in Hle. lia. }
  assert (ids <> []) as Hne.
  { intros ->. unfold Py.len in Hn. simpl in Hn. lia. }
  assert (2 <= k) as Hk.
  { unfold k. apply Z.div_le_lower_bound; lia. }
  split; [exact Hk|].
  destruct (chunk_loop_count ids chunk_size overlap fuel Hne Hov Hfuel)
    as (windows & Hloop & Hcount).
  fold k in Hcount. rewrite Z.max_r in Hcount by lia.
  pose proof (chunk_text_by_tokens_decoded fuel text_for_llm chunk_size
                token_backend hf_tokenizer_model overlap st ids windows Henc
                Hne Hloop) as Hdec.
  destruct (generate_summary_chunked_run fuel text_for_llm lm_base_url lm_model
              system_prompt user_prompt temperature max_tokens api_mode_key
              token_backend hf_tokenizer_model chunk_size overlap mode_resume
              status_container st ids Henc Hdirect)
    as (out & tr & w' & Hrun & Hcases).
  exists out, tr, w'. split; [exact Hrun|].
  destruct ((chunk_text_by_tokens fuel text_for_llm chunk_size token_backend
               hf_tokenizer_model overlap st).1) as [chunks|e|]; [| |done].
  - assert (Z.of_nat (length chunks) = k) as Hchunks
      by (rewrite Hdec; exact Hcount).
    destruct Hcases as [(smrys & answer & Hlen & -> & ->)
                       |(j & ch & smrys & e & Hj & Hlen & -> & ->)].
    + assert (Py.len
                (answered (block_prompts user_prompt (Py.len chunks) 1 chunks)
                   smrys ++
                 [(synth_prompt user_prompt (block_summaries 1 smrys), answer)])
              = k + 1) as ->.
      { unfold Py.len at 1.
        rewrite length_app, length_answered, length_block_prompts, Hlen.
        simpl. lia. }
      split; [lia|]. destruct answer as [e|summary_text]; [done|].
      split; [done|]. unfold Py.len.
      by rewrite length_block_summaries, Hlen.
    + apply lookup_lt_Some in Hj. split; [|done].
      unfold Py.len at 1.
      rewrite length_app, length_answered, length_block_prompts, length_take.
      simpl. lia.
  - destruct Hcases as [-> ->]. unfold Py.len. simpl. split; [lia|done].
Qed.

(** ** A text without token *)

(** X12.  When the text has no token (the empty text, or a tokenizer that
    gives no id), [generate_summary] still makes exactly one summarization
    call, for every chunk size, overlap, mode and bound on the chunking loop:
    the direct call on the text, or, when the chunked strategy is taken
    (which needs [chunk_size < 0]), a synthesis call over no block summary at
    all.  The list of block summaries it returns is empty. *)
Theorem generate_summary_no_token_one_call
    fuel text_for_llm lm_base_url lm_model system_prompt user_prompt
    temperature max_tokens api_mode_key token_backend hf_tokenizer_model
    chunk_size overlap mode_resume status_container st :
  (encode_tokens text_for_llm token_backend hf_tokenizer_model st).1 = Returns [] ->
  exists answer tr w',
    generate_summary fuel text_for_llm lm_base_url lm_model system_prompt
      user_prompt temperature max_tokens api_mode_key token_backend
      hf_tokenizer_model chunk_size overlap mode_resume status_container st =
    (match answer with
     | inr summary_text => Returns (summary_text, [])
     | inl e => Raises e
     end, State w' (trace st ++ tr)) /\
    summarizations tr =
      [(if direct_strategy mode_resume 0 chunk_size
        then direct_prompt user_prompt text_for_llm
        else synth_prompt user_prompt [], answer)] /\
    (direct_strategy mode_resume 0 chunk_size = false -> chunk_size < 0).
Proof.
  intros Henc.
  destruct (direct_strategy mode_resume 0 chunk_size) eqn:Hdirect.
  - destruct (generate_summary_direct_run fuel text_for_llm lm_base_url lm_model
                system_prompt user_prompt temperature max_tokens api_mode_key
                token_backend hf_tokenizer_model chunk_size overlap mode_resume
                status_container st [] Henc Hdirect)
      as (answer & tr & w' & Hrun & Htr).
    by exists answer, tr, w'.
  - destruct (generate_summary_chunked_run fuel text_for_llm lm_base_url lm_model
                system_prompt user_prompt temperature max_tokens api_mode_key
                token_backend hf_tokenizer_model chunk_size overlap mode_resume
                status_container st [] Henc Hdirect)
      as (out & tr & w' & Hrun & Hcases).
    destruct (chunk_text_by_tokens_cases fuel text_for_llm chunk_size
                token_backend hf_tokenizer_model overlap)
      as (ids & msgs0 & out' & msgs & Hids & Hchunk & Hout).
    rewrite Hids in Henc. simpl in Henc. injection Henc as ->. subst out'.
    rewrite Hchunk in Hcases. simpl in Hcases.
    destruct Hcases as [(smrys & answer & Hlen & Htr & ->)
                       |(k & ch & smrys & e & Hk & _)]; [|done].
    destruct smrys; [|done]. simpl in Htr.
    exists answer, tr, w'. split; [exact Hrun|]. split; [exact Htr|].
    intros _. unfold direct_strategy in Hdirect.
    apply orb_false_iff in Hdirect as [_ Hle]. by apply Z.leb_gt in Hle.
Qed.

(** ** Audio processing *)

(** A diarization that returns puts the transcription on its first segment
    and the empty text on every other one. *)
Lemma diarize_audio_segments audio_path transcription segments :
  _diarize_audio audio_path transcription = inr segments ->
  exists s e speaker rest,
    segments = (s, e, speaker, transcription) :: rest /\
    Forall (fun seg => seg.2 = EmptyString) rest.
Proof.
  unfold _diarize_audio.
  destruct (negb (Py.truthy HF_TOKEN)); [done|].
  destruct (Pipeline_from_pretrained _ _) as [e|pipeline]; [done|].
  destruct (if String.eqb DEVICE "cuda" then to_cuda pipeline else None);
    [done|].
  destruct (run_itertracks pipeline audio_path) as [e|tracks]; [done|].
  destruct tracks as [|[[turn0 track0] speaker0] tracks]; simpl.
  - intros [= <-]. exists float_zero, float_zero, "SPEAKER_00", []. by split.
  - intros [= <-]. eexists _, _, _, _. split; [reflexivity|].
    apply Forall_fmap, Forall_forall. by intros [[turn track] speaker] _.
Qed.

(** X13.  Once the audio file exists and the chosen engine has returned a
    transcription, [process_audio] does not raise, whatever the diarization
    does: it returns the transcription as the only text, or segments of
    which the first carries the transcription and all others the empty
    text; the dictionary of speaker files is empty in every case.  Segments
    are returned only when the diarization is enabled, pyannote is present
    and the HuggingFace token is set; a diarization that raises is reported
    by one printed line and replaced by the plain transcription. *)
Theorem process_audio_keeps_transcription
    audio_path diarization_enabled model_name language transcription :
  os_path_exists audio_path = true ->
  transcribe audio_path model_name language = Some (inr transcription) ->
  exists printed result,
    process_audio audio_path diarization_enabled model_name language =
      (printed, inr (result, [])) /\
    (result = Plain [transcription] \/
     exists s e speaker rest,
       result = Diarized ((s, e, speaker, transcription) :: rest) /\
       Forall (fun seg => seg.2 = EmptyString) rest) /\
    (forall segments,
       result = Diarized segments ->
       printed = [] /\ diarization_enabled = true /\ HAVE_PYANNOTE = true /\
       HF_TOKEN <> EmptyString /\
       _diarize_audio audio_path transcription = inr segments) /\
    (forall texts,
       result = Plain texts ->
       diarization_enabled && HAVE_PYANNOTE = false /\ printed = [] \/
       exists e,
         diarization_enabled && HAVE_PYANNOTE = true /\
         _diarize_audio audio_path transcription = inl e /\
         printed = ["Erreur diarisation: " +:+ exn_str e +:+
                    ". Retour à la transcription simple."]).
Proof.
  intros Hexists Htranscribe. unfold process_audio.
  rewrite Hexists, Htranscribe. simpl.
  destruct (diarization_enabled && HAVE_PYANNOTE) eqn:Hdiar.
  - destruct (_diarize_audio audio_path transcription) as [e|segments] eqn:Hrun.
    + eexists _, _. split; [reflexivity|]. split; [by left|].
      split; [done|]. intros texts _. right. by exists e.
    + eexists _, _. split; [reflexivity|].
      destruct (diarize_audio_segments _ _ _ Hrun)
        as (s & e & speaker & rest & -> & Hrest).
      split; [right; by exists s, e, speaker, rest|]. split; [|done].
      intros segments [= <-]. apply andb_true_iff in Hdiar as [-> ->].
      repeat split; try done.
      intros Htoken. unfold _diarize_audio in Hrun. by rewrite Htoken in Hrun.
  - eexists _, _. split; [reflexivity|]. split; [by left|].
    split; [done|]. intros texts _. by left.
Qed.


(** ** The decoding by words *)

(** Without a loaded HuggingFace tokenizer the chunks are decoded by runs of
    words. *)
Lemma chunk_text_by_tokens_by_words
    fuel text max_tokens backend hf_model_id overlap st ids chunks :
  (encode_tokens text backend hf_model_id st).1 = Returns ids ->
  backend <> "HuggingFace" \/
  (exists e, AutoTokenizer_from_pretrained hf_model_id = inl e) ->
  ids <> [] ->
  chunk_loop fuel ids max_tokens overlap 0 [] = Some chunks ->
  (chunk_text_by_tokens fuel text max_tokens backend hf_model_id overlap st).1 =
  Returns (decode_by_words (Py.split text)
             (Z.max 1 (Py.round_div (Py.len (Py.split text)) (Py.len ids)))
             overlap 0 chunks).
Proof.
  intros Henc Hbackend Hne Hloop.
  destruct (encode_tokens_run text backend hf_model_id) as (ids' & msgs & Hrun).
  rewrite Hrun in Henc. simpl in Henc. injection Henc as ->.
  unfold chunk_text_by_tokens. unfold bind at 1. rewrite Hrun.
  destruct ids as [|t ids]; [done|].
  unfold bind at 1. rewrite Hloop. unfold bounded, ret at 1.
  assert ((Py.len (t :: ids) =? 0) = false) as Hlen
    by (apply Z.eqb_neq; unfold Py.len; simpl; lia).
  destruct (String.eqb_spec backend "HuggingFace") as [->|Hother].
  - destruct Hbackend as [?|[e He]]; [done|].
    destruct (get_hf_tokenizer_run hf_model_id) as (msgs' & _ & _ & Hget).
    rewrite He in Hget.
    unfold bind at 1. unfold bind at 1. rewrite Hget. unfold ret at 1.
    rewrite bool_decide_eq_false_2 by (intros [? ?]; done).
    cbv zeta. by rewrite Hlen.
  - unfold bind at 1, ret at 1. cbv zeta. by rewrite Hlen.
Qed.

Lemma round_div_at_most_one a b :
  0 <= a <= b -> 0 < b -> Z.max 1 (Py.round_div a b) = 1.
Proof.
  intros Ha Hb. unfold Py.round_div.
  destruct (Z.eq_dec a b) as [->|Hne].
  - rewrite Z.div_same, Z.mod_same by lia.
    by destruct (Z.ltb_spec (2 * 0) b); [|lia].
  - rewrite Z.div_small, Z.mod_small by lia.
    destruct (2 * a <? b); [done|]. by destruct (2 * a >? b).
Qed.

(** With one word per token, the decoding of the chunks of a chain of token
    windows takes the runs of [word_windows]. *)
Lemma decode_by_words_windows (ids : list token) (words : list string)
    max_tokens overlap start ws :
  0 <= overlap < max_tokens ->
  0 <= start ->
  window_chain (Py.len ids) max_tokens overlap start ws ->
  forall idx,
    decode_by_words words 1 overlap idx (window_slice ids <$> ws) =
    (fun w => Py.join " " (Py.slice words w.1 w.2)) <$>
      word_windows overlap idx ws.
Proof.
  intros Hov Hstart Hchain.
  assert (forall s e, 0 <= s -> s < e -> e <= Py.len ids ->
            Z.max 1 (Py.len (window_slice ids (s, e)) * 1) = e - s)
    as Htake.
  { intros s e Hs Hse He. unfold window_slice. cbn [fst snd].
    rewrite py_len_slice by lia. lia. }
  revert Hstart.
  induction Hchain as [start Hs Hend|start ws Hend Hws IH]; intros Hstart idx;
    rewrite !fmap_cons; cbn [decode_by_words word_windows fst snd];
    rewrite Htake by lia.
  - done.
  - rewrite fmap_cons. cbn [fst snd]. f_equal.
    by rewrite IH by lia.
Qed.

(** The runs of words start at or after the token windows they stand for,
    so that together they reach the end of the token sequence. *)
Lemma word_windows_cover n max_tokens overlap start ws :
  0 <= overlap < max_tokens ->
  window_chain n max_tokens overlap start ws ->
  forall idx j,
    start <= idx -> idx <= j < n ->
    exists w, w ∈ word_windows overlap idx ws /\ idx <= w.1 /\ w.1 <= j < w.2.
Proof.
  intros Hov Hchain.
  induction Hchain as [start Hs Hend|start ws Hend Hws IH]; intros idx j Hidx Hj;
    cbn [word_windows].
  - exists (idx, idx + (n - start)). split; [left|]. simpl. lia.
  - destruct (Z.lt_ge_cases j (idx + (start + max_tokens - start))) as [Hin|Hout].
    + eexists. split; [left|]. simpl. lia.
    + destruct (IH (idx + (start + max_tokens - start - Z.min overlap 50)) j)
        as (w & Hw & Hlo & Hjw); [lia|lia|].
      exists w. split; [by right|]. lia.
Qed.

Lemma py_slice_elem {A} (l : list A) s e (j : nat) x :
  0 <= s -> s <= Z.of_nat j < e -> l !! j = Some x -> x ∈ Py.slice l s e.
Proof.
  intros Hs Hj Hx. pose proof (lookup_lt_Some _ _ _ Hx) as Hlt.
  unfold Py.slice, Py.slice_bound.
  destruct (Z.ltb_spec s 0); [lia|]. destruct (Z.ltb_spec e 0); [lia|].
  apply (list_elem_of_lookup_2 _ (j - Z.to_nat (Z.min s (Z.of_nat (length l))))).
  rewrite lookup_take_lt by lia. rewrite lookup_drop.
  rewrite <- Hx. f_equal. lia.
Qed.

(** X15.  The decoding by words loses no word when the tokenizer gives at
    least one token per word.  Without a loaded HuggingFace tokenizer (the
    backend is another one, or the tokenizer does not load), for a text of
    at least as many tokens as words and [0 <= overlap < max_tokens],
    [chunk_text_by_tokens] returns, for runs of consecutive words of the
    text, the words of each run joined by single spaces, and every word of
    the text is in one of the runs. *)
Theorem chunk_text_by_tokens_words_covered
    fuel text max_tokens backend hf_model_id overlap st ids :
  (encode_tokens text backend hf_model_id st).1 = Returns ids ->
  backend <> "HuggingFace" \/
  (exists e, AutoTokenizer_from_pretrained hf_model_id = inl e) ->
  ids <> [] -> 0 <= overlap < max_tokens -> (length ids <= fuel)%nat ->
  Py.len (Py.split text) <= Py.len ids ->
  exists runs,
    (chunk_text_by_tokens fuel text max_tokens backend hf_model_id overlap st).1 =
      Returns ((fun w => Py.join " " (Py.slice (Py.split text) w.1 w.2))
                 <$> runs) /\
    forall j word,
      Py.split text !! j = Some word ->
      exists w, w ∈ runs /\ word ∈ Py.slice (Py.split text) w.1 w.2.
Proof.
  intros Henc Hbackend Hne Hov Hfuel Hwords.
  assert (0 < Py.len ids) as Hlen
    by (destruct ids; [done|unfold Py.len; simpl; lia]).
  destruct (chunk_windows_chain (Py.len ids) max_tokens overlap Hov fuel 0)
    as (ws & Hrun & Hchain); [lia|unfold Py.len; lia|].
  assert (chunk_loop fuel ids max_tokens overlap 0 [] =
          Some (window_slice ids <$> ws)) as Hloop
    by (by rewrite chunk_loop_windows, Hrun).
  exists (word_windows overlap 0 ws). split.
  - rewrite (chunk_text_by_tokens_by_words fuel text max_tokens backend
               hf_model_id overlap st ids _ Henc Hbackend Hne Hloop).
    rewrite round_div_at_most_one
      by (unfold Py.len in *; lia).
    f_equal. by apply (decode_by_words_windows ids _ max_tokens overlap 0).
  - intros j word Hj. pose proof (lookup_lt_Some _ _ _ Hj) as Hlt.
    destruct (word_windows_cover _ _ _ _ _ Hov Hchain 0 (Z.of_nat j))
      as (w & Hw & Hlo & Hjw); [lia|unfold Py.len in *; lia|].
    exists w. split; [done|]. by apply (py_slice_elem _ _ _ j).
Qed.

(** ** Addresses of the inference server *)

Lemma string_app_cons c (a b : string) : String c a +:+ b = String c (a +:+ b).
Proof. reflexivity. Qed.

Lemma string_app_nil_l (a : string) : EmptyString +:+ a = a.
Proof. reflexivity. Qed.

Lemma slashes_snoc k : slashes (S k) = slashes k +:+ "/".
Proof.
  induction k as [|k IH]; [done|].
  change (slashes (S (S k))) with (String "/"%char (slashes (S k))).
  rewrite IH at 1. reflexivity.
Qed.

Lemma lmstudio_base_snoc (s : string) :
  _lmstudio_base (s +:+ "/") = _lmstudio_base s.
Proof.
  unfold _lmstudio_base. induction s as [|c s IH].
  - reflexivity.
  - rewrite string_app_cons. cbn [py_rstrip]. by rewrite IH.
Qed.

Lemma lmstudio_base_slashes (s : string) k :
  _lmstudio_base (s +:+ slashes k) = _lmstudio_base s.
Proof.
  induction k as [|k IH]; [by rewrite string_app_nil_r|].
  by rewrite slashes_snoc, <- string_app_assoc, lmstudio_base_snoc.
Qed.

Lemma lmstudio_base_stripped (s : string) :
  exists j, s = _lmstudio_base s +:+ slashes j.
Proof.
  unfold _lmstudio_base. induction s as [|c s [j IH]]; [by exists O|].
  cbn [py_rstrip]. destruct (py_rstrip "/" s) as [|d t].
  - rewrite string_app_nil_l in IH. cbn [list_ascii_of_string existsb].
    destruct (Ascii.eqb_spec c "/") as [->|Hc]; simpl.
    + exists (S j). by rewrite IH, string_app_nil_l.
    + exists j. by rewrite string_app_cons, string_app_nil_l, <- IH.
  - exists j. by rewrite string_app_cons, <- IH.
Qed.

Lemma lmstudio_base_no_trailing_slash (s r : string) :
  _lmstudio_base s <> r +:+ "/".
Proof.
  unfold _lmstudio_base. revert r. induction s as [|c s IH]; intros r.
  - by destruct r.
  - cbn [py_rstrip]. destruct (py_rstrip "/" s) as [|d t].
    + cbn [list_ascii_of_string existsb].
      destruct (Ascii.eqb_spec c "/") as [->|Hc]; simpl.
      * by destruct r.
      * destruct r as [|c' r]; [intros [= ->]; done|].
        rewrite string_app_cons. intros [= _ Hr]. by destruct r.
    + destruct r as [|c' r]; [done|].
      rewrite string_app_cons. intros [= _ Hr]. by apply (IH r).
Qed.

(** X16.  Slashes at the end of the address of the server do not count:
    [_lmstudio_base] removes all of them and nothing else, so that its
    result never ends with a slash, and the addresses asked for the chat
    completions, the completions and the models are the same whatever the
    number of slashes the address given ends with. *)
Theorem lmstudio_base_trailing_slashes (base_url : string) (k : nat) :
  (exists j, base_url = _lmstudio_base base_url +:+ slashes j) /\
  (forall r, _lmstudio_base base_url <> r +:+ "/") /\
  _lmstudio_base (base_url +:+ slashes k) = _lmstudio_base base_url /\
  chat_completions_url (base_url +:+ slashes k) = chat_completions_url base_url /\
  completions_url (base_url +:+ slashes k) = completions_url base_url /\
  models_url (base_url +:+ slashes k) = models_url base_url.
Proof.
  unfold chat_completions_url, completions_url, models_url.
  rewrite lmstudio_base_slashes.
  split; [apply lmstudio_base_stripped|].
  split; [apply lmstudio_base_no_trailing_slash|done].
Qed.

(** ** The tokenizer that decodes *)

(** X17.  The decoder is chosen by the backend and by whether the
    HuggingFace tokenizer loads, not by what produced the tokens: with the
    backend "HuggingFace" and a tokenizer that loads, every chunk is decoded
    by that tokenizer, also when its own [encode] raised and the tokens are
    tiktoken's, or the words of the text when tiktoken is missing too. *)
Theorem chunk_text_by_tokens_hf_decodes_any_tokens
    fuel text max_tokens hf_model_id overlap st tok ids chunks :
  AutoTokenizer_from_pretrained hf_model_id = inr tok ->
  (encode_tokens text "HuggingFace" hf_model_id st).1 = Returns ids ->
  ids <> [] ->
  chunk_loop fuel ids max_tokens overlap 0 [] = Some chunks ->
  (chunk_text_by_tokens fuel text max_tokens "HuggingFace" hf_model_id
     overlap st).1 = outcome_of (map_raise (hf_decode tok) chunks) /\
  ids = match hf_encode tok text with
        | inr hf_ids => TokenId <$> hf_ids
        | inl _ =>
            match tiktoken_encode text with
            | inr tiktoken_ids => TokenId <$> tiktoken_ids
            | inl _ => TokenWord <$> Py.split text
            end
        end.
Proof.
  intros Hload Henc Hne Hloop. split.
  - destruct (encode_tokens_run text "HuggingFace" hf_model_id)
      as (ids' & msgs & Hrun).
    rewrite Hrun in Henc. simpl in Henc. injection Henc as ->.
    unfold chunk_text_by_tokens. unfold bind at 1. rewrite Hrun.
    destruct ids as [|t ids]; [done|].
    unfold bind at 1. rewrite Hloop. unfold bounded, ret at 1.
    destruct (get_hf_tokenizer_run hf_model_id) as (msgs' & _ & _ & Hget).
    rewrite Hload in Hget. rewrite String.eqb_refl.
    unfold bind at 1. unfold bind at 1. rewrite Hget. unfold ret at 1.
    rewrite bool_decide_eq_true_2 by eauto.
    unfold bind at 1. rewrite Hget. unfold lift. reflexivity.
  - revert Henc. unfold encode_tokens.
    destruct text as [|c text]; [simpl; intros [= Hids]; by subst|].
    cbn [Py.truthy negb].
    rewrite String.eqb_refl. unfold get_hf_tokenizer. rewrite Hload.
    run_m.
    destruct (hf_encode tok (String c text)) as [e|hf_ids]; simpl.
    + destruct (tiktoken_encode (String c text)); simpl;
        intros [= Hids]; by subst.
    + intros [= Hids]; by subst.
Qed.

End Synevola.

(** * Instances

    The theorems above on the sample collaborators. *)

Abbreviation sample_chunk_text_by_tokens :=
  (chunk_text_by_tokens (W := Sample.script) Sample.no_hf Sample.no_tiktoken).

Abbreviation sample_encode_tokens :=
  (encode_tokens (W := Sample.script) Sample.no_hf Sample.no_tiktoken).

Abbreviation sample_count_tokens :=
  (count_tokens (W := Sample.script) Sample.no_hf Sample.no_tiktoken).

Abbreviation sample_chat_or_complete :=
  (chat_or_complete Sample.scripted_chat Sample.scripted_completions).

Abbreviation sample_generate_summary :=
  (generate_summary Sample.no_hf Sample.no_tiktoken Sample.scripted_chat
     Sample.scripted_completions).

(** Seven tokens, windows of 3 overlapping by 1: [0,3), [2,5), [4,7). *)
Lemma chunk_loop_windows_bounded_overlapping_covering_witness :
  [10; 11; 12; 13; 14; 15; 16] <> [] /\ 0 < 1 < 3 /\
  (length [10; 11; 12; 13; 14; 15; 16] <= 7)%nat /\
  exists ws,
    chunk_loop 7 [10; 11; 12; 13; 14; 15; 16] 3 1 0 [] =
      Some (window_slice [10; 11; 12; 13; 14; 15; 16] <$> ws) /\
    (forall i s e, ws !! i = Some (s, e) ->
       0 <= s < e /\ e <= Py.len [10; 11; 12; 13; 14; 15; 16] /\ e - s <= 3 /\
       Py.len (window_slice [10; 11; 12; 13; 14; 15; 16] (s, e)) = e - s) /\
    (forall i s1 e1 s2 e2,
       ws !! i = Some (s1, e1) -> ws !! S i = Some (s2, e2) ->
       s1 < s2 /\ s2 = e1 - 1 /\ e1 < e2 /\
       drop (Z.to_nat (e1 - 1 - s1))
         (window_slice [10; 11; 12; 13; 14; 15; 16] (s1, e1)) =
       take (Z.to_nat 1) (window_slice [10; 11; 12; 13; 14; 15; 16] (s2, e2))) /\
    (exists e, ws !! 0%nat = Some (0, e)) /\
    (exists s, last ws = Some (s, Py.len [10; 11; 12; 13; 14; 15; 16])) /\
    (forall j, 0 <= j < Py.len [10; 11; 12; 13; 14; 15; 16] ->
       exists i s e, ws !! i = Some (s, e) /\ s <= j < e).
Proof.
  split; [discriminate|]. split; [lia|]. split; [simpl; lia|].
  apply (chunk_loop_windows_bounded_overlapping_covering
           [10; 11; 12; 13; 14; 15; 16] 3 1 7);
    [discriminate|lia|simpl; lia].
Defined.

Example chunk_loop_seven_tokens :
  chunk_loop 7 [10; 11; 12; 13; 14; 15; 16] 3 1 0 [] =
  Some [[10; 11; 12]; [12; 13; 14]; [14; 15; 16]].
Proof. reflexivity. Qed.

(** Six words, [max_tokens = 0], [overlap = 200]. *)
Lemma chunk_text_by_tokens_nonpositive_max_tokens_witness :
  let st : state Sample.script := State [] [] in
  let ids := TokenWord <$> ["un"; "deux"; "trois"; "quatre"; "cinq"; "six"] in
  sample_encode_tokens Sample.six_words "tiktoken" EmptyString st =
    (Returns ids, st) /\
  ids <> [] /\ 0 <= 0 /\ 0 <= 200 /\
  sample_chunk_text_by_tokens 50 Sample.six_words 0 "tiktoken" EmptyString 200 st =
    (OutOfFuel, st) /\
  (forall e st',
     sample_chunk_text_by_tokens 50 Sample.six_words 0 "tiktoken" EmptyString
       200 st <> (Raises e, st')) /\
  (forall decoded st',
     sample_chunk_text_by_tokens 50 Sample.six_words 0 "tiktoken" EmptyString
       200 st <> (Returns decoded, st')).
Proof.
  simpl. split; [reflexivity|]. split; [discriminate|].
  split; [lia|]. split; [lia|].
  apply (chunk_text_by_tokens_nonpositive_max_tokens
           Sample.no_hf Sample.no_tiktoken 50 Sample.six_words 0 "tiktoken"
           EmptyString 200 (State [] [])
           (TokenWord <$> ["un"; "deux"; "trois"; "quatre"; "cinq"; "six"])
           (State [] []));
    [reflexivity|discriminate|lia|lia].
Defined.

(** C2 as stated fails: on six words with [max_tokens = 0] and the default
    overlap, whatever the number of turns allowed to the loop, nothing is
    raised; the loop is still running. *)
Lemma chunk_text_by_tokens_zero_max_tokens_raises_nothing :
  (forall fuel,
     sample_chunk_text_by_tokens fuel Sample.six_words 0 "tiktoken" EmptyString
       200 (State [] []) = (OutOfFuel, State [] [])) /\
  ~ (exists fuel e st',
       sample_chunk_text_by_tokens fuel Sample.six_words 0 "tiktoken"
         EmptyString 200 (State [] []) = (Raises e, st')).
Proof.
  assert (forall fuel,
            sample_chunk_text_by_tokens fuel Sample.six_words 0 "tiktoken"
              EmptyString 200 (State [] []) = (OutOfFuel, State [] [])) as Hrun.
  { intros fuel.
    apply (chunk_text_by_tokens_out_of_fuel Sample.no_hf Sample.no_tiktoken)
      with (ids := TokenWord <$> ["un"; "deux"; "trois"; "quatre"; "cinq"; "six"]);
      [reflexivity|discriminate|].
    apply chunk_loop_nonpositive; [discriminate|lia|lia]. }
  split; [done|]. intros (fuel & e & st' & Hraise).
  rewrite Hrun in Hraise. discriminate.
Qed.

(** Six tokens against a chunk size of 6000. *)
Lemma generate_summary_direct_single_call_witness :
  let st : state Sample.script := State [] [] in
  (sample_count_tokens Sample.six_words "tiktoken" EmptyString st).1 = Returns 6 /\
  (String.prefix "Résumé direct" "Résumé par blocs + synthèse" = true \/
   6 <= 6000) /\
  exists answer tr w',
    sample_generate_summary 0 Sample.six_words "http://127.0.0.1:1234" "model"
      "system" "Résume." Sample.temperature 512 "auto" "tiktoken" EmptyString
      6000 200 "Résumé par blocs + synthèse" true st =
    (match answer with
     | inr summary_text => Returns (summary_text, [])
     | inl e => Raises e
     end, State w' (trace st ++ tr)) /\
    summarizations tr = [(direct_prompt "Résume." Sample.six_words, answer)] /\
    occurs_in Sample.six_words (direct_prompt "Résume." Sample.six_words).
Proof.
  simpl. split; [reflexivity|]. split; [right; lia|].
  apply (generate_summary_direct_single_call
           Sample.no_hf Sample.no_tiktoken Sample.scripted_chat
           Sample.scripted_completions 0 Sample.six_words
           "http://127.0.0.1:1234" "model" "system" "Résume."
           Sample.temperature 512 "auto" "tiktoken" EmptyString 6000 200
           "Résumé par blocs + synthèse" true (State [] []) 6);
    [reflexivity|right; lia].
Defined.

Example generate_summary_direct_run_example :
  sample_generate_summary 0 Sample.six_words "http://127.0.0.1:1234" "model"
    "system" "Résume." Sample.temperature 512 "auto" "tiktoken" EmptyString
    6000 200 "Résumé direct (1 bloc)" false (State [inr "Six mots."] []) =
  (Returns ("Six mots.", []),
   State []
     [ChatRequest "system" (direct_prompt "Résume." Sample.six_words)
        (inr "Six mots.");
      Summarization (direct_prompt "Résume." Sample.six_words)
        (inr "Six mots.")]).
Proof. reflexivity. Qed.

(** A text of 14000 words, split on whitespace for want of a tokenizer. *)
Lemma generate_summary_14000_tokens_three_windows_four_calls_witness :
  (sample_encode_tokens Sample.long_text "tiktoken" EmptyString
     (State [] [])).1 = Returns Sample.long_ids /\
  Py.len Sample.long_ids = 14000 /\
  String.prefix "Résumé direct" Sample.by_blocks = false /\
  (3 <= 3)%nat /\
  direct_strategy Sample.by_blocks (Py.len Sample.long_ids) 6000 = false /\
  chunk_windows 3 14000 6000 200 0 =
    Some [(0, 6000); (5800, 11800); (11600, 14000)] /\
  chunk_loop 3 Sample.long_ids 6000 200 0 [] =
    Some [Py.slice Sample.long_ids 0 6000; Py.slice Sample.long_ids 5800 11800;
          Py.slice Sample.long_ids 11600 14000] /\
  exists out tr w',
    sample_generate_summary 3 Sample.long_text "http://127.0.0.1:1234" "model"
      "system" "Résume." Sample.temperature 512 "auto" "tiktoken" EmptyString
      6000 200 Sample.by_blocks true (State [] []) =
    (out, State w' (trace (State (W := Sample.script) [] []) ++ tr)) /\
    out <> OutOfFuel /\
    (length (summarizations tr) <= 4)%nat /\
    (forall summary_text partials,
       out = Returns (summary_text, partials) ->
       exists c1 c2 c3 s1 s2 s3,
         (sample_chunk_text_by_tokens 3 Sample.long_text 6000 "tiktoken"
            EmptyString 200 (State [] [])).1 = Returns [c1; c2; c3] /\
         partials = [block_summary 1 s1; block_summary 2 s2; block_summary 3 s3] /\
         summarizations tr =
           [(block_prompt "Résume." 1 3 c1, inr s1);
            (block_prompt "Résume." 2 3 c2, inr s2);
            (block_prompt "Résume." 3 3 c3, inr s3);
            (synth_prompt "Résume." partials, inr summary_text)]) /\
    ((exists decoded,
        (sample_chunk_text_by_tokens 3 Sample.long_text 6000 "tiktoken"
           EmptyString 200 (State [] [])).1 = Returns decoded) ->
     (forall p e, (p, inl e) ∉ summarizations tr) ->
     length (summarizations tr) = 4%nat /\
     exists summary_text partials, out = Returns (summary_text, partials)).
Proof.
  assert ((sample_encode_tokens Sample.long_text "tiktoken" EmptyString
             (State [] [])).1 = Returns Sample.long_ids) as Henc
    by (vm_compute; reflexivity).
  assert (Py.len Sample.long_ids = 14000) as Hlen by (vm_compute; reflexivity).
  assert (String.prefix "Résumé direct" Sample.by_blocks = false) as Hmode
    by reflexivity.
  assert (3 <= 3)%nat as Hfuel by lia.
  split; [exact Henc|]. split; [exact Hlen|].
  split; [exact Hmode|]. split; [exact Hfuel|].
  exact (generate_summary_14000_tokens_three_windows_four_calls
           Sample.no_hf Sample.no_tiktoken Sample.scripted_chat
           Sample.scripted_completions 3 Sample.long_text
           "http://127.0.0.1:1234" "model" "system" "Résume."
           Sample.temperature 512 "auto" "tiktoken" EmptyString
           Sample.by_blocks true (State [] []) Sample.long_ids
           Henc Hlen Hmode Hfuel).
Defined.

(** The run of the same scenario against a server that answers every
    request: four summarization calls, three partial summaries. *)
Example generate_summary_14000_tokens_run :
  let run :=
    sample_generate_summary 3 Sample.long_text "http://127.0.0.1:1234" "model"
      "system" "Résume." Sample.temperature 512 "auto" "tiktoken" EmptyString
      6000 200 Sample.by_blocks true (State [] []) in
  length (summarizations (trace run.2)) = 4%nat /\
  match run.1 with
  | Returns (summary_text, partials) =>
      summary_text = "ok" /\ length partials = 3%nat
  | _ => False
  end.
Proof. vm_compute. split; [reflexivity|split; reflexivity]. Qed.

(** Six words in blocks of two tokens, without overlap: three blocks. *)
Lemma generate_summary_chunked_synthesis_last_in_order_witness :
  let ids := TokenWord <$> ["un"; "deux"; "trois"; "quatre"; "cinq"; "six"] in
  let chunks := ["un deux"; "trois quatre"; "cinq six"] in
  (sample_encode_tokens Sample.six_words "tiktoken" EmptyString
     (State [] [])).1 = Returns ids /\
  direct_strategy Sample.by_blocks (Py.len ids) 2 = false /\
  (sample_chunk_text_by_tokens 10 Sample.six_words 2 "tiktoken" EmptyString 0
     (State [] [])).1 = Returns chunks /\
  exists out tr w',
    sample_generate_summary 10 Sample.six_words "http://127.0.0.1:1234" "model"
      "system" "Résume." Sample.temperature 512 "auto" "tiktoken" EmptyString
      2 0 Sample.by_blocks true (State [] []) =
    (out, State w' (trace (State (W := Sample.script) [] []) ++ tr)) /\
    ((exists smrys answer,
        let partials := block_summaries 1 smrys in
        length smrys = length chunks /\
        summarizations tr =
          answered (block_prompts "Résume." (Py.len chunks) 1 chunks) smrys ++
          [(synth_prompt "Résume." partials, answer)] /\
        out = match answer with
              | inr summary_text => Returns (summary_text, partials)
              | inl e => Raises e
              end /\
        (forall k smry, smrys !! k = Some smry ->
           partials !! k = Some (block_summary (1 + Z.of_nat k) smry)) /\
        (forall i j bi bj,
           (i < j)%nat -> partials !! i = Some bi -> partials !! j = Some bj ->
           precedes_in bi bj (synth_prompt "Résume." partials))) \/
     (exists k ch smrys e,
        chunks !! k = Some ch /\ length smrys = k /\ out = Raises e /\
        summarizations tr =
          answered (block_prompts "Résume." (Py.len chunks) 1 (take k chunks))
            smrys ++
          [(block_prompt "Résume." (1 + Z.of_nat k) (Py.len chunks) ch, inl e)])).
Proof.
  cbv zeta. split; [reflexivity|]. split; [reflexivity|]. split; [reflexivity|].
  apply (generate_summary_chunked_synthesis_last_in_order
           Sample.no_hf Sample.no_tiktoken Sample.scripted_chat
           Sample.scripted_completions 10 Sample.six_words
           "http://127.0.0.1:1234" "model" "system" "Résume."
           Sample.temperature 512 "auto" "tiktoken" EmptyString 2 0
           Sample.by_blocks true (State [] [])
           (TokenWord <$> ["un"; "deux"; "trois"; "quatre"; "cinq"; "six"])
           ["un deux"; "trois quatre"; "cinq six"]);
    reflexivity.
Defined.

(** The summarization calls of that run, the server answering "un", "deux",
    "trois" and then "tout". *)
Example generate_summary_chunked_run_example :
  let run :=
    sample_generate_summary 10 Sample.six_words "http://127.0.0.1:1234" "model"
      "system" "Résume." Sample.temperature 512 "chat" "tiktoken" EmptyString
      2 0 Sample.by_blocks false
      (State [inr "un"; inr "deux"; inr "trois"; inr "tout"] []) in
  run.1 =
    Returns ("tout", [block_summary 1 "un"; block_summary 2 "deux";
                      block_summary 3 "trois"]) /\
  summarizations (trace run.2) =
    [(block_prompt "Résume." 1 3 "un deux", inr "un");
     (block_prompt "Résume." 2 3 "trois quatre", inr "deux");
     (block_prompt "Résume." 3 3 "cinq six", inr "trois");
     (synth_prompt "Résume."
        [block_summary 1 "un"; block_summary 2 "deux"; block_summary 3 "trois"],
      inr "tout")].
Proof. split; vm_compute; reflexivity. Qed.

(** The same three blocks; the call for the second block times out. *)
Lemma generate_summary_failed_block_aborts_witness :
  let st : state Sample.script := State [inr "un"; inl Sample.timed_out] [] in
  let ids := TokenWord <$> ["un"; "deux"; "trois"; "quatre"; "cinq"; "six"] in
  let chunks := ["un deux"; "trois quatre"; "cinq six"] in
  let run :=
    sample_generate_summary 10 Sample.six_words "http://127.0.0.1:1234" "model"
      "system" "Résume." Sample.temperature 512 "chat" "tiktoken" EmptyString
      2 0 Sample.by_blocks false st in
  let p := block_prompt "Résume." 2 3 "trois quatre" in
  (sample_encode_tokens Sample.six_words "tiktoken" EmptyString st).1 =
    Returns ids /\
  direct_strategy Sample.by_blocks (Py.len ids) 2 = false /\
  (sample_chunk_text_by_tokens 10 Sample.six_words 2 "tiktoken" EmptyString 0
     st).1 = Returns chunks /\
  run = (run.1, run.2) /\
  trace run.2 = trace st ++ trace run.2 /\
  (1 < length chunks)%nat /\
  summarizations (trace run.2) !! 1%nat = Some (p, inl Sample.timed_out) /\
  run.1 = Raises Sample.timed_out /\
  length (summarizations (trace run.2)) = 2%nat /\
  exists ch smrys,
    chunks !! 1%nat = Some ch /\
    p = block_prompt "Résume." (1 + Z.of_nat 1) (Py.len chunks) ch /\
    length smrys = 1%nat /\
    summarizations (trace run.2) =
      answered (block_prompts "Résume." (Py.len chunks) 1 (take 1 chunks))
        smrys ++ [(p, inl Sample.timed_out)].
Proof.
  intros st ids chunks run p.
  split; [reflexivity|]. split; [reflexivity|]. split; [reflexivity|].
  split; [reflexivity|]. split; [reflexivity|]. split; [simpl; lia|].
  split; [vm_compute; reflexivity|].
  apply (generate_summary_failed_block_aborts
           Sample.no_hf Sample.no_tiktoken Sample.scripted_chat
           Sample.scripted_completions 10 Sample.six_words
           "http://127.0.0.1:1234" "model" "system" "Résume."
           Sample.temperature 512 "chat" "tiktoken" EmptyString 2 0
           Sample.by_blocks false st ids chunks run.1 run.2 (trace run.2)
           1%nat p Sample.timed_out);
    [reflexivity|reflexivity|reflexivity|reflexivity|reflexivity|simpl; lia
    |vm_compute; reflexivity].
Defined.

(** C7 as stated fails in its last part: the error does not tell which
    block failed.  Of two runs on the same three blocks, one fails at block
    1 and the other at block 2, and both raise the same exception; no
    reading of the error gives 1 for the first and 2 for the second. *)
Lemma generate_summary_error_does_not_identify_block :
  let run w :=
    sample_generate_summary 10 Sample.six_words "http://127.0.0.1:1234" "model"
      "system" "Résume." Sample.temperature 512 "chat" "tiktoken" EmptyString
      2 0 Sample.by_blocks false (State w []) in
  let first := run [inl Sample.timed_out] in
  let second := run [inr "un"; inl Sample.timed_out] in
  summarizations (trace first.2) =
    [(block_prompt "Résume." 1 3 "un deux", inl Sample.timed_out)] /\
  summarizations (trace second.2) =
    [(block_prompt "Résume." 1 3 "un deux", inr "un");
     (block_prompt "Résume." 2 3 "trois quatre", inl Sample.timed_out)] /\
  first.1 = Raises Sample.timed_out /\
  second.1 = Raises Sample.timed_out /\
  ~ (exists failed_block : outcome (string * list string) -> Z,
       failed_block first.1 = 1 /\ failed_block second.1 = 2).
Proof.
  cbv beta zeta.
  split; [vm_compute; reflexivity|]. split; [vm_compute; reflexivity|].
  assert ((sample_generate_summary 10 Sample.six_words "http://127.0.0.1:1234"
             "model" "system" "Résume." Sample.temperature 512 "chat"
             "tiktoken" EmptyString 2 0 Sample.by_blocks false
             (State [inl Sample.timed_out] [])).1 = Raises Sample.timed_out)
    as Hfirst by (vm_compute; reflexivity).
  assert ((sample_generate_summary 10 Sample.six_words "http://127.0.0.1:1234"
             "model" "system" "Résume." Sample.temperature 512 "chat"
             "tiktoken" EmptyString 2 0 Sample.by_blocks false
             (State [inr "un"; inl Sample.timed_out] [])).1 =
          Raises Sample.timed_out)
    as Hsecond by (vm_compute; reflexivity).
  split; [exact Hfirst|]. split; [exact Hsecond|].
  intros (failed_block & H1 & H2).
  assert (failed_block (Raises Sample.timed_out) = 1) as H1'
    by (rewrite <- Hfirst; exact H1).
  assert (failed_block (Raises Sample.timed_out) = 2) as H2'
    by (rewrite <- Hsecond; exact H2).
  congruence.
Qed.

(** The chat endpoint answers HTTP 500, the completions endpoint a text. *)
Lemma chat_or_complete_auto_fallback_witness :
  let st : state Sample.script := State [inl Sample.http_500; inr "Compte rendu."] [] in
  let run :=
    sample_chat_or_complete "http://127.0.0.1:1234" "model" "system" "user"
      Sample.temperature 512 "auto" st in
  let a1 : exn + string := inl Sample.http_500 in
  let a2 : exn + string := inr "Compte rendu." in
  let chat := ChatRequest "system" "user" a1 in
  let completion := CompletionRequest (merged_prompt "system" "user") a2 in
  Sample.scripted_chat "http://127.0.0.1:1234" "model" "system" "user"
    Sample.temperature 512 (world st) = (a1, [a2]) /\
  Sample.scripted_completions "http://127.0.0.1:1234" "model"
    (merged_prompt "system" "user") Sample.temperature 512 [a2] = (a2, []) /\
  (exists tr, trace run.2 = trace st ++ chat :: tr) /\
  (forall r1, a1 = inr r1 -> r1 <> EmptyString ->
     run = (Returns r1, State [a2] (trace st ++ [chat]))) /\
  (forall e1 r2, a1 = inl e1 -> a2 = inr r2 -> r2 <> EmptyString ->
     run = (Returns r2, State [] (trace st ++ [chat; completion]))) /\
  (forall e1 e2, a1 = inl e1 -> a2 = inl e2 ->
     exists msg,
       run = (Raises (Exn ValueError msg),
              State [] (trace st ++ [chat; completion])) /\
       occurs_in (exn_str e1) msg /\ occurs_in (exn_str e2) msg).
Proof.
  cbv zeta. split; [reflexivity|]. split; [reflexivity|].
  apply (chat_or_complete_auto_fallback
           Sample.scripted_chat Sample.scripted_completions
           "http://127.0.0.1:1234" "model" "system" "user" Sample.temperature
           512 (State [inl Sample.http_500; inr "Compte rendu."] [])
           (inl Sample.http_500) [inr "Compte rendu."]
           (inr "Compte rendu.") []);
    reflexivity.
Defined.

Example chat_or_complete_fallback_returns_completion :
  sample_chat_or_complete "http://127.0.0.1:1234" "model" "system" "user"
    Sample.temperature 512 "auto"
    (State [inl Sample.http_500; inr "Compte rendu."] []) =
  (Returns "Compte rendu.",
   State []
     [ChatRequest "system" "user" (inl Sample.http_500);
      CompletionRequest (merged_prompt "system" "user") (inr "Compte rendu.")]).
Proof. reflexivity. Qed.

Example chat_or_complete_both_endpoints_fail :
  (sample_chat_or_complete "http://127.0.0.1:1234" "model" "system" "user"
     Sample.temperature 512 "auto"
     (State [inl Sample.http_500; inl Sample.http_503] [])).1 =
  Raises (Exn ValueError
            (both_endpoints_failed (Some Sample.http_500) Sample.http_503)).
Proof. reflexivity. Qed.

(** C8 as stated fails in its second part: the chat endpoint answers HTTP
    500 and the completions endpoint succeeds with an empty text; the empty
    text is not returned, and the HTTP error of the chat endpoint is
    raised. *)
Lemma chat_or_complete_empty_completion_raises_chat_error :
  let st : state Sample.script := State [inl Sample.http_500; inr EmptyString] [] in
  let run :=
    sample_chat_or_complete "http://127.0.0.1:1234" "model" "system" "user"
      Sample.temperature 512 "auto" st in
  Sample.scripted_chat "http://127.0.0.1:1234" "model" "system" "user"
    Sample.temperature 512 (world st) =
    (inl Sample.http_500, [inr EmptyString]) /\
  Sample.scripted_completions "http://127.0.0.1:1234" "model"
    (merged_prompt "system" "user") Sample.temperature 512 [inr EmptyString] =
    (inr EmptyString, []) /\
  run.1 = Raises Sample.http_500 /\
  run.1 <> Returns EmptyString.
Proof. cbv zeta. repeat split; try reflexivity. discriminate. Qed.

(** Two turns and a transcription. *)
Lemma diarize_audio_text_on_first_segment_witness :
  let tracks :=
    [(Turn (F64 0) (F64 4613937818241073152), "A", "SPEAKER_00");
     (Turn (F64 4613937818241073152) (F64 4617315517961601024), "B",
      "SPEAKER_01")] in
  "hf_token" <> EmptyString /\
  Sample.load_two_turns "pyannote/speaker-diarization-3.1" "hf_token" =
    inr Sample.two_turns /\
  ("cpu" <> "cuda" \/ to_cuda Sample.two_turns = None) /\
  run_itertracks Sample.two_turns "consultation.wav" = inr tracks /\
  (tracks = [] ->
   _diarize_audio "hf_token" "cpu" Sample.load_two_turns "consultation.wav"
     "Bonjour docteur" =
     inr [(float_zero, float_zero, "SPEAKER_00", "Bonjour docteur")]) /\
  (tracks <> [] ->
   exists segments,
     _diarize_audio "hf_token" "cpu" Sample.load_two_turns "consultation.wav"
       "Bonjour docteur" = inr segments /\
     length segments = length tracks /\
     forall i turn track speaker,
       tracks !! i = Some (turn, track, speaker) ->
       segments !! i =
         Some (turn_start turn, turn_end turn, speaker,
               match i with O => "Bonjour docteur" | S _ => EmptyString end)).
Proof.
  cbv zeta. split; [discriminate|]. split; [reflexivity|].
  split; [left; discriminate|]. split; [reflexivity|].
  apply (diarize_audio_text_on_first_segment
           "hf_token" "cpu" Sample.load_two_turns "consultation.wav"
           "Bonjour docteur" Sample.two_turns);
    [discriminate|reflexivity|left; discriminate|reflexivity].
Defined.

Example diarize_audio_two_turns :
  _diarize_audio "hf_token" "cpu" Sample.load_two_turns "consultation.wav"
    "Bonjour docteur" =
  inr [(F64 0, F64 4613937818241073152, "SPEAKER_00", "Bonjour docteur");
       (F64 4613937818241073152, F64 4617315517961601024, "SPEAKER_01",
        EmptyString)].
Proof. reflexivity. Qed.

Example diarize_audio_no_turn :
  _diarize_audio "hf_token" "cpu" Sample.load_no_turn "consultation.wav"
    "Bonjour docteur" =
  inr [(float_zero, float_zero, "SPEAKER_00", "Bonjour docteur")].
Proof. reflexivity. Qed.

Example diarize_audio_without_token :
  _diarize_audio EmptyString "cpu" Sample.load_two_turns "consultation.wav"
    "Bonjour docteur" =
  inl (Exn ValueError
         "Token HuggingFace requis pour la diarisation. Définissez HF_TOKEN.").
Proof. reflexivity. Qed.

(** The tokenizer adapter when the HuggingFace tokenizer loads but fails to
    encode and tiktoken is missing: one warning, and the words. *)
Example encode_tokens_falls_back_to_words :
  encode_tokens (W := Sample.script) Sample.broken_hf Sample.no_tiktoken
    Sample.six_words "HuggingFace" "Qwen/Qwen2-7B-Instruct" (State [] []) =
  (Returns (TokenWord <$> ["un"; "deux"; "trois"; "quatre"; "cinq"; "six"]),
   State [] [Warning "Echec encodage HF, fallback tiktoken: unavailable"]).
Proof. reflexivity. Qed.

(** The precise backend at work: one token per character, windows of 3
    overlapping by 1, each decoded by the tokenizer that encoded it. *)
Example chunk_text_by_tokens_precise_backend :
  chunk_text_by_tokens (W := Sample.script) Sample.char_hf Sample.no_tiktoken
    7 "abcdefg" 3 "HuggingFace" "Qwen/Qwen2-7B-Instruct" 1 (State [] []) =
  (Returns ["abc"; "cde"; "efg"], State [] []).
Proof. reflexivity. Qed.

(** ** Instances of the further properties *)

Lemma chunk_loop_chunk_count_witness :
  [10; 11; 12; 13; 14; 15; 16] <> [] /\ 0 <= 1 < 3 /\
  (length [10; 11; 12; 13; 14; 15; 16] <= 7)%nat /\
  exists chunks,
    chunk_loop 7 [10; 11; 12; 13; 14; 15; 16] 3 1 0 [] = Some chunks /\
    Py.len chunks =
      Z.max 1 ((Py.len [10; 11; 12; 13; 14; 15; 16] - 1 + (3 - 1) - 1) / (3 - 1)).
Proof.
  split; [discriminate|]. split; [lia|]. split; [simpl; lia|].
  apply (chunk_loop_chunk_count [10; 11; 12; 13; 14; 15; 16] 3 1 7);
    [discriminate|lia|simpl; lia].
Defined.

Example chunk_loop_seven_tokens_three_chunks :
  chunk_loop 7 [10; 11; 12; 13; 14; 15; 16] 3 1 0 [] =
  Some [[10; 11; 12]; [12; 13; 14]; [14; 15; 16]].
Proof. reflexivity. Qed.

Lemma chunk_loop_reassemble_witness :
  [10; 11; 12; 13; 14; 15; 16] <> [] /\ 0 <= 1 < 3 /\
  (length [10; 11; 12; 13; 14; 15; 16] <= 7)%nat /\
  exists chunks,
    chunk_loop 7 [10; 11; 12; 13; 14; 15; 16] 3 1 0 [] = Some chunks /\
    reassemble 1 chunks = [10; 11; 12; 13; 14; 15; 16] /\
    (1 = 0 -> concat chunks = [10; 11; 12; 13; 14; 15; 16]).
Proof.
  split; [discriminate|]. split; [lia|]. split; [simpl; lia|].
  apply (chunk_loop_reassemble [10; 11; 12; 13; 14; 15; 16] 3 1 7);
    [discriminate|lia|simpl; lia].
Defined.

Lemma chunk_loop_single_chunk_witness :
  [10; 11; 12] <> [] /\ Py.len [10; 11; 12] <= 5 /\
  chunk_loop 1 [10; 11; 12] 5 200 0 [] = Some [[10; 11; 12]].
Proof.
  split; [discriminate|]. split; [by vm_compute|].
  apply (chunk_loop_single_chunk [10; 11; 12] 5 200 0);
    [discriminate|by vm_compute].
Defined.

Lemma chunk_loop_overlap_equal_max_tokens_returns_iff_witness :
  0 < 2 /\ [10; 11; 12] <> [] /\
  ((exists fuel chunks, chunk_loop fuel [10; 11; 12] 2 2 0 [] = Some chunks) <->
   Py.len [10; 11; 12] <= 2 * 2) /\
  (Py.len [10; 11; 12] <= 2 * 2 ->
   chunk_loop 2 [10; 11; 12] 2 2 0 [] =
   Some (if Py.len [10; 11; 12] <=? 2 then [[10; 11; 12]]
         else [take (Z.to_nat 2) [10; 11; 12];
               drop (Z.to_nat 2) [10; 11; 12]])).
Proof.
  split; [lia|]. split; [discriminate|].
  apply (chunk_loop_overlap_equal_max_tokens_returns_iff [10; 11; 12] 2);
    [lia|discriminate].
Defined.

Lemma chunk_text_by_tokens_word_fallback_exact_witness :
  (exists e, Sample.no_tiktoken Sample.six_words = inl e) /\
  ("tiktoken" <> "HuggingFace" \/
   exists e, Sample.no_hf EmptyString = inl e) /\
  Py.split Sample.six_words <> [] /\
  0 <= 1 <= 50 /\ 1 < 4 /\
  (length (Py.split Sample.six_words) <= 6)%nat /\
  exists ws msgs,
    chunk_loop 6 (TokenWord <$> Py.split Sample.six_words) 4 1 0 [] =
      Some (window_slice (TokenWord <$> Py.split Sample.six_words) <$> ws) /\
    forall st,
      sample_chunk_text_by_tokens 6 Sample.six_words 4 "tiktoken" EmptyString 1
        st =
      (Returns ((fun w => Py.join " " (window_slice (Py.split Sample.six_words) w))
                  <$> ws),
       State (world st) (trace st ++ (Warning <$> msgs))).
Proof.
  assert (exists e, Sample.no_tiktoken Sample.six_words = inl e) as H1
    by (by eexists).
  assert ("tiktoken" <> "HuggingFace" \/
          exists e, Sample.no_hf EmptyString = inl e) as H2
    by (left; discriminate).
  assert (Py.split Sample.six_words <> []) as H3 by discriminate.
  assert (0 <= 1 <= 50) as H4 by lia.
  assert (1 < 4) as H5 by lia.
  assert (length (Py.split Sample.six_words) <= 6)%nat as H6
    by (vm_compute; lia).
  repeat (split; [assumption|]).
  exact (chunk_text_by_tokens_word_fallback_exact
           (W := Sample.script) Sample.no_hf Sample.no_tiktoken 6
           Sample.six_words 4 "tiktoken" EmptyString 1 H1 H2 H3 H4 H5 H6).
Defined.

Example chunk_text_by_tokens_six_words :
  (sample_chunk_text_by_tokens 6 Sample.six_words 4 "tiktoken" EmptyString 1
     (State [] [])).1 =
  Returns ["un deux trois quatre"; "quatre cinq six"].
Proof. reflexivity. Qed.

Lemma chat_or_complete_chat_only_witness :
  let st : state Sample.script := State [inr "Résumé."] [] in
  Sample.scripted_chat "http://127.0.0.1:1234" "model" "system" "Résume."
    Sample.temperature 512 (world st) = (inr "Résumé.", []) /\
  sample_chat_or_complete "http://127.0.0.1:1234" "model" "system" "Résume."
    Sample.temperature 512 "chat" st =
  (Returns "Résumé.",
   State [] (trace st ++ [ChatRequest "system" "Résume." (inr "Résumé.")])).
Proof.
  intros st. split; [reflexivity|].
  apply (chat_or_complete_chat_only Sample.scripted_chat
           Sample.scripted_completions "http://127.0.0.1:1234" "model"
           "system" "Résume." Sample.temperature 512 st (inr "Résumé.") []).
  reflexivity.
Defined.

Lemma chat_or_complete_completions_only_witness :
  let st : state Sample.script := State [inl Sample.http_503] [] in
  Sample.scripted_completions "http://127.0.0.1:1234" "model"
    (merged_prompt "system" "Résume.") Sample.temperature 512 (world st) =
    (inl Sample.http_503, []) /\
  sample_chat_or_complete "http://127.0.0.1:1234" "model" "system" "Résume."
    Sample.temperature 512 "completions" st =
  (Raises (Exn ValueError (both_endpoints_failed None Sample.http_503)),
   State [] (trace st ++
             [CompletionRequest (merged_prompt "system" "Résume.")
                (inl Sample.http_503)])) /\
  forall e, occurs_in "- /v1/chat/completions: None" (both_endpoints_failed None e).
Proof.
  intros st. split; [reflexivity|].
  apply (chat_or_complete_completions_only Sample.scripted_chat
           Sample.scripted_completions "http://127.0.0.1:1234" "model"
           "system" "Résume." Sample.temperature 512 st
           (inl Sample.http_503) []).
  reflexivity.
Defined.

Lemma generate_summary_progress_witness :
  let st : state Sample.script := State [] [] in
  let ids := TokenWord <$> ["un"; "deux"; "trois"; "quatre"; "cinq"; "six"] in
  (sample_encode_tokens Sample.six_words "tiktoken" EmptyString st).1 =
    Returns ids /\
  exists out tr w',
    sample_generate_summary 6 Sample.six_words "http://127.0.0.1:1234" "model"
      "system" "Résume." Sample.temperature 512 "auto" "tiktoken" EmptyString
      4 1 Sample.by_blocks true st =
    (out, State w' (trace st ++ tr)) /\
    if direct_strategy Sample.by_blocks (Py.len ids) 4 then
      exists answer,
        progress tr =
          status_line true "📝 Génération du résumé direct..." ++
          [Summarization (direct_prompt "Résume." Sample.six_words) answer] /\
        out = match answer with
              | inr summary_text => Returns (summary_text, [])
              | inl e => Raises e
              end
    else
      match (sample_chunk_text_by_tokens 6 Sample.six_words 4 "tiktoken"
               EmptyString 1 st).1 with
      | Returns chunks =>
          exists answers tail,
            progress tr =
              status_line true "✂️ Découpage du texte en blocs..." ++
              status_line true
                ("📚 " +:+ Py.str_int (Py.len chunks) +:+ " blocs à résumer.") ++
              block_progress "Résume." true (Py.len chunks) 1 chunks answers ++
              tail /\
            ((exists smrys answer,
                answers = inr <$> smrys /\ length smrys = length chunks /\
                tail =
                  status_line true "🔗 Synthèse finale en cours..." ++
                  [Summarization
                     (synth_prompt "Résume." (block_summaries 1 smrys))
                     answer] /\
                out = match answer with
                      | inr summary_text =>
                          Returns (summary_text, block_summaries 1 smrys)
                      | inl e => Raises e
                      end) \/
             (exists smrys e,
                answers = (inr <$> smrys) ++ [inl e] /\
                (length smrys < length chunks)%nat /\
                tail = [] /\ out = Raises e))
      | Raises e =>
          progress tr = status_line true "✂️ Découpage du texte en blocs..." /\
          out = Raises e
      | OutOfFuel =>
          progress tr = status_line true "✂️ Découpage du texte en blocs..." /\
          out = OutOfFuel
      end.
Proof.
  intros st ids.
  assert ((sample_encode_tokens Sample.six_words "tiktoken" EmptyString st).1 =
          Returns ids) as Henc by reflexivity.
  split; [exact Henc|].
  exact (generate_summary_progress Sample.no_hf Sample.no_tiktoken
           Sample.scripted_chat Sample.scripted_completions 6 Sample.six_words
           "http://127.0.0.1:1234" "model" "system" "Résume."
           Sample.temperature 512 "auto" "tiktoken" EmptyString 4 1
           Sample.by_blocks true st ids Henc).
Defined.

Example generate_summary_progress_of_a_run :
  progress
    (trace
       (sample_generate_summary 6 Sample.six_words "http://127.0.0.1:1234"
          "model" "system" "Résume." Sample.temperature 512 "chat" "tiktoken"
          EmptyString 4 1 Sample.by_blocks true
          (State [inr "A"; inr "B"; inr "C"] [])).2) =
  [StatusWrite "✂️ Découpage du texte en blocs...";
   StatusWrite "📚 2 blocs à résumer.";
   StatusWrite "🔄 Résumé bloc 1/2...";
   Summarization (block_prompt "Résume." 1 2 "un deux trois quatre") (inr "A");
   StatusWrite "🔄 Résumé bloc 2/2...";
   Summarization (block_prompt "Résume." 2 2 "quatre cinq six") (inr "B");
   StatusWrite "🔗 Synthèse finale en cours...";
   Summarization
     (synth_prompt "Résume." [block_summary 1 "A"; block_summary 2 "B"])
     (inr "C")].
Proof. reflexivity. Qed.

Lemma chunk_text_by_tokens_block_count_witness :
  let st : state Sample.script := State [] [] in
  let ids := TokenWord <$> ["un"; "deux"; "trois"; "quatre"; "cinq"; "six"] in
  (sample_encode_tokens Sample.six_words "tiktoken" EmptyString st).1 =
    Returns ids /\
  ids <> [] /\ 0 <= 1 < 4 /\ (length ids <= 6)%nat /\
  match (sample_chunk_text_by_tokens 6 Sample.six_words 4 "tiktoken"
           EmptyString 1 st).1 with
  | Returns decoded =>
      Py.len decoded = Z.max 1 ((Py.len ids - 1 + (4 - 1) - 1) / (4 - 1))
  | Raises e =>
      "tiktoken" = "HuggingFace" /\
      exists tok c, Sample.no_hf EmptyString = inr tok /\ hf_decode tok c = inl e
  | OutOfFuel => False
  end.
Proof.
  intros st ids.
  assert ((sample_encode_tokens Sample.six_words "tiktoken" EmptyString st).1 =
          Returns ids) as Henc by reflexivity.
  assert (ids <> []) as Hne by discriminate.
  assert (0 <= 1 < 4) as Hov by lia.
  assert (length ids <= 6)%nat as Hfuel by (vm_compute; lia).
  repeat (split; [assumption|]).
  exact (chunk_text_by_tokens_block_count Sample.no_hf Sample.no_tiktoken 6
           Sample.six_words 4 "tiktoken" EmptyString 1 st ids Henc Hne Hov
           Hfuel).
Defined.

Lemma generate_summary_chunked_call_count_witness :
  let st : state Sample.script := State [] [] in
  let ids := TokenWord <$> ["un"; "deux"; "trois"; "quatre"; "cinq"; "six"] in
  (sample_encode_tokens Sample.six_words "tiktoken" EmptyString st).1 =
    Returns ids /\
  direct_strategy Sample.by_blocks (Py.len ids) 4 = false /\
  0 <= 1 < 4 /\ (length ids <= 6)%nat /\
  let k := (Py.len ids - 1 + (4 - 1) - 1) / (4 - 1) in
  2 <= k /\
  exists out tr w',
    sample_generate_summary 6 Sample.six_words "http://127.0.0.1:1234" "model"
      "system" "Résume." Sample.temperature 512 "auto" "tiktoken" EmptyString
      4 1 Sample.by_blocks true st =
    (out, State w' (trace st ++ tr)) /\
    Py.len (summarizations tr) <= k + 1 /\
    match out with
    | Returns (summary_text, chunk_summaries) =>
        Py.len (summarizations tr) = k + 1 /\ Py.len chunk_summaries = k
    | Raises _ => True
    | OutOfFuel => False
    end.
Proof.
  intros st ids.
  assert ((sample_encode_tokens Sample.six_words "tiktoken" EmptyString st).1 =
          Returns ids) as Henc by reflexivity.
  assert (direct_strategy Sample.by_blocks (Py.len ids) 4 = false) as Hdirect
    by reflexivity.
  assert (0 <= 1 < 4) as Hov by lia.
  assert (length ids <= 6)%nat as Hfuel by (vm_compute; lia).
  repeat (split; [assumption|]).
  exact (generate_summary_chunked_call_count Sample.no_hf Sample.no_tiktoken
           Sample.scripted_chat Sample.scripted_completions 6 Sample.six_words
           "http://127.0.0.1:1234" "model" "system" "Résume."
           Sample.temperature 512 "auto" "tiktoken" EmptyString 4 1
           Sample.by_blocks true st ids Henc Hdirect Hov Hfuel).
Defined.

Lemma generate_summary_no_token_one_call_witness :
  let st : state Sample.script := State [] [] in
  (sample_encode_tokens EmptyString "tiktoken" EmptyString st).1 = Returns [] /\
  exists answer tr w',
    sample_generate_summary 0 EmptyString "http://127.0.0.1:1234" "model"
      "system" "Résume." Sample.temperature 512 "auto" "tiktoken" EmptyString
      6000 200 Sample.by_blocks true st =
    (match answer with
     | inr summary_text => Returns (summary_text, [])
     | inl e => Raises e
     end, State w' (trace st ++ tr)) /\
    summarizations tr =
      [(if direct_strategy Sample.by_blocks 0 6000
        then direct_prompt "Résume." EmptyString
        else synth_prompt "Résume." [], answer)] /\
    (direct_strategy Sample.by_blocks 0 6000 = false -> 6000 < 0).
Proof.
  intros st.
  assert ((sample_encode_tokens EmptyString "tiktoken" EmptyString st).1 =
          Returns []) as Henc by reflexivity.
  split; [exact Henc|].
  exact (generate_summary_no_token_one_call Sample.no_hf Sample.no_tiktoken
           Sample.scripted_chat Sample.scripted_completions 0 EmptyString
           "http://127.0.0.1:1234" "model" "system" "Résume."
           Sample.temperature 512 "auto" "tiktoken" EmptyString 6000 200
           Sample.by_blocks true st Henc).
Defined.

Example generate_summary_synthesis_of_nothing :
  summarizations
    (trace
       (sample_generate_summary 0 EmptyString "http://127.0.0.1:1234" "model"
          "system" "Résume." Sample.temperature 512 "auto" "tiktoken"
          EmptyString (-1) 200 Sample.by_blocks false (State [] [])).2) =
  [(synth_prompt "Résume." [], inr "ok")].
Proof. reflexivity. Qed.

Lemma process_audio_keeps_transcription_witness :
  Sample.present "reunion.wav" = true /\
  transcribe "cpu" false true Sample.whisper Sample.faster_whisper
    "reunion.wav" "small" "fr" = Some (inr "Bonjour à tous.") /\
  exists printed result,
    process_audio "hf_token" "cpu" Sample.load_two_turns Sample.present
      false true true Sample.whisper Sample.faster_whisper
      "reunion.wav" true "small" "fr" =
      (printed, inr (result, [])) /\
    (result = Plain ["Bonjour à tous."] \/
     exists s e speaker rest,
       result = Diarized ((s, e, speaker, "Bonjour à tous.") :: rest) /\
       Forall (fun seg => seg.2 = EmptyString) rest) /\
    (forall segments,
       result = Diarized segments ->
       printed = [] /\ true = true /\ true = true /\
       "hf_token" <> EmptyString /\
       _diarize_audio "hf_token" "cpu" Sample.load_two_turns "reunion.wav"
         "Bonjour à tous." = inr segments) /\
    (forall texts,
       result = Plain texts ->
       true && true = false /\ printed = [] \/
       exists e,
         true && true = true /\
         _diarize_audio "hf_token" "cpu" Sample.load_two_turns "reunion.wav"
           "Bonjour à tous." = inl e /\
         printed = ["Erreur diarisation: " +:+ exn_str e +:+
                    ". Retour à la transcription simple."]).
Proof.
  split; [reflexivity|]. split; [reflexivity|].
  apply (process_audio_keeps_transcription "hf_token" "cpu"
           Sample.load_two_turns Sample.present false true true Sample.whisper
           Sample.faster_whisper "reunion.wav" true "small" "fr"
           "Bonjour à tous."); reflexivity.
Defined.

Example process_audio_without_token :
  process_audio EmptyString "cpu" Sample.load_two_turns Sample.present
    true true true Sample.whisper Sample.faster_whisper
    "reunion.wav" true "faster-whisper" "fr" =
  (["Erreur diarisation: Token HuggingFace requis pour la diarisation. Définissez HF_TOKEN.. Retour à la transcription simple."],
   inr (Plain ["Bonjour à tous."], [])).
Proof. reflexivity. Qed.

Example process_audio_missing_file :
  process_audio "hf_token" "cpu" Sample.load_two_turns Sample.present
    false false true Sample.whisper Sample.faster_whisper
    "absent.wav" true "small" "fr" =
  ([], inl (FileNotFoundError "Fichier audio non trouvé: absent.wav")).
Proof. reflexivity. Qed.

Lemma chunk_text_by_tokens_words_covered_witness :
  let st : state Sample.script := State [] [] in
  let ids :=
    TokenId <$> ((fun c => Z.of_nat (nat_of_ascii c)) <$>
                 list_ascii_of_string Sample.six_words) in
  (encode_tokens Sample.no_hf Sample.char_tokens Sample.six_words "tiktoken"
     EmptyString st).1 = Returns ids /\
  ("tiktoken" <> "HuggingFace" \/
   exists e, Sample.no_hf EmptyString = inl e) /\
  ids <> [] /\ 0 <= 2 < 10 /\ (length ids <= 29)%nat /\
  Py.len (Py.split Sample.six_words) <= Py.len ids /\
  exists runs,
    (chunk_text_by_tokens Sample.no_hf Sample.char_tokens 29 Sample.six_words
       10 "tiktoken" EmptyString 2 st).1 =
      Returns ((fun w => Py.join " " (Py.slice (Py.split Sample.six_words) w.1 w.2))
                 <$> runs) /\
    forall j word,
      Py.split Sample.six_words !! j = Some word ->
      exists w, w ∈ runs /\ word ∈ Py.slice (Py.split Sample.six_words) w.1 w.2.
Proof.
  intros st ids.
  assert ((encode_tokens Sample.no_hf Sample.char_tokens Sample.six_words
             "tiktoken" EmptyString st).1 = Returns ids) as Henc
    by reflexivity.
  assert ("tiktoken" <> "HuggingFace" \/
          exists e, Sample.no_hf EmptyString = inl e) as Hbackend
    by (left; discriminate).
  assert (ids <> []) as Hne by discriminate.
  assert (0 <= 2 < 10) as Hov by lia.
  assert (length ids <= 29)%nat as Hfuel by (vm_compute; lia).
  assert (Py.len (Py.split Sample.six_words) <= Py.len ids) as Hwords
    by (vm_compute; discriminate).
  repeat (split; [assumption|]).
  exact (chunk_text_by_tokens_words_covered Sample.no_hf Sample.char_tokens 29
           Sample.six_words 10 "tiktoken" EmptyString 2 st ids Henc Hbackend
           Hne Hov Hfuel Hwords).
Defined.

Example chunk_text_by_tokens_more_tokens_than_words :
  (chunk_text_by_tokens (W := Sample.script) Sample.no_hf Sample.char_tokens
     29 Sample.six_words 10 "tiktoken" EmptyString 2 (State [] [])).1 =
  Returns ["un deux trois quatre cinq six"; EmptyString; EmptyString; EmptyString].
Proof. reflexivity. Qed.

Lemma chunk_text_by_tokens_hf_decodes_any_tokens_witness :
  let st : state Sample.script := State [] [] in
  let ids := TokenId <$> [97; 98; 99] in
  let chunks := [TokenId <$> [97; 98]; TokenId <$> [99]] in
  Sample.broken_hf "model" = inr Sample.broken_tokenizer /\
  (encode_tokens Sample.broken_hf Sample.char_tokens "abc" "HuggingFace"
     "model" st).1 = Returns ids /\
  ids <> [] /\
  chunk_loop 3 ids 2 0 0 [] = Some chunks /\
  (chunk_text_by_tokens Sample.broken_hf Sample.char_tokens 3 "abc" 2
     "HuggingFace" "model" 0 st).1 =
    outcome_of (map_raise (hf_decode Sample.broken_tokenizer) chunks) /\
  ids = match hf_encode Sample.broken_tokenizer "abc" with
        | inr hf_ids => TokenId <$> hf_ids
        | inl _ =>
            match Sample.char_tokens "abc" with
            | inr tiktoken_ids => TokenId <$> tiktoken_ids
            | inl _ => TokenWord <$> Py.split "abc"
            end
        end.
Proof.
  intros st ids chunks.
  assert (Sample.broken_hf "model" = inr Sample.broken_tokenizer) as Hload
    by reflexivity.
  assert ((encode_tokens Sample.broken_hf Sample.char_tokens "abc"
             "HuggingFace" "model" st).1 = Returns ids) as Henc
    by reflexivity.
  assert (ids <> []) as Hne by discriminate.
  assert (chunk_loop 3 ids 2 0 0 [] = Some chunks) as Hloop by reflexivity.
  repeat (split; [assumption|]).
  exact (chunk_text_by_tokens_hf_decodes_any_tokens Sample.broken_hf
           Sample.char_tokens 3 "abc" 2 "model" 0 st Sample.broken_tokenizer
           ids chunks Hload Henc Hne Hloop).
Defined.

Example lmstudio_base_of_an_address :
  _lmstudio_base "http://127.0.0.1:1234//" = "http://127.0.0.1:1234" /\
  chat_completions_url "http://127.0.0.1:1234/" =
    "http://127.0.0.1:1234/v1/chat/completions".
Proof. split; reflexivity. Qed.
